(** * Gmail MCP server: a shallow embedding of the mailbox gateway

    The repository ships two servers.  [Primary] follows
    [gmail_mcp_server.py] (class [GmailService] and its thin asynchronous
    tool wrappers); [Secondary] follows [gmail_mcp_server_secondary.py]
    (class [GmailMCPServer], whose tools are closures returning result
    dictionaries).  The remote provider, the local file system and the
    interactive OAuth flow are oracles passed in as records; every call
    to them is written to an event trace so that statements can speak
    about the requests that were issued. *)

From stdpp Require Import base list strings pretty gmap.
From Stdlib Require Import ZArith NArith Ascii String.

Local Open Scope string_scope.
Local Open Scope list_scope.
Set Warnings "-register-all".

(** ** Python runtime layer *)

Module Py.

(** The exception classes that the two servers can meet.  [OSError]
    stands for itself and for its subclasses [FileNotFoundError],
    [PermissionError] and [IsADirectoryError]; [BinasciiError] and
    [UnicodeDecodeError] are subclasses of [ValueError] in Python but are
    kept apart here because no handler of the source tells them from
    other exceptions by class.  An [HttpError] carries the text that the
    client library renders for it (from the status, the request URI and
    the reason the provider gave); [HeaderParseError] is what the
    [email] package raises when a message cannot be serialised. *)
Inductive exn : Type :=
| HttpError (status : Z) (text : string)
| OSError (msg : string)
| KeyError (key : string)
| AttributeError (msg : string)
| ValueError (msg : string)
| BinasciiError (msg : string)
| UnicodeDecodeError (msg : string)
| RefreshError (msg : string)
| RuntimeError (msg : string)
| TransportError (msg : string)
| HeaderParseError (msg : string).

(** [isinstance(e, HttpError)] and [isinstance(e, OSError)]. *)
Definition is_HttpError (e : exn) : bool :=
  match e with HttpError _ _ => true | _ => false end.

Definition is_OSError (e : exn) : bool :=
  match e with OSError _ => true | _ => false end.

(** Every class above derives from [Exception]. *)
Definition is_Exception (e : exn) : bool := true.

(** [str(e)].  A [KeyError] prints the repr of its key; the keys of
    the source are plain words. *)
Definition str (e : exn) : string :=
  match e with
  | HttpError _ text => text
  | KeyError key => "'" +:+ key +:+ "'"
  | OSError msg | AttributeError msg | ValueError msg | BinasciiError msg
  | UnicodeDecodeError msg | RefreshError msg | RuntimeError msg
  | TransportError msg | HeaderParseError msg => msg
  end.

(** The result of running a piece of Python: a value or a raised
    exception. *)
Inductive outcome (A : Type) : Type :=
| Return (a : A)
| Raise (e : exn).
Arguments Return {A} a.
Arguments Raise {A} e.

#[global] Instance outcome_ret : MRet outcome := @Return.
#[global] Instance outcome_bind : MBind outcome := fun A B k o =>
  match o with Return a => k a | Raise e => Raise e end.

(** Dynamically typed values: what tools hand back to their caller and
    the free-form parts of requests. *)
Inductive pyval : Type :=
| PNone
| PBool (b : bool)
| PInt (z : Z)
| PStr (s : string)
| PList (l : list pyval)
| PDict (d : gmap string pyval).

Definition opt_str (o : option string) : pyval :=
  match o with Some s => PStr s | None => PNone end.

(** [type(v).__name__]. *)
Definition type_name (v : pyval) : string :=
  match v with
  | PNone => "NoneType"
  | PBool _ => "bool"
  | PInt _ => "int"
  | PStr _ => "str"
  | PList _ => "list"
  | PDict _ => "dict"
  end.

(** *** Strings *)

Definition byte_in (lo hi : N) (c : ascii) : bool :=
  let n := N_of_ascii c in ((lo <=? n) && (n <=? hi))%N.

(** [sep.join(l)]. *)
Definition join (sep : string) (l : list string) : string := String.concat sep l.

(** [s.startswith(p)]. *)
Fixpoint startswith (p s : string) : bool :=
  match p with
  | EmptyString => true
  | String a p' =>
      match s with
      | String b s' => Ascii.eqb a b && startswith p' s'
      | EmptyString => false
      end
  end.

(** [s.replace(old, new)] for a non-empty [old]: a left-to-right scan
    that replaces every non-overlapping occurrence.  [skip] counts the
    characters of a matched occurrence that are still to be dropped. *)
Fixpoint replace_from (skip : nat) (old new s : string) : string :=
  match s with
  | EmptyString => EmptyString
  | String c s' =>
      match skip with
      | S k => replace_from k old new s'
      | O =>
          if startswith old s
          then new +:+ replace_from (Nat.pred (String.length old)) old new s'
          else String c (replace_from 0 old new s')
      end
  end.

Definition replace (old new s : string) : string := replace_from 0 old new s.

(** [old in s]. *)
Fixpoint occurs (old s : string) : bool :=
  match s with
  | EmptyString => startswith old s
  | String _ s' => startswith old s || occurs old s'
  end.

(** [os.path.basename(p)]: what follows the last slash.  [acc] is the
    component read so far. *)
Fixpoint basename_from (acc s : string) : string :=
  match s with
  | EmptyString => acc
  | String c s' =>
      if Ascii.eqb c "/"%char then basename_from EmptyString s'
      else basename_from (acc +:+ String c EmptyString) s'
  end.

Definition basename (p : string) : string := basename_from EmptyString p.

(** [s.split(sep)] for a non-empty separator; [skip] as in
    [replace_from], [acc] is the piece read so far. *)
Fixpoint split_from (skip : nat) (sep acc s : string) : list string :=
  match s with
  | EmptyString => [acc]
  | String c s' =>
      match skip with
      | S k => split_from k sep acc s'
      | O =>
          if startswith sep s
          then acc :: split_from (Nat.pred (String.length sep)) sep EmptyString s'
          else split_from 0 sep (acc +:+ String c EmptyString) s'
      end
  end.

Definition split (sep s : string) : list string := split_from 0 sep EmptyString s.

(** [s.strip()].  Text is kept as its UTF-8 bytes, so the white space
    of [str.isspace] shows as the bytes 9-13 and 28-32, the two-byte
    sequences of U+0085 and U+00A0, and the three-byte sequences of
    U+1680, U+2000-U+200A, U+2028, U+2029, U+202F, U+205F and U+3000. *)
Definition is_space (c : ascii) : bool := byte_in 9 13 c || byte_in 28 32 c.

Definition is_space2 (a b : ascii) : bool :=
  byte_in 194 194 a && (byte_in 133 133 b || byte_in 160 160 b).

Definition is_space3 (a b c : ascii) : bool :=
  (byte_in 225 225 a && byte_in 154 154 b && byte_in 128 128 c)
  || (byte_in 226 226 a && byte_in 128 128 b
      && (byte_in 128 138 c || byte_in 168 169 c || byte_in 175 175 c))
  || (byte_in 226 226 a && byte_in 129 129 b && byte_in 159 159 c)
  || (byte_in 227 227 a && byte_in 128 128 b && byte_in 128 128 c).

Fixpoint lstrip (s : string) : string :=
  match s with
  | EmptyString => EmptyString
  | String a s1 =>
      if is_space a then lstrip s1
      else
        match s1 with
        | EmptyString => s
        | String b s2 =>
            if is_space2 a b then lstrip s2
            else
              match s2 with
              | EmptyString => s
              | String c s3 => if is_space3 a b c then lstrip s3 else s
              end
        end
  end.

(** A suffix made of white space only is cut off where it starts. *)
Fixpoint rstrip (s : string) : string :=
  match s with
  | EmptyString => EmptyString
  | String c s' =>
      match lstrip s with
      | EmptyString => EmptyString
      | _ => String c (rstrip s')
      end
  end.

Definition strip (s : string) : string := rstrip (lstrip s).

(** Whether a path holds a NUL character, which no call of the
    operating system accepts. *)
Definition has_nul (p : string) : bool := occurs (String (ascii_of_N 0) EmptyString) p.

(** [s.lstrip(c)] and [s.rstrip(c)] for a one-character argument. *)
Fixpoint lstrip_char (c : ascii) (s : string) : string :=
  match s with
  | String a s' => if Ascii.eqb a c then lstrip_char c s' else s
  | EmptyString => EmptyString
  end.

Fixpoint rstrip_char (c : ascii) (s : string) : string :=
  match s with
  | String a s' =>
      match rstrip_char c s' with
      | EmptyString => if Ascii.eqb a c then EmptyString else String a EmptyString
      | rest => String a rest
      end
  | EmptyString => EmptyString
  end.

(** The newline character, as a string. *)
Definition nl : string := String (ascii_of_N 10) EmptyString.

(** The double-quote character, as a string. *)
Definition dquote : string := String (ascii_of_N 34) EmptyString.

(** Truthiness of a string and of an optional value. *)
Definition truthy_str (s : string) : bool :=
  match s with EmptyString => false | _ => true end.

Definition truthy_opt_str (o : option string) : bool :=
  match o with Some s => truthy_str s | None => false end.

Definition truthy_opt_list {A} (o : option (list A)) : bool :=
  match o with Some (_ :: _) => true | _ => false end.

(** *** Codecs of the standard library

    Python text is kept as its UTF-8 bytes, so [bytes.decode('utf-8')]
    is a well-formedness check that hands the same bytes back.  A
    [str] with a lone surrogate has no UTF-8 encoding and is outside
    the model. *)

(** Value of a character of the base64 alphabet, after the translation
    that [base64.urlsafe_b64decode] applies ([-] for [+], [_] for [/]). *)
Definition b64_value (c : ascii) : option N :=
  let n := N_of_ascii c in
  if byte_in 65 90 c then Some (n - 65)%N
  else if byte_in 97 122 c then Some (n - 71)%N
  else if byte_in 48 57 c then Some (n + 4)%N
  else if (byte_in 43 43 c || byte_in 45 45 c)%bool then Some 62%N
  else if (byte_in 47 47 c || byte_in 95 95 c)%bool then Some 63%N
  else None.

Definition emit (b : N) (r : outcome string) : outcome string :=
  match r with
  | Return s => Return (String (ascii_of_N (N.land b 255)) s)
  | Raise e => Raise e
  end.

(** [binascii.a2b_base64] in its default, lenient mode: characters
    outside the alphabet are skipped, a complete pad sequence ends the
    input, and leftover characters of an unfinished quad are an error.
    [quads] counts the quads decoded so far, for the error text. *)
Fixpoint a2b_base64_from (quad_pos : nat) (leftchar : N) (pads : nat) (quads : nat)
    (s : string) : outcome string :=
  match s with
  | EmptyString =>
      match quad_pos with
      | O => Return EmptyString
      | S O => Raise (BinasciiError
          ("Invalid base64-encoded string: number of data characters ("
           +:+ pretty (4 * quads + 1)%nat
           +:+ ") cannot be 1 more than a multiple of 4"))
      | _ => Raise (BinasciiError "Incorrect padding")
      end
  | String c s' =>
      if Ascii.eqb c "="%char then
        if (2 <=? quad_pos)%nat then
          if (4 <=? quad_pos + S pads)%nat then Return EmptyString
          else a2b_base64_from quad_pos leftchar (S pads) quads s'
        else a2b_base64_from quad_pos leftchar pads quads s'
      else
        match b64_value c with
        | None => a2b_base64_from quad_pos leftchar pads quads s'
        | Some v =>
            match quad_pos with
            | O => a2b_base64_from 1 v 0 quads s'
            | S O =>
                emit (N.lor (N.shiftl leftchar 2) (N.shiftr v 4))
                  (a2b_base64_from 2 (N.land v 15) 0 quads s')
            | S (S O) =>
                emit (N.lor (N.shiftl leftchar 4) (N.shiftr v 2))
                  (a2b_base64_from 3 (N.land v 3) 0 quads s')
            | _ =>
                emit (N.lor (N.shiftl leftchar 6) v)
                  (a2b_base64_from 0 0 0 (S quads) s')
            end
        end
  end.

Definition is_ascii_str (s : string) : bool :=
  forallb (byte_in 0 127) (list_ascii_of_string s).

(** [base64.urlsafe_b64decode(s)] for a [str] argument. *)
Definition urlsafe_b64decode (s : string) : outcome string :=
  if is_ascii_str s then a2b_base64_from 0 0 0 0 s
  else Raise (ValueError "string argument should contain only ASCII characters").

(** The continuation bytes a lead byte asks for, as ranges (the table of
    well-formed UTF-8 byte sequences); [None] for a byte that cannot
    start a sequence. *)
Definition utf8_lead (c : ascii) : option (list (N * N)) :=
  let tail := (128, 191)%N in
  if byte_in 0 127 c then Some []
  else if byte_in 194 223 c then Some [tail]
  else if byte_in 224 224 c then Some [(160, 191)%N; tail]
  else if byte_in 237 237 c then Some [(128, 159)%N; tail]
  else if byte_in 225 239 c then Some [tail; tail]
  else if byte_in 240 240 c then Some [(144, 191)%N; tail; tail]
  else if byte_in 241 243 c then Some [tail; tail; tail]
  else if byte_in 244 244 c then Some [(128, 143)%N; tail; tail]
  else None.

Definition push (c : ascii) (r : outcome string) : outcome string :=
  match r with Return s => Return (String c s) | Raise e => Raise e end.

Definition hex_digit (n : N) : ascii :=
  if (n <? 10)%N then ascii_of_N (48 + n) else ascii_of_N (87 + n).

Definition hex_byte (c : ascii) : string :=
  let n := N_of_ascii c in
  String (hex_digit (n / 16)) (String (hex_digit (n mod 16)) EmptyString).

(** The [UnicodeDecodeError] of the UTF-8 codec for the bytes from
    [start] up to [stop], the first of which is [first]. *)
Definition codec_error (first : ascii) (start stop : nat) (reason : string) : exn :=
  UnicodeDecodeError
    (if (stop =? S start)%nat
     then "'utf-8' codec can't decode byte 0x" +:+ hex_byte first
          +:+ " in position " +:+ pretty start +:+ ": " +:+ reason
     else "'utf-8' codec can't decode bytes in position " +:+ pretty start
          +:+ "-" +:+ pretty (Nat.pred stop) +:+ ": " +:+ reason).

(** [b.decode('utf-8')]: strict, raises on the first ill-formed byte.
    [pos] is the index of the byte being read, [start] and [first] are
    the index and the lead byte of the sequence it belongs to. *)
Fixpoint utf8_decode_from (pending : list (N * N)) (first : ascii) (start pos : nat)
    (b : string) : outcome string :=
  match b with
  | EmptyString =>
      match pending with
      | [] => Return EmptyString
      | _ => Raise (codec_error first start pos "unexpected end of data")
      end
  | String c b' =>
      match pending with
      | [] =>
          match utf8_lead c with
          | Some p => push c (utf8_decode_from p c pos (S pos) b')
          | None => Raise (codec_error c pos (S pos) "invalid start byte")
          end
      | (lo, hi) :: p =>
          if byte_in lo hi c then push c (utf8_decode_from p first start (S pos) b')
          else Raise (codec_error first start pos "invalid continuation byte")
      end
  end.

Definition decode_utf8 (b : string) : outcome string :=
  utf8_decode_from [] (ascii_of_N 0) 0 0 b.

(** [b.decode('utf-8', errors='ignore')]: ill-formed bytes are dropped,
    nothing is raised.  [buf] holds the bytes of the sequence being
    read. *)
Fixpoint utf8_ignore_from (pending : list (N * N)) (buf b : string) : string :=
  match b with
  | EmptyString => EmptyString
  | String c b' =>
      let restart :=
        match utf8_lead c with
        | Some [] => String c (utf8_ignore_from [] EmptyString b')
        | Some p => utf8_ignore_from p (String c EmptyString) b'
        | None => utf8_ignore_from [] EmptyString b'
        end in
      match pending with
      | [] => restart
      | (lo, hi) :: p =>
          if byte_in lo hi c then
            match p with
            | [] => buf +:+ String c (utf8_ignore_from [] EmptyString b')
            | _ => utf8_ignore_from p (buf +:+ String c EmptyString) b'
            end
          else restart
      end
  end.

Definition decode_utf8_ignore (b : string) : string :=
  utf8_ignore_from [] EmptyString b.

End Py.

(** ** Outbound MIME objects *)

Module Mime.

(** The three classes of [email.mime] that the servers build.  A header
    list holds the headers the source assigns, in the order of
    assignment; [Content-Type] and [MIME-Version], which the
    constructors write themselves, are read off the constructor.  The
    payload of a [MIMEBase] part is kept as the file's bytes; the
    [Content-Transfer-Encoding] header added by [encode_base64] says how
    they travel. *)
Inductive mime : Type :=
| MIMEText (text subtype : string) (hdrs : list (string * string))
| MIMEBase (maintype subtype : string) (payload : string) (hdrs : list (string * string))
| MIMEMultipart (subtype : string) (hdrs : list (string * string)) (attached : list mime).

Definition headers_of (m : mime) : list (string * string) :=
  match m with
  | MIMEText _ _ h | MIMEBase _ _ _ h | MIMEMultipart _ h _ => h
  end.

(** [message[k] = v] appends a header; it never replaces one. *)
Definition setitem (k v : string) (m : mime) : mime :=
  match m with
  | MIMEText t s h => MIMEText t s (h ++ [(k, v)])
  | MIMEBase a b p h => MIMEBase a b p (h ++ [(k, v)])
  | MIMEMultipart s h l => MIMEMultipart s (h ++ [(k, v)]) l
  end.

(** [for k, v in headers.items(): message[k] = v]. *)
Definition set_all (items : list (string * string)) (m : mime) : mime :=
  fold_left (fun acc kv => setitem (fst kv) (snd kv) acc) items m.

(** [message.attach(p)].  The source attaches to multipart containers
    only; on the other classes Python raises and the model leaves the
    object as it is. *)
Definition attach (p : mime) (m : mime) : mime :=
  match m with
  | MIMEMultipart s h l => MIMEMultipart s h (l ++ [p])
  | _ => m
  end.

Definition lower_char (c : ascii) : ascii :=
  if Py.byte_in 65 90 c then ascii_of_N (N_of_ascii c + 32) else c.

Fixpoint lower (s : string) : string :=
  match s with
  | EmptyString => EmptyString
  | String c s' => String (lower_char c) (lower s')
  end.

(** [message.get_all(k)]: the headers of that name, compared without
    regard to case. *)
Definition get_all (k : string) (m : mime) : list string :=
  snd <$> List.filter (fun kv => String.eqb (lower (fst kv)) (lower k)) (headers_of m).

(** [encoders.encode_base64(part)]. *)
Definition encode_base64 (m : mime) : mime :=
  setitem "Content-Transfer-Encoding" "base64" m.

End Mime.

(** ** Resources of the remote provider

    Responses are JSON objects whose fields may be missing; a missing
    field is [None].  Subscripting a missing field raises [KeyError],
    [dict.get] supplies a default. *)

Module Gmail.

Record header : Type := Header { name : option string; value : option string }.

Record part_body : Type := PartBody {
  data : option string;
  attachmentId : option string }.

Inductive part : Type := Part {
  mimeType : option string;
  headers : option (list header);
  body : option part_body;
  parts : option (list part) }.

Record message : Type := Message {
  msg_id : option string;
  threadId : option string;
  labelIds : option (list string);
  snippet : option string;
  payload : option part;
  sizeEstimate : option Z;
  internalDate : option string }.

Record list_response : Type := ListResponse { messages : option (list message) }.

Record thread : Type := Thread { thread_messages : option (list message) }.

Record draft : Type := Draft {
  draft_id : option string;
  draft_message : option message }.

Record profile : Type := Profile {
  emailAddress : option string;
  messagesTotal : option Z;
  threadsTotal : option Z;
  historyId : option string }.

Record label : Type := Label {
  label_id : option string;
  label_name : option string;
  label_type : option string;
  messageListVisibility : option string;
  labelListVisibility : option string }.

Record labels_response : Type := LabelsResponse { labels : option (list label) }.

Record filter : Type := Filter {
  filter_id : option string;
  criteria : option (gmap string Py.pyval);
  action : option (gmap string Py.pyval) }.

Record attachment : Type := Attachment { attachment_data : option string }.

(** [d[k]] on a field that may be missing. *)
Definition subscript {A} (key : string) (field : option A) : Py.outcome A :=
  match field with
  | Some a => Py.Return a
  | None => Py.Raise (Py.KeyError key)
  end.

(** The body of a [messages.send] request.  [raw] stands for
    [base64.urlsafe_b64encode(message.as_bytes()).decode()]: the bytes
    are left symbolic and the request is recorded with the MIME object
    they serialise.  Whether [as_bytes] returns at all is asked of the
    host before a request is built. *)
Record send_body : Type := SendBody {
  raw : Mime.mime;
  send_threadId : option string }.

End Gmail.

(** ** Effects: the provider, the file system, the event trace *)

Module World.
Import Py.

(** Requests to the provider, with the arguments the source passes. *)
Inductive request : Type :=
| GetProfile
| MessagesSend (b : Gmail.send_body)
| MessagesGet (id format : string) (metadataHeaders : option (list string))
| MessagesList (q : string) (maxResults : Z) (includeSpamTrash : option bool)
| MessagesModify (id : string) (body : gmap string (list string))
| MessagesDelete (id : string)
| MessagesTrash (id : string)
| MessagesBatchModify (ids : list string) (body : gmap string (list string))
| AttachmentsGet (messageId id : string)
| DraftsCreate (raw : Mime.mime)
| ThreadsGet (id : string)
| LabelsList
| LabelsCreate (name messageListVisibility labelListVisibility : string)
| FiltersCreate (criteria action : gmap string pyval).

(** What the servers do to the outside world, in program order. *)
Inductive event : Type :=
| LogWarning (msg : string)
| LogError (msg : string)
| Stderr (msg : string)
| Call (r : request)
| LoadToken
| Refresh
| LoadClientSecrets
| RunLocalServer
| Prompt (msg : string)
| FetchToken (code : string)
| WriteToken
| WriteFile (path content : string).

(** Computations: an outcome together with the events produced. *)
Definition M (A : Type) : Type := (outcome A * list event)%type.

Definition ret {A} (a : A) : M A := (Return a, []).
Definition raise {A} (e : exn) : M A := (Raise e, []).
Definition tell (ev : event) : M unit := (Return tt, [ev]).

(** An effectful call: the event, then whatever the oracle answers. *)
Definition perform {A} (ev : event) (answer : outcome A) : M A := (answer, [ev]).

Definition bind {A B} (m : M A) (k : A -> M B) : M B :=
  match m with
  | (Return a, t) => let '(r, t') := k a in (r, t ++ t')
  | (Raise e, t) => (Raise e, t)
  end.

(** [try: m  except C as e: h e], where [catches] decides membership in
    the class [C]. *)
Definition try_except {A} (m : M A) (catches : exn -> bool) (h : exn -> M A) : M A :=
  match m with
  | (Return a, t) => (Return a, t)
  | (Raise e, t) =>
      if catches e then let '(r, t') := h e in (r, t ++ t') else (Raise e, t)
  end.

#[global] Instance M_ret : MRet M := @ret.
#[global] Instance M_bind : MBind M := fun A B k m => bind m k.

Definition result {A} (m : M A) : outcome A := fst m.
Definition trace {A} (m : M A) : list event := snd m.

(** A pure, possibly failing step. *)
Definition pure {A} (o : outcome A) : M A := (o, []).

(** [for x in l: ...] collecting one value per iteration. *)
Fixpoint for_each {A B} (l : list A) (f : A -> M B) : M (list B) :=
  match l with
  | [] => ret []
  | x :: l' => y ← f x; ys ← for_each l' f; ret (y :: ys)
  end.

(** The provider as an oracle: what [.execute()] answers to each
    request. *)
Record Service : Type := {
  getProfile : outcome Gmail.profile;
  messages_send : Gmail.send_body -> outcome Gmail.message;
  messages_get : string -> string -> option (list string) -> outcome Gmail.message;
  messages_list : string -> Z -> option bool -> outcome Gmail.list_response;
  messages_modify : string -> gmap string (list string) -> outcome Gmail.message;
  messages_delete : string -> outcome unit;
  messages_trash : string -> outcome Gmail.message;
  messages_batchModify : list string -> gmap string (list string) -> outcome unit;
  attachments_get : string -> string -> outcome Gmail.attachment;
  drafts_create : Mime.mime -> outcome Gmail.draft;
  threads_get : string -> outcome Gmail.thread;
  labels_list : outcome Gmail.labels_response;
  labels_create : string -> string -> string -> outcome Gmail.label;
  filters_create : gmap string pyval -> gmap string pyval -> outcome Gmail.filter }.

Definition users_getProfile (s : Service) : M Gmail.profile :=
  perform (Call GetProfile) (getProfile s).

Definition users_messages_send (s : Service) (b : Gmail.send_body) : M Gmail.message :=
  perform (Call (MessagesSend b)) (messages_send s b).

Definition users_messages_get (s : Service) (id format : string)
    (metadataHeaders : option (list string)) : M Gmail.message :=
  perform (Call (MessagesGet id format metadataHeaders))
    (messages_get s id format metadataHeaders).

Definition users_messages_list (s : Service) (q : string) (maxResults : Z)
    (includeSpamTrash : option bool) : M Gmail.list_response :=
  perform (Call (MessagesList q maxResults includeSpamTrash))
    (messages_list s q maxResults includeSpamTrash).

Definition users_drafts_create (s : Service) (raw : Mime.mime) : M Gmail.draft :=
  perform (Call (DraftsCreate raw)) (drafts_create s raw).

Definition users_threads_get (s : Service) (id : string) : M Gmail.thread :=
  perform (Call (ThreadsGet id)) (threads_get s id).

Definition users_messages_modify (s : Service) (id : string)
    (body : gmap string (list string)) : M Gmail.message :=
  perform (Call (MessagesModify id body)) (messages_modify s id body).

Definition users_messages_delete (s : Service) (id : string) : M unit :=
  perform (Call (MessagesDelete id)) (messages_delete s id).

Definition users_messages_trash (s : Service) (id : string) : M Gmail.message :=
  perform (Call (MessagesTrash id)) (messages_trash s id).

Definition users_messages_batchModify (s : Service) (ids : list string)
    (body : gmap string (list string)) : M unit :=
  perform (Call (MessagesBatchModify ids body)) (messages_batchModify s ids body).

Definition users_attachments_get (s : Service) (messageId id : string)
    : M Gmail.attachment :=
  perform (Call (AttachmentsGet messageId id)) (attachments_get s messageId id).

Definition users_labels_list (s : Service) : M Gmail.labels_response :=
  perform (Call LabelsList) (labels_list s).

Definition users_labels_create (s : Service)
    (name messageListVisibility labelListVisibility : string) : M Gmail.label :=
  perform (Call (LabelsCreate name messageListVisibility labelListVisibility))
    (labels_create s name messageListVisibility labelListVisibility).

Definition users_filters_create (s : Service) (criteria action : gmap string pyval)
    : M Gmail.filter :=
  perform (Call (FiltersCreate criteria action)) (filters_create s criteria action).

(** The local file system as the attachment code sees it. *)
Inductive file : Type :=
| Absent
| Directory
| Regular (readable : bool) (content : string).

Definition Files : Type := string -> file.

(** [os.path.isfile(p)]: false, without an exception, for a path that
    holds a NUL character. *)
Definition isfile (fs : Files) (p : string) : bool :=
  if has_nul p then false
  else match fs p with Regular _ _ => true | _ => false end.

(** [open(p, 'rb').read()].  A path that holds a NUL character is
    refused with [ValueError] before the file system is asked. *)
Definition read_bytes (fs : Files) (p : string) : outcome string :=
  if has_nul p then Raise (ValueError "embedded null byte")
  else
    match fs p with
    | Regular true content => Return content
    | Regular false _ => Raise (OSError ("[Errno 13] Permission denied: '" +:+ p +:+ "'"))
    | Directory => Raise (OSError ("[Errno 21] Is a directory: '" +:+ p +:+ "'"))
    | Absent => Raise (OSError ("[Errno 2] No such file or directory: '" +:+ p +:+ "'"))
    end.

(** [message.as_bytes()] of the [email] package: [Return tt] when the
    message object serialises, otherwise the exception the call ends
    with, such as [HeaderParseError] for a header value that holds a
    line looking like a header of its own.  Which values the package
    refuses is its own affair, so the answer is an oracle. *)
Definition Serialiser : Type := Mime.mime -> outcome unit.

(** An OAuth credential as [google.oauth2.credentials.Credentials]
    shows it: [valid] is "has a token that has not expired". *)
Record Credentials : Type := {
  token : option string;
  refresh_token : option string;
  expired : bool }.

Definition valid (c : Credentials) : bool :=
  match token c with Some _ => negb (expired c) | None => false end.

(** Everything authentication reads from outside: the path of the
    token file, the file itself ([None] when it does not exist,
    otherwise what loading it gives), the token endpoint, the path of
    the client-secret file and whether it exists, what loading it
    gives, the browser flow, the console, and whether the token file
    can be written. *)
Record AuthHost : Type := {
  token_path : string;
  token_file : option (outcome Credentials);
  refresh : Credentials -> outcome Credentials;
  credentials_path : string;
  credentials_file_exists : bool;
  from_client_secrets_file : outcome unit;
  run_local_server : outcome Credentials;
  authorization_url : string;
  input : outcome string;
  fetch_token : string -> outcome Credentials;
  write_token : Credentials -> outcome unit }.

End World.

(** ** The secondary server: [gmail_mcp_server_secondary.py] *)

Module Secondary.
Import Py World.

(** The attribute [self.service] of the server object: [None] until
    [authenticate] has run. *)
Definition the_service (self_service : option Service) : M Service :=
  match self_service with
  | Some s => ret s
  | None => raise (AttributeError "'NoneType' object has no attribute 'users'")
  end.

(** [list_labels] and [get_profile] are declared with a parameter named
    [self] of their own, which hides the server object: the value the
    caller passes is what [self.service] is read from. *)
Inductive receiver : Type :=
| Server (service : option Service)
| Plain (v : pyval).

Definition receiver_service (self : receiver) : M Service :=
  match self with
  | Server service => the_service service
  | Plain v =>
      raise (AttributeError
        ("'" +:+ type_name v +:+ "' object has no attribute 'service'"))
  end.

(** [{h['name']: h['value'] for h in hs}]: a later header of the same
    name overwrites an earlier one, and the first entry that lacks its
    name or its value ends the comprehension with [KeyError].  [d]
    holds the entries read so far. *)
Fixpoint header_dict_from (d : gmap string string) (hs : list Gmail.header)
    : outcome (gmap string string) :=
  match hs with
  | [] => Return d
  | h :: hs' =>
      k ← Gmail.subscript "name" (Gmail.name h);
      v ← Gmail.subscript "value" (Gmail.value h);
      header_dict_from (<[k := v]> d) hs'
  end.

Definition header_dict (hs : list Gmail.header) : outcome (gmap string string) :=
  header_dict_from ∅ hs.

(** [d.get(k, '')]. *)
Definition get_or_empty (d : gmap string string) (k : string) : string :=
  default EmptyString (d !! k).

(** [base64.urlsafe_b64decode(data).decode('utf-8')]. *)
Definition decode_data (data : string) : outcome string :=
  b ← urlsafe_b64decode data; decode_utf8 b.

(** [part['body']['data']]. *)
Definition body_data (p : Gmail.part) : outcome string :=
  b ← Gmail.subscript "body" (Gmail.body p); Gmail.subscript "data" (Gmail.data b).

(** The loop of [_extract_body] over [payload['parts']]; [body] is the
    local variable of that name. *)
Fixpoint scan_parts (body : string) (l : list Gmail.part) : outcome string :=
  match l with
  | [] => Return body
  | p :: l' =>
      mt ← Gmail.subscript "mimeType" (Gmail.mimeType p);
      if String.eqb mt "text/plain" then
        data ← body_data p; decode_data data
      else if String.eqb mt "text/html" then
        data ← body_data p; html ← decode_data data; scan_parts html l'
      else scan_parts body l'
  end.

Definition _extract_body (payload : Gmail.part) : outcome string :=
  match Gmail.parts payload with
  | Some l => scan_parts EmptyString l
  | None =>
      b ← Gmail.subscript "body" (Gmail.body payload);
      if truthy_opt_str (Gmail.data b) then
        data ← Gmail.subscript "data" (Gmail.data b); decode_data data
      else Return EmptyString
  end.

(** The two result shapes of a tool. *)
Definition failure (e : exn) : pyval :=
  PDict {[ "success" := PBool false; "error" := PStr (str e) ]}.

Definition success (fields : list (string * pyval)) : pyval :=
  PDict (<["success" := PBool true]> (list_to_map fields)).

(** Every tool body sits in [try: ... except Exception as e: return
    {'success': False, 'error': str(e)}]. *)
Definition tool (body : M pyval) : M pyval :=
  try_except body is_Exception (fun e => ret (failure e)).

Definition text_subtype (html : bool) : string := if html then "html" else "plain".

(** The environment of the tools: the file system,
    [mimetypes.guess_type], what writing a file answers, and whether a
    message object serialises. *)
Record Host : Type := {
  fs : Files;
  guess_type : string -> option string;
  write_file : string -> string -> outcome unit;
  as_bytes : Serialiser }.

(** [main_type, sub_type = mime_type.split('/')]. *)
Definition unpack_type (mime_type : string) : outcome (string * string) :=
  match split "/" mime_type with
  | [a; b] => Return (a, b)
  | [_] => Raise (ValueError "not enough values to unpack (expected 2, got 1)")
  | _ => Raise (ValueError "too many values to unpack (expected 2)")
  end.

(** One iteration of the attachment loop of [send_email]. *)
Definition attach_file (h : Host) (message : Mime.mime) (file_path : string)
    : outcome Mime.mime :=
  if isfile (fs h) file_path then
    content ← read_bytes (fs h) file_path;
    ty ← match guess_type h file_path with
         | Some mime_type =>
             if truthy_str mime_type then unpack_type mime_type
             else Return ("application", "octet-stream")
         | None => Return ("application", "octet-stream")
         end;
    let attachment := Mime.MIMEBase (fst ty) (snd ty) content [] in
    let attachment := Mime.encode_base64 attachment in
    let attachment := Mime.setitem "Content-Disposition"
      ("attachment; filename=" +:+ dquote +:+ basename file_path +:+ dquote) attachment in
    Return (Mime.attach attachment message)
  else Return message.

Fixpoint attach_files (h : Host) (message : Mime.mime) (paths : list string)
    : outcome Mime.mime :=
  match paths with
  | [] => Return message
  | file_path :: rest => m ← attach_file h message file_path; attach_files h m rest
  end.

(** The address headers that [send_email] and [create_draft] set. *)
Definition address_headers (to subject : string) (cc bcc : option string)
    (message : Mime.mime) : Mime.mime :=
  let message := Mime.setitem "to" to message in
  let message := Mime.setitem "subject" subject message in
  let message := if truthy_opt_str cc
                 then Mime.setitem "cc" (default EmptyString cc) message else message in
  if truthy_opt_str bcc
  then Mime.setitem "bcc" (default EmptyString bcc) message else message.

(** The message object of [send_email] before the headers are set. *)
Definition send_email_message (h : Host) (body : string) (html : bool)
    (attachments : option (list string)) : outcome Mime.mime :=
  if truthy_opt_list attachments then
    let message := Mime.MIMEMultipart "mixed" [] [] in
    let message := Mime.attach (Mime.MIMEText body (text_subtype html) []) message in
    attach_files h message (default [] attachments)
  else Return (Mime.MIMEText body (text_subtype html) []).

Definition send_email_body (h : Host) (self_service : option Service)
    (to subject body : string) (cc bcc : option string) (html : bool)
    (attachments : option (list string)) : M pyval :=
  message ← pure (send_email_message h body html attachments);
  let message := address_headers to subject cc bcc message in
  _ ← pure (as_bytes h message);
  svc ← the_service self_service;
  sent_message ← users_messages_send svc (Gmail.SendBody message None);
  id ← pure (Gmail.subscript "id" (Gmail.msg_id sent_message));
  ret (success [("messageId", PStr id);
                ("threadId", opt_str (Gmail.threadId sent_message))]).

Definition create_draft_body (h : Host) (self_service : option Service)
    (to subject body : string) (cc bcc : option string) (html : bool) : M pyval :=
  let message := Mime.MIMEText body (text_subtype html) [] in
  let message := address_headers to subject cc bcc message in
  _ ← pure (as_bytes h message);
  svc ← the_service self_service;
  draft ← users_drafts_create svc message;
  draft_id ← pure (Gmail.subscript "id" (Gmail.draft_id draft));
  msg ← pure (Gmail.subscript "message" (Gmail.draft_message draft));
  id ← pure (Gmail.subscript "id" (Gmail.msg_id msg));
  ret (success [("draftId", PStr draft_id); ("messageId", PStr id)]).

(** [msg_data['payload'].get('headers', [])] as a dictionary. *)
Definition payload_headers (m : Gmail.message) : outcome (gmap string string) :=
  payload ← Gmail.subscript "payload" (Gmail.payload m);
  header_dict (default [] (Gmail.headers payload)).

(** One iteration of the loop of [search_emails]. *)
Definition search_item (svc : Service) (msg : Gmail.message) : M pyval :=
  id ← pure (Gmail.subscript "id" (Gmail.msg_id msg));
  msg_data ← users_messages_get svc id "metadata" (Some ["From"; "To"; "Subject"; "Date"]);
  headers ← pure (payload_headers msg_data);
  threadId ← pure (Gmail.subscript "threadId" (Gmail.threadId msg_data));
  ret (PDict (list_to_map [
    ("id", PStr id);
    ("threadId", PStr threadId);
    ("from", PStr (get_or_empty headers "From"));
    ("to", PStr (get_or_empty headers "To"));
    ("subject", PStr (get_or_empty headers "Subject"));
    ("date", PStr (get_or_empty headers "Date"));
    ("snippet", PStr (default EmptyString (Gmail.snippet msg_data)));
    ("labelIds", PList (PStr <$> default [] (Gmail.labelIds msg_data)))])).

(** The list [email_list] that [search_emails] builds. *)
Definition search_email_list (self_service : option Service)
    (query : string) (max_results : Z) (include_spam_trash : bool) : M (list pyval) :=
  svc ← the_service self_service;
  results ← users_messages_list svc query max_results (Some include_spam_trash);
  let messages := default [] (Gmail.messages results) in
  for_each messages (search_item svc).

Definition search_emails_body (self_service : option Service)
    (query : string) (max_results : Z) (include_spam_trash : bool) : M pyval :=
  email_list ← search_email_list self_service query max_results include_spam_trash;
  ret (success [("count", PInt (Z.of_nat (List.length email_list)));
                ("emails", PList email_list)]).

Definition read_email_body (self_service : option Service)
    (message_id format : string) : M pyval :=
  svc ← the_service self_service;
  message ← users_messages_get svc message_id format None;
  body_content ← pure (
    match Gmail.payload message with
    | Some payload =>
        if String.eqb format "full" then _extract_body payload else Return EmptyString
    | None => Return EmptyString
    end);
  headers ← pure (
    match Gmail.payload message with
    | Some payload =>
        match Gmail.headers payload with
        | Some hs => header_dict hs
        | None => Return ∅
        end
    | None => Return ∅
    end);
  id ← pure (Gmail.subscript "id" (Gmail.msg_id message));
  threadId ← pure (Gmail.subscript "threadId" (Gmail.threadId message));
  ret (success [
    ("id", PStr id);
    ("threadId", PStr threadId);
    ("labelIds", PList (PStr <$> default [] (Gmail.labelIds message)));
    ("snippet", PStr (default EmptyString (Gmail.snippet message)));
    ("headers", PDict (PStr <$> headers));
    ("body", PStr body_content);
    ("sizeEstimate", PInt (default 0%Z (Gmail.sizeEstimate message)));
    ("internalDate", PStr (default EmptyString (Gmail.internalDate message)))]).

(** One iteration of the loop of [get_thread]. *)
Definition thread_item (msg : Gmail.message) : outcome pyval :=
  headers ← payload_headers msg;
  payload ← Gmail.subscript "payload" (Gmail.payload msg);
  body ← _extract_body payload;
  id ← Gmail.subscript "id" (Gmail.msg_id msg);
  Return (PDict (list_to_map [
    ("id", PStr id);
    ("from", PStr (get_or_empty headers "From"));
    ("to", PStr (get_or_empty headers "To"));
    ("subject", PStr (get_or_empty headers "Subject"));
    ("date", PStr (get_or_empty headers "Date"));
    ("body", PStr body);
    ("snippet", PStr (default EmptyString (Gmail.snippet msg)))])).

Definition get_thread_body (self_service : option Service) (thread_id : string)
    : M pyval :=
  svc ← the_service self_service;
  thread ← users_threads_get svc thread_id;
  messages ← for_each (default [] (Gmail.thread_messages thread))
               (fun msg => pure (thread_item msg));
  ret (success [("threadId", PStr thread_id);
                ("messageCount", PInt (Z.of_nat (List.length messages)));
                ("messages", PList messages)]).

(** The subject line that [reply_to_email] writes. *)
Definition reply_subject (original_subject : string) : string :=
  "Re: " +:+ replace "Re: " EmptyString original_subject.

(** The reply that [reply_to_email] composes from the headers of the
    original. *)
Definition reply_message (headers : gmap string string) (body : string) (html : bool)
    : Mime.mime :=
  let message := Mime.MIMEText body (text_subtype html) [] in
  let message := Mime.setitem "to" (get_or_empty headers "From") message in
  let message := Mime.setitem "subject"
                   (reply_subject (get_or_empty headers "Subject")) message in
  let message := Mime.setitem "In-Reply-To" (get_or_empty headers "Message-ID") message in
  Mime.setitem "References" (get_or_empty headers "Message-ID") message.

Definition reply_to_email_body (h : Host) (self_service : option Service)
    (message_id body : string) (html : bool) : M pyval :=
  svc ← the_service self_service;
  original ← users_messages_get svc message_id "metadata"
               (Some ["From"; "To"; "Subject"; "Message-ID"]);
  headers ← pure (payload_headers original);
  let message := reply_message headers body html in
  _ ← pure (as_bytes h message);
  threadId ← pure (Gmail.subscript "threadId" (Gmail.threadId original));
  sent_message ← users_messages_send svc (Gmail.SendBody message (Some threadId));
  id ← pure (Gmail.subscript "id" (Gmail.msg_id sent_message));
  sent_thread ← pure (Gmail.subscript "threadId" (Gmail.threadId sent_message));
  ret (success [("messageId", PStr id); ("threadId", PStr sent_thread)]).

(** One iteration of the loop of [list_labels]. *)
Definition label_item (label : Gmail.label) : outcome pyval :=
  id ← Gmail.subscript "id" (Gmail.label_id label);
  name ← Gmail.subscript "name" (Gmail.label_name label);
  Return (PDict (list_to_map [
    ("id", PStr id);
    ("name", PStr name);
    ("type", PStr (default "user" (Gmail.label_type label)));
    ("messageListVisibility",
       PStr (default EmptyString (Gmail.messageListVisibility label)));
    ("labelListVisibility",
       PStr (default EmptyString (Gmail.labelListVisibility label)))])).

Definition list_labels_body (self : receiver) : M pyval :=
  svc ← receiver_service self;
  results ← users_labels_list svc;
  label_list ← for_each (default [] (Gmail.labels results))
                 (fun label => pure (label_item label));
  ret (success [("count", PInt (Z.of_nat (List.length label_list)));
                ("labels", PList label_list)]).

Definition create_label_body (self_service : option Service)
    (name message_list_visibility label_list_visibility : string) : M pyval :=
  svc ← the_service self_service;
  label ← users_labels_create svc name message_list_visibility label_list_visibility;
  id ← pure (Gmail.subscript "id" (Gmail.label_id label));
  label_name ← pure (Gmail.subscript "name" (Gmail.label_name label));
  ret (success [("labelId", PStr id); ("name", PStr label_name)]).

(** [if add_labels: body['addLabelIds'] = add_labels] and the same for
    [remove_labels]. *)
Definition label_changes (add_labels remove_labels : option (list string))
    : gmap string (list string) :=
  let body : gmap string (list string) := ∅ in
  let body := if truthy_opt_list add_labels
              then <["addLabelIds" := default [] add_labels]> body else body in
  if truthy_opt_list remove_labels
  then <["removeLabelIds" := default [] remove_labels]> body else body.

Definition modify_message_labels_body (self_service : option Service)
    (message_id : string) (add_labels remove_labels : option (list string)) : M pyval :=
  let body := label_changes add_labels remove_labels in
  svc ← the_service self_service;
  message ← users_messages_modify svc message_id body;
  id ← pure (Gmail.subscript "id" (Gmail.msg_id message));
  ret (success [("messageId", PStr id);
                ("labelIds", PList (PStr <$> default [] (Gmail.labelIds message)))]).

Definition delete_message_body (self_service : option Service) (message_id : string)
    : M pyval :=
  svc ← the_service self_service;
  _ ← users_messages_delete svc message_id;
  ret (success [("message", PStr ("Message " +:+ message_id +:+ " deleted successfully"))]).

Definition trash_message_body (self_service : option Service) (message_id : string)
    : M pyval :=
  svc ← the_service self_service;
  message ← users_messages_trash svc message_id;
  id ← pure (Gmail.subscript "id" (Gmail.msg_id message));
  ret (success [("messageId", PStr id);
                ("message", PStr ("Message " +:+ message_id +:+ " moved to trash"))]).

(** [str(n)] for a length. *)
Definition str_nat (n : nat) : string := pretty n.

Definition batch_modify_messages_body (self_service : option Service)
    (message_ids : list string) (add_labels remove_labels : option (list string))
    : M pyval :=
  let body := label_changes add_labels remove_labels in
  svc ← the_service self_service;
  _ ← users_messages_batchModify svc message_ids body;
  ret (success [
    ("messageCount", PInt (Z.of_nat (List.length message_ids)));
    ("message", PStr ("Successfully modified " +:+ str_nat (List.length message_ids)
                        +:+ " messages"))]).

(** [if v: d[k] = v] for an optional string. *)
Definition put_str (k : string) (v : option string) (d : gmap string pyval)
    : gmap string pyval :=
  if truthy_opt_str v then <[k := PStr (default EmptyString v)]> d else d.

Definition put_list (k : string) (v : option (list string)) (d : gmap string pyval)
    : gmap string pyval :=
  if truthy_opt_list v then <[k := PList (PStr <$> default [] v)]> d else d.

Definition filter_criteria (from_address to_address subject query : option string)
    (has_attachment : option bool) : gmap string pyval :=
  let criteria := put_str "from" from_address ∅ in
  let criteria := put_str "to" to_address criteria in
  let criteria := put_str "subject" subject criteria in
  let criteria := put_str "query" query criteria in
  match has_attachment with
  | Some b => <["hasAttachment" := PBool b]> criteria
  | None => criteria
  end.

Definition filter_action (add_labels remove_labels : option (list string))
    (forward_to : option string) : gmap string pyval :=
  let action := put_list "addLabelIds" add_labels ∅ in
  let action := put_list "removeLabelIds" remove_labels action in
  put_str "forward" forward_to action.

Definition create_filter_body (self_service : option Service)
    (from_address to_address subject query : option string)
    (has_attachment : option bool) (add_labels remove_labels : option (list string))
    (forward_to : option string) : M pyval :=
  let criteria := filter_criteria from_address to_address subject query has_attachment in
  let action := filter_action add_labels remove_labels forward_to in
  svc ← the_service self_service;
  filter_obj ← users_filters_create svc criteria action;
  id ← pure (Gmail.subscript "id" (Gmail.filter_id filter_obj));
  ret (success [("filterId", PStr id);
                ("criteria", PDict (default ∅ (Gmail.criteria filter_obj)));
                ("action", PDict (default ∅ (Gmail.action filter_obj)))]).

Definition download_attachment_body (h : Host) (self_service : option Service)
    (message_id attachment_id save_path : string) : M pyval :=
  svc ← the_service self_service;
  attachment ← users_attachments_get svc message_id attachment_id;
  data ← pure (Gmail.subscript "data" (Gmail.attachment_data attachment));
  file_data ← pure (urlsafe_b64decode data);
  _ ← perform (WriteFile save_path file_data) (write_file h save_path file_data);
  ret (success [("message", PStr ("Attachment saved to " +:+ save_path));
                ("size", PInt (Z.of_nat (String.length file_data)))]).

Definition get_profile_body (self : receiver) : M pyval :=
  svc ← receiver_service self;
  profile ← users_getProfile svc;
  emailAddress ← pure (Gmail.subscript "emailAddress" (Gmail.emailAddress profile));
  ret (success [
    ("emailAddress", PStr emailAddress);
    ("messagesTotal", PInt (default 0%Z (Gmail.messagesTotal profile)));
    ("threadsTotal", PInt (default 0%Z (Gmail.threadsTotal profile)));
    ("historyId", PStr (default EmptyString (Gmail.historyId profile)))]).

(** A call of one of the fifteen registered tools, with its arguments. *)
Inductive invocation : Type :=
| SendEmail (to subject body : string) (cc bcc : option string) (html : bool)
    (attachments : option (list string))
| CreateDraft (to subject body : string) (cc bcc : option string) (html : bool)
| SearchEmails (query : string) (max_results : Z) (include_spam_trash : bool)
| ReadEmail (message_id format : string)
| GetThread (thread_id : string)
| ReplyToEmail (message_id body : string) (html : bool)
| ListLabels (self : receiver)
| CreateLabel (name message_list_visibility label_list_visibility : string)
| ModifyMessageLabels (message_id : string) (add_labels remove_labels : option (list string))
| DeleteMessage (message_id : string)
| TrashMessage (message_id : string)
| BatchModifyMessages (message_ids : list string)
    (add_labels remove_labels : option (list string))
| CreateFilter (from_address to_address subject query : option string)
    (has_attachment : option bool) (add_labels remove_labels : option (list string))
    (forward_to : option string)
| DownloadAttachment (message_id attachment_id save_path : string)
| GetProfile (self : receiver).

(** What stands inside the [try] of the tool that is called. *)
Definition tool_body (h : Host) (self_service : option Service) (i : invocation)
    : M pyval :=
  match i with
  | SendEmail to subject body cc bcc html attachments =>
      send_email_body h self_service to subject body cc bcc html attachments
  | CreateDraft to subject body cc bcc html =>
      create_draft_body h self_service to subject body cc bcc html
  | SearchEmails query max_results include_spam_trash =>
      search_emails_body self_service query max_results include_spam_trash
  | ReadEmail message_id format => read_email_body self_service message_id format
  | GetThread thread_id => get_thread_body self_service thread_id
  | ReplyToEmail message_id body html =>
      reply_to_email_body h self_service message_id body html
  | ListLabels self => list_labels_body self
  | CreateLabel name mlv llv => create_label_body self_service name mlv llv
  | ModifyMessageLabels message_id add_labels remove_labels =>
      modify_message_labels_body self_service message_id add_labels remove_labels
  | DeleteMessage message_id => delete_message_body self_service message_id
  | TrashMessage message_id => trash_message_body self_service message_id
  | BatchModifyMessages message_ids add_labels remove_labels =>
      batch_modify_messages_body self_service message_ids add_labels remove_labels
  | CreateFilter from_address to_address subject query has_attachment
      add_labels remove_labels forward_to =>
      create_filter_body self_service from_address to_address subject query
        has_attachment add_labels remove_labels forward_to
  | DownloadAttachment message_id attachment_id save_path =>
      download_attachment_body h self_service message_id attachment_id save_path
  | GetProfile self => get_profile_body self
  end.

(** The tool as the caller sees it. *)
Definition call_tool (h : Host) (self_service : option Service) (i : invocation)
    : M pyval :=
  tool (tool_body h self_service i).

(** The tools that the statements below name. *)
Definition send_email (h : Host) (self_service : option Service)
    (to subject body : string) (cc bcc : option string) (html : bool)
    (attachments : option (list string)) : M pyval :=
  tool (send_email_body h self_service to subject body cc bcc html attachments).

Definition search_emails (self_service : option Service)
    (query : string) (max_results : Z) (include_spam_trash : bool) : M pyval :=
  tool (search_emails_body self_service query max_results include_spam_trash).

Definition read_email (self_service : option Service)
    (message_id format : string) : M pyval :=
  tool (read_email_body self_service message_id format).

Definition reply_to_email (h : Host) (self_service : option Service)
    (message_id body : string) (html : bool) : M pyval :=
  tool (reply_to_email_body h self_service message_id body html).

(** *** Authentication *)

(** [creds and creds.expired and creds.refresh_token]. *)
Definition refreshable (c : Credentials) : bool :=
  expired c && truthy_opt_str (refresh_token c).

Definition rule60 : string := string_of_list_ascii (List.repeat "="%char 60).

(** The instructions printed before the manual flow asks for the
    redirect URL. *)
Definition manual_instructions (auth_url : string) : list event :=
  Stderr <$> [
    nl +:+ rule60;
    "MANUAL OAUTH AUTHENTICATION REQUIRED";
    rule60;
    "Since automatic browser opening failed, please follow these steps:";
    nl +:+ "1. Copy the URL below and paste it into a web browser:";
    nl +:+ auth_url +:+ nl;
    "2. Complete the authorization in your browser";
    "3. After authorizing, you'll be redirected to localhost (page may not load)";
    "4. Copy the ENTIRE URL from your browser's address bar";
    "5. Paste it below when prompted";
    rule60 ].

(** The authorization code inside a pasted redirect URL, or the pasted
    text itself when it has no [code=]. *)
Definition extract_code (auth_response : string) : string :=
  match split "code=" auth_response with
  | _ :: after :: _ => List.hd EmptyString (split "&" after)
  | _ => auth_response
  end.

(** [with open(TOKEN_PATH, 'w') as token: token.write(creds.to_json())]
    and the message that follows. *)
Definition save_credentials (h : AuthHost) (creds : Credentials) : M Credentials :=
  _ ← perform WriteToken (write_token h creds);
  _ ← tell (Stderr ("[OK] Credentials saved to " +:+ token_path h));
  ret creds.

(** The body of [authenticate]; [again] is the call
    [self.authenticate(manual_auth=True)].  The value returned is the
    credential that [self.service] is built with. *)
Definition authenticate_body (again : M Credentials) (h : AuthHost)
    (manual_auth : bool) : M Credentials :=
  creds ← match token_file h with
          | Some loaded => c ← perform LoadToken loaded; ret (Some c)
          | None => ret None
          end;
  let interactive : M Credentials :=
    if negb (credentials_file_exists h) then
      raise (OSError
        ("Missing " +:+ credentials_path h
         +:+ ". Please download OAuth credentials from Google Cloud Console."))
    else
      _ ← perform LoadClientSecrets (from_client_secrets_file h);
      if manual_auth then
        _ ← (Return tt, manual_instructions (authorization_url h));
        auth_response ← perform (Prompt (nl +:+ "Paste the entire redirect URL here: "))
                          (input h);
        let auth_code := extract_code (strip auth_response) in
        c ← perform (FetchToken auth_code) (fetch_token h auth_code);
        _ ← tell (Stderr "[OK] Authentication successful!");
        save_credentials h c
      else
        r ← try_except
               (c ← perform RunLocalServer (run_local_server h); ret (inl c))
               is_Exception
               (fun e =>
                  _ ← tell (Stderr ("Automatic authentication failed: " +:+ str e));
                  _ ← tell (Stderr "Falling back to manual authentication...");
                  done ← again;
                  ret (inr done));
        match r with
        | inl c => save_credentials h c
        | inr done => ret done
        end in
  match creds with
  | Some c =>
      if valid c then ret c
      else if refreshable c then
        _ ← tell (Stderr "Refreshing expired credentials...");
        c' ← perform Refresh (refresh h c);
        save_credentials h c'
      else interactive
  | None => interactive
  end.

(** [authenticate] calls itself at most once, with [manual_auth=True];
    [depth] bounds the nesting of calls. *)
Fixpoint authenticate_depth (depth : nat) (h : AuthHost) (manual_auth : bool)
    : M Credentials :=
  match depth with
  | O => raise (RuntimeError "maximum recursion depth exceeded")
  | S d => authenticate_body (authenticate_depth d h true) h manual_auth
  end.

Definition authenticate (h : AuthHost) (manual_auth : bool) : M Credentials :=
  authenticate_depth 2 h manual_auth.

(** *** Start-up *)

(** [str(x)] inside an f-string, for optional values. *)
Definition fmt_str (o : option string) : string := default "None" o.
Definition fmt_int (o : option Z) : string :=
  match o with Some z => pretty z | None => "None" end.

(** The profile query of [run], which only reports. *)
Definition report_profile (svc : Service) : M unit :=
  try_except
    (profile ← users_getProfile svc;
     _ ← tell (Stderr ("Connected to: " +:+ fmt_str (Gmail.emailAddress profile)));
     _ ← tell (Stderr ("Total messages: " +:+ fmt_int (Gmail.messagesTotal profile)));
     tell (Stderr ("Total threads: " +:+ fmt_int (Gmail.threadsTotal profile))))
    is_Exception
    (fun e => tell (Stderr ("Could not fetch profile: " +:+ str e))).

(** [GmailMCPServer.run].  [build] is [build('gmail', 'v1',
    credentials=creds)], which [authenticate] stores in [self.service];
    [mcp_run] is what [self.mcp.run()] ends with. *)
Definition run (h : AuthHost) (build : Credentials -> Service) (manual_auth : bool)
    (mcp_run : outcome unit) : M unit :=
  _ ← tell (Stderr "Starting Gmail MCP Server (Secondary)...");
  _ ← tell (Stderr "Authenticating with Gmail API...");
  try_except
    (creds ← authenticate h manual_auth;
     _ ← tell (Stderr "Authentication successful!");
     _ ← report_profile (build creds);
     _ ← tell (Stderr (nl +:+ "Gmail MCP Server (Secondary) is ready!"));
     _ ← tell (Stderr
           "Available tools: send_email, search_emails, read_email, create_draft, and more...");
     _ ← tell (Stderr (nl +:+ "Server is running. Press Ctrl+C to stop."));
     pure mcp_run)
    is_Exception
    (fun e => _ ← tell (Stderr ("Error starting server: " +:+ str e)); raise e).

End Secondary.

(** ** The primary server: [gmail_mcp_server.py] *)

Module Primary.
Import Py World.

(** [GmailService.get_user_email]. *)
Definition get_user_email (svc : Service) : M string :=
  profile ← users_getProfile svc;
  ret (default "me" (Gmail.emailAddress profile)).

(** [", ".join(l) if l else None]. *)
Definition join_opt (l : option (list string)) : option string :=
  if truthy_opt_list l then Some (join ", " (default [] l)) else None.

(** The [headers] dictionary of [_compose], in insertion order. *)
Definition compose_headers (sender : string) (to : list string) (subject : string)
    (cc bcc : option (list string)) : list (string * string) :=
  let to_header := match to with [] => EmptyString | _ => join ", " to end in
  let cc_header := join_opt cc in
  let bcc_header := join_opt bcc in
  [("From", sender); ("To", to_header); ("Subject", subject)]
  ++ (if truthy_opt_str cc_header then [("Cc", default EmptyString cc_header)] else [])
  ++ (if truthy_opt_str bcc_header then [("Bcc", default EmptyString bcc_header)] else []).

(** [if mime_type == "multipart/alternative" and html_body]. *)
Definition wants_alternative (mime_type : string) (html_body : option string) : bool :=
  String.eqb mime_type "multipart/alternative" && truthy_opt_str html_body.

Definition single_subtype (mime_type : string) : string :=
  if String.eqb mime_type "text/html" then "html" else "plain".

(** One iteration of the attachment loop of [_compose]: the [try] block
    and its [except OSError] handler. *)
Definition attach_file (fs : Files) (message : Mime.mime) (file_path : string)
    : M Mime.mime :=
  try_except
    (content ← pure (read_bytes fs file_path);
     let part := Mime.MIMEBase "application" "octet-stream" content [] in
     let part := Mime.encode_base64 part in
     let filename := basename file_path in
     let part := Mime.setitem "Content-Disposition"
       ("attachment; filename=" +:+ dquote +:+ filename +:+ dquote) part in
     ret (Mime.attach part message))
    is_OSError
    (fun exc =>
       _ ← tell (LogWarning ("Attachment error " +:+ file_path +:+ ": " +:+ str exc));
       ret message).

Fixpoint attach_files (fs : Files) (message : Mime.mime) (paths : list string)
    : M Mime.mime :=
  match paths with
  | [] => ret message
  | file_path :: rest => m ← attach_file fs message file_path; attach_files fs m rest
  end.

(** [GmailService._compose]. *)
Definition _compose (fs : Files) (sender : string) (to : list string)
    (subject body mime_type : string) (cc bcc : option (list string))
    (html_body : option string) (attachments : option (list string)) : M Mime.mime :=
  let headers := compose_headers sender to subject cc bcc in
  if truthy_opt_list attachments then
    let message := Mime.MIMEMultipart "mixed" [] [] in
    let message := Mime.set_all headers message in
    let message :=
      if wants_alternative mime_type html_body then
        let alt := Mime.MIMEMultipart "alternative" [] [] in
        let alt := Mime.attach (Mime.MIMEText body "plain" []) alt in
        let alt := Mime.attach (Mime.MIMEText (default EmptyString html_body) "html" []) alt in
        Mime.attach alt message
      else
        Mime.attach (Mime.MIMEText body (single_subtype mime_type) []) message in
    attach_files fs message (default [] attachments)
  else if wants_alternative mime_type html_body then
    let message := Mime.MIMEMultipart "alternative" [] [] in
    let message := Mime.set_all headers message in
    let message := Mime.attach (Mime.MIMEText body "plain" []) message in
    let message := Mime.attach (Mime.MIMEText (default EmptyString html_body) "html" []) message in
    ret message
  else
    let msg := Mime.MIMEText body (single_subtype mime_type) [] in
    ret (Mime.set_all headers msg).

(** The arguments shared by [send_email] and [create_draft]. *)
Record outgoing : Type := Outgoing {
  to : list string;
  subject : string;
  body : string;
  cc : option (list string);
  bcc : option (list string);
  mime_type : string;
  attachments : option (list string);
  html_body : option string }.

(** The first statement of [send_email] and of [create_draft]: the
    profile query for the sender, then [_compose]. *)
Definition compose_outgoing (fs : Files) (svc : Service) (a : outgoing) : M Mime.mime :=
  sender ← get_user_email svc;
  _compose fs sender (to a) (subject a) (body a) (mime_type a) (cc a) (bcc a)
    (html_body a) (attachments a).

(** [GmailService.send_email]: the provider's message id, or [None]
    when the response has none. *)
Definition send_email (fs : Files) (as_bytes : Serialiser) (svc : Service) (a : outgoing)
    : M (option string) :=
  mime_message ← compose_outgoing fs svc a;
  _ ← pure (as_bytes mime_message);
  result ← users_messages_send svc (Gmail.SendBody mime_message None);
  ret (Gmail.msg_id result).

(** [GmailService.create_draft]. *)
Definition create_draft (fs : Files) (as_bytes : Serialiser) (svc : Service) (a : outgoing)
    : M (option string) :=
  mime_message ← compose_outgoing fs svc a;
  _ ← pure (as_bytes mime_message);
  result ← users_drafts_create svc mime_message;
  ret (Gmail.draft_id result).

(** [next((h['value'] for h in headers if h['name'] == k), '')]: the
    entries are read in order up to the first one named [k]; an entry
    read on the way that lacks its name, or the one found when it lacks
    its value, ends the search with [KeyError]. *)
Fixpoint first_header (k : string) (hs : list Gmail.header) : outcome string :=
  match hs with
  | [] => Return EmptyString
  | h :: hs' =>
      n ← Gmail.subscript "name" (Gmail.name h);
      if String.eqb n k then Gmail.subscript "value" (Gmail.value h)
      else first_header k hs'
  end.

(** [message.get("payload", {}).get("headers", [])]. *)
Definition headers_of (m : Gmail.message) : list Gmail.header :=
  match Gmail.payload m with
  | Some p => default [] (Gmail.headers p)
  | None => []
  end.

(** The inner function [walk] of [read_email]; the result lists what
    the calls append to [body_parts]. *)
Fixpoint walk (p : Gmail.part) : outcome (list string) :=
  match p with
  | Gmail.Part _ _ b ps =>
      match ps with
      | Some ((_ :: _) as l) =>
          (fix walk_all (l : list Gmail.part) : outcome (list string) :=
             match l with
             | [] => Return []
             | q :: l' => xs ← walk q; ys ← walk_all l'; Return (xs ++ ys)
             end) l
      | _ =>
          match b with
          | Some (Gmail.PartBody (Some data) _) =>
              if truthy_str data then
                decoded ← urlsafe_b64decode data;
                Return [decode_utf8_ignore decoded]
              else Return []
          | _ => Return []
          end
      end
  end.

(** [str(x)] inside an f-string, for an optional string. *)
Definition fmt_opt (o : option string) : string := default "None" o.

(** [GmailService.read_email]. *)
Definition read_email (svc : Service) (message_id : string) : M string :=
  message ← users_messages_get svc message_id "full" None;
  let headers := headers_of message in
  subject ← pure (first_header "Subject" headers);
  sender ← pure (first_header "From" headers);
  let snippet := default EmptyString (Gmail.snippet message) in
  body_parts ← pure (match Gmail.payload message with
                     | Some p => walk p
                     | None => Return []
                     end);
  let body := match body_parts with [] => snippet | _ => join nl body_parts end in
  ret ("Subject: " +:+ subject +:+ nl +:+ "From: " +:+ sender +:+ nl +:+ nl +:+ body).

(** One iteration of the loop of [search_emails]. *)
Definition search_item (svc : Service) (item : Gmail.message) : M (gmap string string) :=
  id ← pure (Gmail.subscript "id" (Gmail.msg_id item));
  meta ← users_messages_get svc id "metadata" (Some ["Subject"; "From"]);
  let headers := headers_of meta in
  subject ← pure (first_header "Subject" headers);
  sender ← pure (first_header "From" headers);
  ret (list_to_map [("id", id); ("subject", subject); ("from", sender)]).

(** [GmailService.search_emails]. *)
Definition search_emails (svc : Service) (query : string) (max_results : Z)
    : M (list (gmap string string)) :=
  response ← users_messages_list svc query max_results None;
  for_each (default [] (Gmail.messages response)) (search_item svc).

(** The wrappers registered with [@mcp.tool()]: run the method, and on
    [HttpError] log and re-raise. *)
Definition wrapper {A} (name : string) (call : M A) : M A :=
  try_except call is_HttpError
    (fun e => _ ← tell (LogError (name +:+ " failed: " +:+ str e)); raise e).

Definition tool_send_email (fs : Files) (as_bytes : Serialiser) (svc : Service)
    (a : outgoing) : M string :=
  wrapper "send_email"
    (msg_id ← send_email fs as_bytes svc a;
     ret ("Email sent successfully. Message ID: " +:+ fmt_opt msg_id)).

Definition tool_create_draft (fs : Files) (as_bytes : Serialiser) (svc : Service)
    (a : outgoing) : M string :=
  wrapper "create_draft"
    (draft_id ← create_draft fs as_bytes svc a;
     ret ("Draft created with ID: " +:+ fmt_opt draft_id)).

Definition tool_read_email (svc : Service) (message_id : string) : M string :=
  wrapper "read_email" (read_email svc message_id).

Definition tool_search_emails (svc : Service) (query : string) (max_results : Z)
    : M (list (gmap string string)) :=
  wrapper "search_emails" (search_emails svc query max_results).

(** *** Authentication *)

(** The first block of [_get_service]: load the token file if there is
    one; a file that does not load counts as no credential. *)
Definition load_token (h : AuthHost) : M (option Credentials) :=
  match token_file h with
  | Some loaded =>
      try_except (c ← perform LoadToken loaded; ret (Some c)) is_Exception
        (fun exc =>
           _ ← tell (LogWarning ("Failed to load token: " +:+ str exc)); ret None)
  | None => ret None
  end.

(** The refresh block: only for an expired credential with a refresh
    token; a failed refresh leaves no credential. *)
Definition try_refresh (h : AuthHost) (creds : option Credentials)
    : M (option Credentials) :=
  match creds with
  | Some c =>
      if expired c && truthy_opt_str (refresh_token c) then
        try_except (c' ← perform Refresh (refresh h c); ret (Some c')) is_Exception
          (fun exc =>
             _ ← tell (LogWarning ("Token refresh failed: " +:+ str exc)); ret None)
      else ret creds
  | None => ret None
  end.

(** The browser flow. *)
Definition interactive_grant (h : AuthHost) : M Credentials :=
  _ ← perform LoadClientSecrets (from_client_secrets_file h);
  perform RunLocalServer (run_local_server h).

(** The branch of [_get_service] taken when there is no valid
    credential: refresh if possible, else (or if that leaves nothing
    valid) the browser flow; then write the token file, where only an
    [OSError] is forgiven. *)
Definition sign_in (h : AuthHost) (creds : option Credentials) : M Credentials :=
  creds ← try_refresh h creds;
  c ← match creds with
      | Some c' => if valid c' then ret c' else interactive_grant h
      | None => interactive_grant h
      end;
  _ ← try_except (perform WriteToken (write_token h c)) is_OSError
        (fun exc => tell (LogWarning ("Could not write token file: " +:+ str exc)));
  ret c.

(** [GmailService._get_service]; the value returned is the credential
    the service object is built with. *)
Definition _get_service (h : AuthHost) : M Credentials :=
  creds ← load_token h;
  match creds with
  | Some c => if valid c then ret c else sign_in h creds
  | None => sign_in h creds
  end.

(** *** The webhook *)

(** The address that [trigger_n8n_workflow] posts to:
    [base_url.rstrip("/") + "/" + path.lstrip("/")]. *)
Definition webhook_url (base_url path : string) : string :=
  rstrip_char "/" base_url +:+ "/" +:+ lstrip_char "/" path.

(** [GmailService.trigger_n8n_workflow].  [getenv] is the value of
    [N8N_WEBHOOK_BASE_URL]; [post url payload] is what
    [client.post(url, json=payload, timeout=30.0)] followed by
    [response.raise_for_status()] ends with: the status code, or the
    exception of either call. *)
Definition trigger_n8n_workflow (getenv : option string)
    (post : string -> pyval -> outcome Z) (path : string) (payload : pyval)
    : outcome string :=
  if truthy_opt_str getenv then
    let url := webhook_url (default EmptyString getenv) path in
    status_code ← post url payload;
    Return ("n8n workflow triggered successfully (HTTP " +:+ pretty status_code +:+ ").")
  else Raise (RuntimeError "N8N_WEBHOOK_BASE_URL is not set").

(** Its wrapper catches every exception, logs it and raises it again. *)
Definition tool_trigger_n8n_workflow (getenv : option string)
    (post : string -> pyval -> outcome Z) (path : string) (payload : pyval) : M string :=
  try_except (pure (trigger_n8n_workflow getenv post path payload)) is_Exception
    (fun exc => _ ← tell (LogError ("trigger_n8n_workflow failed: " +:+ str exc));
                raise exc).

End Primary.

(** ** The decoder as the specification words it *)

Module Spec.
Import Py.

(** The leaves of a payload tree, in document order. *)
Fixpoint leaves (p : Gmail.part) : list Gmail.part :=
  match p with
  | Gmail.Part _ _ _ (Some ((_ :: _) as l)) =>
      (fix leaves_all (l : list Gmail.part) : list Gmail.part :=
         match l with
         | [] => []
         | q :: l' => leaves q ++ leaves_all l'
         end) l
  | _ => [p]
  end.

Definition is_type (mime_type : string) (p : Gmail.part) : bool :=
  match Gmail.mimeType p with
  | Some t => String.eqb t mime_type
  | None => false
  end.

(** The text a part carries; missing or malformed data is the empty
    string. *)
Definition text_of (p : Gmail.part) : string :=
  match Secondary.body_data p ≫= Secondary.decode_data with
  | Return t => t
  | Raise _ => EmptyString
  end.

(** Follows the specification's words: "prefer a plain-text part if one
    exists at any nesting level, else fall back to an HTML part, else
    fall back to the provider-supplied short preview". *)
Definition preferred_body (snippet : string) (payload : Gmail.part) : string :=
  match List.find (is_type "text/plain") (leaves payload) with
  | Some p => text_of p
  | None =>
      match List.find (is_type "text/html") (leaves payload) with
      | Some p => text_of p
      | None => snippet
      end
  end.

End Spec.

(** ** Sample worlds

    Concrete providers, payloads and hosts on which the statements
    below are evaluated. *)

Module Sample.
Import Py World.

Definition unavailable {A} : outcome A := Raise (TransportError "Unable to find the server").

(** A provider that answers the four requests given and is unreachable
    for the rest. *)
Definition provider (profile : outcome Gmail.profile)
    (send : Gmail.send_body -> outcome Gmail.message)
    (get : string -> string -> option (list string) -> outcome Gmail.message)
    (list_ : string -> Z -> option bool -> outcome Gmail.list_response) : Service :=
  {| getProfile := profile;
     messages_send := send;
     messages_get := get;
     messages_list := list_;
     messages_modify := fun _ _ => unavailable;
     messages_delete := fun _ => unavailable;
     messages_trash := fun _ => unavailable;
     messages_batchModify := fun _ _ => unavailable;
     attachments_get := fun _ _ => unavailable;
     drafts_create := fun _ => unavailable;
     threads_get := fun _ => unavailable;
     labels_list := unavailable;
     labels_create := fun _ _ _ => unavailable;
     filters_create := fun _ _ => unavailable |}.

Definition alice : Gmail.profile :=
  Gmail.Profile (Some "alice@example.com") (Some 12%Z) (Some 7%Z) (Some "4711").

(** A message resource with an id and a thread id only. *)
Definition stub (id thread : string) : Gmail.message :=
  Gmail.Message (Some id) (Some thread) None None None None None.

(** A header entry with both of its fields. *)
Definition hdr (name value : string) : Gmail.header :=
  Gmail.Header (Some name) (Some value).

Definition no_files : Files := fun _ => Absent.

(** A serialiser that refuses a header value holding a line break
    followed by a word and a colon, as the [email] package does for a
    value that looks like it carries a header of its own, and accepts
    every other message.  [seen] says whether the word has begun. *)
Fixpoint word_then_colon (seen : bool) (s : string) : bool :=
  match s with
  | EmptyString => false
  | String c s' =>
      if byte_in 32 32 c || byte_in 9 9 c then false
      else if seen && byte_in 58 58 c then true
      else word_then_colon true s'
  end.

Fixpoint embedded_header (s : string) : bool :=
  match s with
  | EmptyString => false
  | String c s' => (byte_in 10 10 c && word_then_colon false s') || embedded_header s'
  end.

Fixpoint header_values (m : Mime.mime) : list string :=
  match m with
  | Mime.MIMEText _ _ h => snd <$> h
  | Mime.MIMEBase a b _ h => [a +:+ "/" +:+ b] ++ (snd <$> h)
  | Mime.MIMEMultipart _ h l =>
      (snd <$> h)
      ++ (fix all (l : list Mime.mime) : list string :=
            match l with
            | [] => []
            | q :: l' => header_values q ++ all l'
            end) l
  end.

Definition header_check : Serialiser := fun m =>
  match List.find embedded_header (header_values m) with
  | Some v =>
      Raise (HeaderParseError
        ("header value appears to contain an embedded header: " +:+ v))
  | None => Return tt
  end.

Definition plain_host : Secondary.Host :=
  {| Secondary.fs := no_files;
     Secondary.guess_type := fun _ => None;
     Secondary.write_file := fun _ _ => Return tt;
     Secondary.as_bytes := header_check |}.

(** A provider that rejects every send. *)
Definition rejecting : Service :=
  provider (Return alice)
    (fun _ => Raise (HttpError 400 "Invalid To header"))
    (fun _ _ _ => unavailable) (fun _ _ _ => unavailable).

Definition hello : Primary.outgoing :=
  Primary.Outgoing ["a@example.com"] "Hi" "Hello" None None "text/plain" None None.

(** A message whose subject carries the reply marker after a forward
    marker, and a provider that serves it and accepts the reply. *)
Definition forwarded_original : Gmail.message :=
  Gmail.Message (Some "m1") (Some "t1") None None
    (Some (Gmail.Part None
       (Some [hdr "From" "bob@example.com";
              hdr "Subject" "Fwd: Re: hi";
              hdr "Message-ID" "<1@example.com>"])
       None None))
    None None.

Definition forwarded : Service :=
  provider (Return alice)
    (fun _ => Return (stub "m2" "t1"))
    (fun _ _ _ => Return forwarded_original)
    (fun _ _ _ => unavailable).

(** A provider that accepts every send and answers with the given
    message id and thread id. *)
Definition accepting (id thread : string) : Service :=
  provider (Return alice)
    (fun _ => Return (stub id thread))
    (fun _ _ _ => unavailable) (fun _ _ _ => unavailable).

(** A stored credential that has expired and holds a refresh token,
    on a host whose token endpoint rejects the refresh while the
    browser flow would succeed. *)
Definition stale : Credentials :=
  {| token := Some "ya29.old"; refresh_token := Some "1//refresh"; expired := true |}.

Definition fresh : Credentials :=
  {| token := Some "ya29.new"; refresh_token := Some "1//refresh2"; expired := false |}.

Definition revoked_host : AuthHost :=
  {| token_path := "/srv/mcp/token.json";
     token_file := Some (Return stale);
     refresh := fun _ => Raise (RefreshError "invalid_grant: Token has been expired or revoked.");
     credentials_path := "/srv/mcp/credentials.json";
     credentials_file_exists := true;
     from_client_secrets_file := Return tt;
     run_local_server := Return fresh;
     authorization_url := "https://accounts.google.com/o/oauth2/auth";
     input := Return "4/0AbCd";
     fetch_token := fun _ => Return fresh;
     write_token := fun _ => Return tt |}.

(** A leaf part with the given type and base64url data. *)
Definition leaf (mime_type data : string) : Gmail.part :=
  Gmail.Part (Some mime_type) None (Some (Gmail.PartBody (Some data) None)) None.

Definition container (mime_type : string) (l : list Gmail.part) : Gmail.part :=
  Gmail.Part (Some mime_type) None (Some (Gmail.PartBody None None)) (Some l).

(** A message with an attachment: the two text variants sit one level
    down, inside the alternative container. *)
Definition nested : Gmail.part :=
  container "multipart/mixed"
    [container "multipart/alternative"
       [leaf "text/plain" "SGVsbG8="; leaf "text/html" "PGI-SGVsbG88L2I-"];
     Gmail.Part (Some "application/pdf") None
       (Some (Gmail.PartBody None (Some "ANGjdJ8"))) None].

(** The two text variants at the top level. *)
Definition flat : Gmail.part :=
  container "multipart/alternative"
    [leaf "text/html" "PGI-SGVsbG88L2I-"; leaf "text/plain" "SGVsbG8="].

(** A message whose only part is a text file sent as an attachment: the
    provider gives an attachment id for it and no inline data. *)
Definition text_attachment : Gmail.message :=
  Gmail.Message (Some "m7") (Some "t7") (Some ["INBOX"]) (Some "see attached notes")
    (Some (container "multipart/mixed"
       [Gmail.Part (Some "text/plain") None
          (Some (Gmail.PartBody None (Some "ANGjdJ8"))) None]))
    (Some 2048%Z) (Some "1700000000000").

(** A message whose single part carries data that is not base64. *)
Definition garbled : Gmail.message :=
  Gmail.Message (Some "m8") (Some "t8") None (Some "preview") (Some (leaf "text/plain" "A"))
    None None.

Definition serving (m : Gmail.message) : Service :=
  provider (Return alice)
    (fun _ => unavailable)
    (fun _ _ _ => Return m)
    (fun _ _ _ => unavailable).

(** Files: a readable report, a file that exists but may not be read,
    and nothing else. *)
Definition some_files : Files := fun p =>
  if String.eqb p "/home/alice/report.pdf" then Regular true "%PDF-1.7"
  else if String.eqb p "/root/secret.key" then Regular false "k"
  else Absent.

Definition office_host : Secondary.Host :=
  {| Secondary.fs := some_files;
     Secondary.guess_type := fun p =>
       if String.eqb p "/home/alice/report.pdf" then Some "application/pdf" else None;
     Secondary.write_file := fun _ _ => Return tt;
     Secondary.as_bytes := header_check |}.

(** A path that holds a NUL character. *)
Definition nul_path : string := "/tmp/a" +:+ String (ascii_of_N 0) ".txt".

(** A provider that lists two messages whatever is asked. *)
Definition listed (id : string) : Gmail.message :=
  Gmail.Message (Some id) (Some id) (Some ["INBOX"]) (Some "hi")
    (Some (Gmail.Part None
       (Some [hdr "From" "bob@example.com"; hdr "Subject" "hi"])
       None None))
    None None.

Definition generous : Service :=
  provider (Return alice)
    (fun _ => unavailable)
    (fun id _ _ => Return (listed id))
    (fun _ _ _ => Return (Gmail.ListResponse (Some [stub "m1" "m1"; stub "m2" "m2"]))).

(** A provider that honours the requested maximum: it lists the first
    [maxResults] of its two messages. *)
Definition capped : Service :=
  provider (Return alice)
    (fun _ => unavailable)
    (fun id _ _ => Return (listed id))
    (fun _ n _ =>
       Return (Gmail.ListResponse
         (Some (take (Z.to_nat n) [stub "m1" "m1"; stub "m2" "m2"])))).

(** A provider that lists two messages and has lost the second. *)
Definition flaky : Service :=
  provider (Return alice)
    (fun _ => unavailable)
    (fun id _ _ =>
       if String.eqb id "m2" then Raise (HttpError 404 "Requested entity was not found.")
       else Return (listed id))
    (fun _ _ _ => Return (Gmail.ListResponse (Some [stub "m1" "m1"; stub "m2" "m2"]))).

(** A message of a thread, with a body. *)
Definition spoken (id : string) : Gmail.message :=
  Gmail.Message (Some id) (Some "t1") None (Some "Hello")
    (Some (leaf "text/plain" "SGVsbG8=")) None None.

(** A provider that serves a thread of two messages and an
    attachment. *)
Definition with_thread : Service :=
  {| getProfile := Return alice;
     messages_send := fun _ => unavailable;
     messages_get := fun _ _ _ => unavailable;
     messages_list := fun _ _ _ => unavailable;
     messages_modify := fun _ _ => unavailable;
     messages_delete := fun _ => unavailable;
     messages_trash := fun _ => unavailable;
     messages_batchModify := fun _ _ => unavailable;
     attachments_get := fun _ _ => Return (Gmail.Attachment (Some "SGVsbG8="));
     drafts_create := fun _ => unavailable;
     threads_get := fun _ => Return (Gmail.Thread (Some [spoken "m1"; spoken "m2"]));
     labels_list := unavailable;
     labels_create := fun _ _ _ => unavailable;
     filters_create := fun _ _ => unavailable |}.

(** Hosts for a first sign-in: one whose token file cannot be written,
    one whose token file does not parse. *)
Definition first_run (token : option (outcome Credentials))
    (write : outcome unit) : AuthHost :=
  {| token_path := "/srv/mcp/token.json";
     token_file := token;
     refresh := fun _ => unavailable;
     credentials_path := "/srv/mcp/credentials.json";
     credentials_file_exists := true;
     from_client_secrets_file := Return tt;
     run_local_server := Return fresh;
     authorization_url := "https://accounts.google.com/o/oauth2/auth";
     input := Return "4/0AbCd";
     fetch_token := fun _ => Return fresh;
     write_token := fun _ => write |}.

Definition read_only_host : AuthHost :=
  first_run None (Raise (OSError "[Errno 30] Read-only file system: 'token.json'")).

Definition corrupt_host : AuthHost :=
  first_run (Some (Raise (ValueError "Expecting value: line 1 column 1 (char 0)")))
    (Return tt).

(** A host without a browser, where the pasted redirect URL is
    accepted. *)
Definition headless : AuthHost :=
  {| token_path := "/srv/mcp/token_secondary.json";
     token_file := None;
     refresh := fun _ => unavailable;
     credentials_path := "/srv/mcp/credentials.json";
     credentials_file_exists := true;
     from_client_secrets_file := Return tt;
     run_local_server := Raise (RuntimeError "could not locate runnable browser");
     authorization_url := "https://accounts.google.com/o/oauth2/auth";
     input := Return " http://localhost/?code=4/0AbCd&scope=gmail ";
     fetch_token := fun _ => Return fresh;
     write_token := fun _ => Return tt |}.

(** An endpoint that answers the one workflow address with 200 and
    cannot be reached at any other. *)
Definition webhook (url : string) (payload : pyval) : outcome Z :=
  if String.eqb url "https://n8n.example.com/webhook/hook" then Return 200%Z
  else Raise (TransportError "Request URL is missing an 'http://' or 'https://' protocol.").

(** A provider that would accept a send, but refuses the profile
    query. *)
Definition signed_out : Service :=
  provider (Raise (HttpError 401 "Invalid Credentials"))
    (fun _ => Return (stub "m1" "m1"))
    (fun _ _ _ => unavailable) (fun _ _ _ => unavailable).

End Sample.

Import Py World.

(** ** Notions used in the statements *)

(** A computation that, when it returns, returns a success dictionary. *)
Definition succeeds_shaped (m : M pyval) : Prop :=
  match result m with
  | Return v => exists d, v = PDict d /\ d !! "success" = Some (PBool true)
  | Raise _ => True
  end.

(** What a part's data decodes to. *)
Definition part_text (p : Gmail.part) : outcome string :=
  Secondary.body_data p ≫= Secondary.decode_data.

(** The entries of a parts list that [_extract_body] can read: each has
    a type, and the text entries have data that decodes. *)
Definition readable_entry (p : Gmail.part) : Prop :=
  Gmail.mimeType p <> None
  /\ (Spec.is_type "text/plain" p || Spec.is_type "text/html" p = true ->
      part_text p = Return (Spec.text_of p)).

(** The entry that the loop of [_extract_body] settles on. *)
Definition settled (l : list Gmail.part) : option Gmail.part :=
  match List.find (Spec.is_type "text/plain") l with
  | Some p => Some p
  | None => last (List.filter (Spec.is_type "text/html") l)
  end.

(** An entry without its children. *)
Definition childless (p : Gmail.part) : Gmail.part :=
  Gmail.Part (Gmail.mimeType p) (Gmail.headers p) (Gmail.body p) None.

(** The part that the primary server builds for a file it could read. *)
Definition attachment_part (file_path content : string) : Mime.mime :=
  Mime.MIMEBase "application" "octet-stream" content
    [("Content-Transfer-Encoding", "base64");
     ("Content-Disposition",
      "attachment; filename=" +:+ dquote +:+ basename file_path +:+ dquote)].

(** What a path contributes to the container, and to the log. *)
Definition kept (fs : Files) (file_path : string) : list Mime.mime :=
  match read_bytes fs file_path with
  | Return content => [attachment_part file_path content]
  | Raise _ => []
  end.

Definition warned (fs : Files) (file_path : string) : list event :=
  match read_bytes fs file_path with
  | Return _ => []
  | Raise e => [LogWarning ("Attachment error " +:+ file_path +:+ ": " +:+ str e)]
  end.

(** What one leaf adds to the body under the primary server: its data,
    decoded leniently, when it has any. *)
Definition leaf_text (p : Gmail.part) : outcome (list string) :=
  match Gmail.body p with
  | Some b =>
      match Gmail.data b with
      | Some data =>
          if truthy_str data
          then decoded ← urlsafe_b64decode data; Return [decode_utf8_ignore decoded]
          else Return []
      | None => Return []
      end
  | None => Return []
  end.

(** The texts of a list of leaves, in order, up to the first one whose
    data is not base64. *)
Fixpoint collect (l : list Gmail.part) : outcome (list string) :=
  match l with
  | [] => Return []
  | q :: l' => xs ← leaf_text q; ys ← collect l'; Return (xs ++ ys)
  end.

(** The first part of the container that [_compose] builds when there
    are attachments: the body, as an alternative pair or as one text. *)
Definition body_part (body mime_type : string) (html_body : option string) : Mime.mime :=
  if Primary.wants_alternative mime_type html_body then
    Mime.MIMEMultipart "alternative" []
      [Mime.MIMEText body "plain" [];
       Mime.MIMEText (default EmptyString html_body) "html" []]
  else Mime.MIMEText body (Primary.single_subtype mime_type) [].

(** Header entries that have both of their fields, made from pairs of
    a name and a value; and the pairs of a list that carry a given
    name. *)
Definition entries (hs : list (string * string)) : list Gmail.header :=
  (fun nv => Gmail.Header (Some (fst nv)) (Some (snd nv))) <$> hs.

Definition named (k : string) (hs : list (string * string)) : list (string * string) :=
  List.filter (fun nv => String.eqb (fst nv) k) hs.

(** The dictionary that holds the pairs of a list, a later pair
    replacing an earlier one of the same name. *)
Definition dict_of (hs : list (string * string)) : gmap string string :=
  fold_left (fun d nv => <[fst nv := snd nv]> d) hs ∅.

(** Paths without a NUL character. *)
Definition nul_free (paths : list string) : Prop :=
  Forall (fun q => has_nul q = false) paths.

(** The requests in a trace. *)
Definition calls (t : list event) : list request :=
  omap (fun ev => match ev with Call r => Some r | _ => None end) t.

(** The requests that only read from the mailbox. *)
Definition is_read_request (r : request) : bool :=
  match r with
  | GetProfile | MessagesGet _ _ _ | MessagesList _ _ _ | AttachmentsGet _ _
  | ThreadsGet _ | LabelsList => true
  | _ => false
  end.

(** The requests of a trace that change the mailbox. *)
Definition mutations (t : list event) : list request :=
  List.filter (fun r => negb (is_read_request r)) (calls t).

(** A computation all of whose events satisfy [P]. *)
Definition traces (P : event -> Prop) {A} (m : M A) : Prop := Forall P (trace m).

(** A computation that issues at most [n] requests changing the
    mailbox. *)
Definition changes_at_most (n : nat) {A} (m : M A) : Prop :=
  List.length (mutations (trace m)) <= n.

(** An event that is no request, or a request that only reads. *)
Definition reads (ev : event) : Prop :=
  match ev with
  | Call r => is_read_request r = true
  | _ => True
  end.

(** The tools that look something up. *)
Definition is_lookup (i : Secondary.invocation) : bool :=
  match i with
  | Secondary.SearchEmails _ _ _ | Secondary.ReadEmail _ _ | Secondary.GetThread _
  | Secondary.ListLabels _ | Secondary.DownloadAttachment _ _ _
  | Secondary.GetProfile _ => true
  | _ => false
  end.

(** A send request that starts a thread, and one that joins a thread. *)
Definition starts_thread (ev : event) : Prop :=
  match ev with
  | Call (MessagesSend b) => Gmail.send_threadId b = None
  | _ => True
  end.

Definition joins_thread (ev : event) : Prop :=
  match ev with
  | Call (MessagesSend b) => is_Some (Gmail.send_threadId b)
  | _ => True
  end.

(** The two tools with a [self] of their own, called on a server that
    has a service. *)
Definition brings_service (i : Secondary.invocation) : bool :=
  match i with
  | Secondary.ListLabels (Secondary.Server (Some _))
  | Secondary.GetProfile (Secondary.Server (Some _)) => true
  | _ => false
  end.

(** The metadata request that [search_emails] issues for a message. *)
Definition metadata_request (id : string) : event :=
  Call (MessagesGet id "metadata" (Some ["From"; "To"; "Subject"; "Date"])).

(** A result item that carries the given message id. *)
Definition has_id (id : string) (item : pyval) : Prop :=
  exists d, item = PDict d /\ d !! "id" = Some (PStr id).

(** A leaf whose data, if it has any, is base64. *)
Definition base64_leaf (q : Gmail.part) : Prop :=
  forall b d,
    Gmail.body q = Some b -> Gmail.data b = Some d ->
    exists bytes, urlsafe_b64decode d = Return bytes.

(** The texts of all leaves of a message, as the primary server
    collects them. *)
Definition leaf_texts (m : Gmail.message) : outcome (list string) :=
  match Gmail.payload m with
  | Some p => collect (Spec.leaves p)
  | None => Return []
  end.

(** A host on which the token file can always be written, one without
    a token file, and one whose writing fails with [OSError] only. *)
Definition writable (h : AuthHost) : AuthHost :=
  {| token_path := token_path h;
     token_file := token_file h;
     refresh := refresh h;
     credentials_path := credentials_path h;
     credentials_file_exists := credentials_file_exists h;
     from_client_secrets_file := from_client_secrets_file h;
     run_local_server := run_local_server h;
     authorization_url := authorization_url h;
     input := input h;
     fetch_token := fetch_token h;
     write_token := fun _ => Return tt |}.

Definition without_token (h : AuthHost) : AuthHost :=
  {| token_path := token_path h;
     token_file := None;
     refresh := refresh h;
     credentials_path := credentials_path h;
     credentials_file_exists := credentials_file_exists h;
     from_client_secrets_file := from_client_secrets_file h;
     run_local_server := run_local_server h;
     authorization_url := authorization_url h;
     input := input h;
     fetch_token := fetch_token h;
     write_token := write_token h |}.

Definition fails_with_OSError_only (h : AuthHost) : Prop :=
  forall c e, write_token h c = Raise e -> is_OSError e = true.


(** The [Content-Disposition] value of an attachment called [name]. *)
Definition disposition (name : string) : string :=
  "attachment; filename=" +:+ dquote +:+ name +:+ dquote.

(** A provider that honours the maximum it is asked for: an answer to
    a list request lists at most that many messages. *)
Definition honours_maxResults (svc : Service) : Prop :=
  forall q n spam resp,
    (0 <= n)%Z ->
    messages_list svc q n spam = Return resp ->
    (Z.of_nat (List.length (default [] (Gmail.messages resp))) <= n)%Z.

(** An outbound request whose message has exactly the one [From]
    header [addr]. *)
Definition stamped (addr : string) (ev : event) : Prop :=
  match ev with
  | Call (MessagesSend b) => Mime.get_all "From" (Gmail.raw b) = [addr]
  | Call (DraftsCreate m) => Mime.get_all "From" m = [addr]
  | _ => True
  end.

(** An outbound request whose message has no [From] header. *)
Definition leaves_sender_out (ev : event) : Prop :=
  match ev with
  | Call (MessagesSend b) => Mime.get_all "From" (Gmail.raw b) = []
  | Call (DraftsCreate m) => Mime.get_all "From" m = []
  | _ => True
  end.

(** ** Properties *)

Arguments Secondary.header_dict : simpl never.
Arguments Primary.first_header : simpl never.
Arguments Secondary.reply_message : simpl never.
Arguments Secondary.address_headers : simpl never.

(** *** The computation monad *)

Lemma result_bind {A B} (m : M A) (k : A -> M B) :
  result (m ≫= k) = match result m with
                    | Return a => result (k a)
                    | Raise e => Raise e
                    end.
Proof.
  destruct m as [[a|e] t]; cbn; [|reflexivity].
  destruct (k a) as [r t']; reflexivity.
Qed.

Lemma trace_bind {A B} (m : M A) (k : A -> M B) :
  trace (m ≫= k) = match result m with
                   | Return a => trace m ++ trace (k a)
                   | Raise e => trace m
                   end.
Proof.
  destruct m as [[a|e] t]; cbn; [|reflexivity].
  destruct (k a) as [r t']; reflexivity.
Qed.

Lemma result_try_all {A} (m : M A) (h : exn -> M A) :
  result (try_except m is_Exception h)
  = match result m with Return a => Return a | Raise e => result (h e) end.
Proof.
  destruct m as [[a|e] t]; cbn; [reflexivity|].
  destruct (h e) as [r t']; reflexivity.
Qed.

Lemma result_perform {A} (ev : event) (o : outcome A) : result (perform ev o) = o.
Proof. reflexivity. Qed.

Lemma result_pure {A} (o : outcome A) : result (pure o) = o.
Proof. reflexivity. Qed.

Lemma trace_tool (body : M pyval) : trace (Secondary.tool body) = trace body.
Proof. destruct body as [[v|e] t]; cbn; [reflexivity | by rewrite app_nil_r]. Qed.


(** Unfolding one bind of a tool body. *)
Ltac step :=
  rewrite ?trace_bind, ?result_bind, ?result_perform, ?result_pure;
  cbn [Secondary.the_service ret raise pure perform tell result trace fst snd app].

Lemma for_each_length {A B} (f : A -> M B) (l : list A) :
  forall ys, result (for_each l f) = Return ys -> List.length ys = List.length l.
Proof.
  induction l as [|x l IH]; intros ys; cbn [for_each].
  - intros [= <-]. reflexivity.
  - rewrite result_bind. destruct (result (f x)) as [y|e]; [|discriminate].
    rewrite result_bind. destruct (result (for_each l f)) as [ys'|e] eqn:Hrest;
      [|discriminate].
    intros [= <-]. cbn. f_equal. by apply IH.
Qed.

Lemma for_each_success {A B} (f : A -> M B) (l : list A) :
  forall ys,
    result (for_each l f) = Return ys ->
    Forall2 (fun x y => result (f x) = Return y) l ys
    /\ trace (for_each l f) = flat_map (fun x => trace (f x)) l.
Proof.
  induction l as [|x l IH]; intros ys; cbn [for_each flat_map].
  - intros [= <-]. by split.
  - rewrite result_bind, trace_bind.
    destruct (result (f x)) as [y|e] eqn:Hx; [|discriminate].
    rewrite result_bind, trace_bind.
    destruct (result (for_each l f)) as [ys'|e] eqn:Hrest; [|discriminate].
    intros [= <-]. destruct (IH ys' eq_refl) as [Hall Htrace].
    split; [by constructor|]. cbn. by rewrite app_nil_r, Htrace.
Qed.

Lemma for_each_pure_quiet {A B} (g : A -> outcome B) (l : list A) :
  trace (for_each l (fun x => pure (g x))) = [].
Proof.
  induction l as [|x l IH]; [reflexivity|]. cbn [for_each].
  rewrite trace_bind. cbn [pure trace result fst snd app].
  destruct (g x); [|reflexivity]. rewrite trace_bind, IH.
  by destruct (result _).
Qed.


(** *** What a trace can hold *)

Section Traces.
Context (P : event -> Prop).

Lemma traces_ret {A} (a : A) : traces P (ret a).
Proof. constructor. Qed.

Lemma traces_raise {A} (e : exn) : traces P (raise (A:=A) e).
Proof. constructor. Qed.

Lemma traces_pure {A} (o : outcome A) : traces P (pure o).
Proof. constructor. Qed.

Lemma traces_perform {A} (ev : event) (o : outcome A) : P ev -> traces P (perform ev o).
Proof. intros H. by repeat constructor. Qed.

Lemma traces_tell (ev : event) : P ev -> traces P (tell ev).
Proof. intros H. by repeat constructor. Qed.

Lemma traces_bind {A B} (m : M A) (k : A -> M B) :
  traces P m -> (forall a, traces P (k a)) -> traces P (m ≫= k).
Proof.
  unfold traces. intros Hm Hk. rewrite trace_bind.
  destruct (result m) as [a|e]; [|exact Hm].
  apply Forall_app. split; [exact Hm | apply Hk].
Qed.

Lemma traces_bind_result {A B} (m : M A) (k : A -> M B) :
  traces P m -> (forall a, result m = Return a -> traces P (k a)) -> traces P (m ≫= k).
Proof.
  unfold traces. intros Hm Hk. rewrite trace_bind.
  destruct (result m) as [a|e] eqn:Hr; [|exact Hm].
  apply Forall_app. split; [exact Hm | by apply Hk].
Qed.

Lemma traces_try {A} (m : M A) (catches : exn -> bool) (h : exn -> M A) :
  traces P m -> (forall e, traces P (h e)) -> traces P (try_except m catches h).
Proof.
  unfold traces. intros Hm Hh. destruct m as [[a|e] t]; cbn in *; [exact Hm|].
  destruct (catches e); [|exact Hm].
  specialize (Hh e). destruct (h e) as [r t']. cbn in *.
  apply Forall_app. by split.
Qed.

Lemma traces_for_each {A B} (l : list A) (f : A -> M B) :
  (forall x, traces P (f x)) -> traces P (for_each l f).
Proof.
  intros Hf. induction l as [|x l IH]; cbn [for_each]; [apply traces_ret|].
  apply traces_bind; [apply Hf|]. intros y.
  apply traces_bind; [exact IH|]. intros ys. apply traces_ret.
Qed.

Lemma traces_the_service svc : traces P (Secondary.the_service svc).
Proof. destruct svc; constructor. Qed.

Lemma traces_receiver self : traces P (Secondary.receiver_service self).
Proof. destruct self as [svc|v]; [apply traces_the_service | constructor]. Qed.
End Traces.

(** Steps of a proof that every event of a tool satisfies a predicate:
    walk through the binds, leaving the requests to [tac]. *)
Ltac walk_trace tac :=
  repeat first
    [ apply traces_ret | apply traces_raise | apply traces_pure
    | apply traces_the_service | apply traces_receiver
    | apply traces_tell; tac | apply traces_perform; tac
    | apply traces_for_each; intros
    | apply traces_try; [|intros]
    | apply traces_bind; [|intros] ].

Ltac unfold_tools :=
  unfold Secondary.call_tool, Secondary.tool, Secondary.send_email,
    Secondary.search_emails, Secondary.read_email, Secondary.reply_to_email;
  cbn [Secondary.tool_body];
  unfold Secondary.send_email_body, Secondary.create_draft_body,
    Secondary.search_emails_body, Secondary.search_email_list, Secondary.search_item,
    Secondary.read_email_body, Secondary.get_thread_body,
    Secondary.reply_to_email_body, Secondary.list_labels_body,
    Secondary.create_label_body, Secondary.modify_message_labels_body,
    Secondary.delete_message_body, Secondary.trash_message_body,
    Secondary.batch_modify_messages_body, Secondary.create_filter_body,
    Secondary.download_attachment_body, Secondary.get_profile_body,
    users_getProfile, users_messages_send, users_messages_get, users_messages_list,
    users_messages_modify, users_messages_delete, users_messages_trash,
    users_messages_batchModify, users_attachments_get, users_drafts_create,
    users_threads_get, users_labels_list, users_labels_create, users_filters_create.

Lemma traces_bind_pure (P : event -> Prop) {A B} (o : outcome A) (k : A -> M B) :
  (forall a, o = Return a -> traces P (k a)) -> traces P (pure o ≫= k).
Proof. intros Hk. apply traces_bind_result; [apply traces_pure | exact Hk]. Qed.


(** *** Tool results of the secondary server *)

Lemma shaped_bind {A} (m : M A) (k : A -> M pyval) :
  (forall a, succeeds_shaped (k a)) -> succeeds_shaped (m ≫= k).
Proof.
  intros Hk. unfold succeeds_shaped. rewrite result_bind.
  destruct (result m) as [a|e]; [apply Hk | exact I].
Qed.

Lemma shaped_success (fields : list (string * pyval)) :
  succeeds_shaped (ret (Secondary.success fields)).
Proof.
  cbn. eexists. split; [reflexivity|]. apply lookup_insert_eq.
Qed.

Lemma tool_body_shaped h svc i : succeeds_shaped (Secondary.tool_body h svc i).
Proof.
  destruct i; cbn [Secondary.tool_body];
    unfold Secondary.send_email_body, Secondary.create_draft_body,
      Secondary.search_emails_body, Secondary.read_email_body,
      Secondary.get_thread_body, Secondary.reply_to_email_body,
      Secondary.list_labels_body, Secondary.create_label_body,
      Secondary.modify_message_labels_body, Secondary.delete_message_body,
      Secondary.trash_message_body, Secondary.batch_modify_messages_body,
      Secondary.create_filter_body, Secondary.download_attachment_body,
      Secondary.get_profile_body;
    repeat (apply shaped_bind; intros); apply shaped_success.
Qed.

Lemma wrapper_result {A} (name : string) (call : M A) :
  result (Primary.wrapper name call) = result call.
Proof.
  destruct call as [[a|e] t]; cbn; [reflexivity|].
  destruct e; reflexivity.
Qed.

(** C1, as the code has it.  In the secondary server every one of the
    fifteen tools returns a dictionary and never raises: when the body
    of the tool raises [e] the caller gets exactly
    [{'success': False, 'error': str(e)}], and when the body completes
    the caller gets its dictionary, whose [success] entry is [True].
    The wrappers of the primary server add no such shape: whatever the
    wrapped method returns or raises is what the caller gets. *)
Theorem tool_failures_normalised_in_secondary_only :
  (forall h svc i,
     match result (Secondary.tool_body h svc i) with
     | Raise e =>
         result (Secondary.call_tool h svc i)
         = Return (PDict {[ "success" := PBool false; "error" := PStr (str e) ]})
     | Return v =>
         result (Secondary.call_tool h svc i) = Return v
         /\ exists d, v = PDict d /\ d !! "success" = Some (PBool true)
     end)
  /\ (forall A (name : string) (call : M A),
        result (Primary.wrapper name call) = result call).
Proof.
  split.
  - intros h svc i. unfold Secondary.call_tool, Secondary.tool.
    rewrite result_try_all.
    pose proof (tool_body_shaped h svc i) as Hs. unfold succeeds_shaped in Hs.
    destruct (result (Secondary.tool_body h svc i)) as [v|e].
    + split; [reflexivity | exact Hs].
    + reflexivity.
  - intros A name call. apply wrapper_result.
Qed.

(** C1, counterexample.  The primary [send_email] tool, against a
    provider that rejects the send with HTTP 400, hands the caller the
    raised [HttpError] (after logging it), not a dictionary. *)
Lemma primary_send_email_raises :
  Primary.tool_send_email Sample.no_files Sample.header_check Sample.rejecting Sample.hello
  = (Raise (HttpError 400 "Invalid To header"),
     [Call GetProfile;
      Call (MessagesSend (Gmail.SendBody
        (Mime.MIMEText "Hello" "plain"
           [("From", "alice@example.com"); ("To", "a@example.com"); ("Subject", "Hi")])
        None));
      LogError "send_email failed: Invalid To header"]).
Proof. reflexivity. Qed.

(** *** Replies *)

Lemma replace_absent (old new s : string) :
  occurs old s = false -> replace old new s = s.
Proof.
  unfold replace. induction s as [|c s IH]; intros H; [reflexivity|].
  cbn [occurs] in H. apply orb_false_iff in H as [Hp Ho].
  cbn [replace_from]. rewrite Hp. f_equal. exact (IH Ho).
Qed.

(** A subject without the marker gets it prepended. *)
Lemma reply_subject_fresh (S : string) :
  occurs "Re: " S = false -> Secondary.reply_subject S = "Re: " +:+ S.
Proof.
  intros H. unfold Secondary.reply_subject. by rewrite replace_absent.
Qed.

(** A subject that starts with the marker, and has it nowhere else,
    is kept as it is. *)
Lemma reply_subject_marked (S : string) :
  occurs "Re: " S = false -> Secondary.reply_subject ("Re: " +:+ S) = "Re: " +:+ S.
Proof.
  intros H. unfold Secondary.reply_subject. f_equal.
  change (replace "Re: " EmptyString ("Re: " +:+ S))
    with (replace "Re: " EmptyString S).
  by apply replace_absent.
Qed.

(** The reply is sent into the thread of the original. *)
Lemma reply_goes_to_original_thread h svc message_id body html original p headers T :
  messages_get svc message_id "metadata" (Some ["From"; "To"; "Subject"; "Message-ID"])
    = Return original ->
  Gmail.payload original = Some p ->
  Secondary.header_dict (default [] (Gmail.headers p)) = Return headers ->
  Secondary.as_bytes h (Secondary.reply_message headers body html) = Return tt ->
  Gmail.threadId original = Some T ->
  trace (Secondary.reply_to_email h (Some svc) message_id body html)
  = [Call (MessagesGet message_id "metadata" (Some ["From"; "To"; "Subject"; "Message-ID"]));
     Call (MessagesSend (Gmail.SendBody
       (Secondary.reply_message headers body html) (Some T)))].
Proof.
  intros Hget Hp Hh Hbytes HT.
  unfold Secondary.reply_to_email, Secondary.tool, Secondary.reply_to_email_body,
    Secondary.payload_headers, users_messages_get, users_messages_send.
  cbn. rewrite Hget. cbn. rewrite Hp. cbn. rewrite Hh. cbn. rewrite Hbytes. cbn.
  rewrite HT. cbn.
  destruct (messages_send svc _) as [sent|e]; cbn; [|reflexivity].
  destruct (Gmail.msg_id sent); cbn; [|reflexivity].
  destruct (Gmail.threadId sent); reflexivity.
Qed.

(** C2, at the failing input.  The original has subject
    "Fwd: Re: hi", which does not start with the marker; the reply goes
    to thread "t1" of the original, but its subject is "Re: Fwd: hi":
    the marker inside the subject is gone, so the subject is not the
    original with the marker prepended. *)
Theorem reply_deletes_marker_inside_subject :
  trace (Secondary.reply_to_email Sample.plain_host (Some Sample.forwarded) "m1" "ok" false)
  = [Call (MessagesGet "m1" "metadata" (Some ["From"; "To"; "Subject"; "Message-ID"]));
     Call (MessagesSend (Gmail.SendBody
       (Mime.MIMEText "ok" "plain"
          [("to", "bob@example.com");
           ("subject", "Re: Fwd: hi");
           ("In-Reply-To", "<1@example.com>");
           ("References", "<1@example.com>")])
       (Some "t1")))]
  /\ Secondary.reply_subject "Fwd: Re: hi" <> "Re: " +:+ "Fwd: Re: hi"
  /\ Secondary.reply_subject "RRe: e: x" = "Re: Re: x".
Proof. split; [reflexivity|]. split; [discriminate|reflexivity]. Qed.

(** *** Sending *)

(** C3, counterexample.  Two providers answer the same send with the
    same message id and with different thread ids; the primary
    [send_email] tool returns the same text for both, so the thread id
    is not part of what it returns. *)
Lemma primary_send_hides_thread_id :
  result (Primary.tool_send_email Sample.no_files Sample.header_check
            (Sample.accepting "m1" "t1") Sample.hello)
    = Return "Email sent successfully. Message ID: m1"
  /\ result (Primary.tool_send_email Sample.no_files Sample.header_check
               (Sample.accepting "m1" "t2") Sample.hello)
    = Return "Email sent successfully. Message ID: m1".
Proof. split; reflexivity. Qed.

Lemma secondary_send_result
    h svc to subject body cc bcc html attachments message sent id :
  Secondary.send_email_message h body html attachments = Return message ->
  Secondary.as_bytes h (Secondary.address_headers to subject cc bcc message) = Return tt ->
  messages_send svc
    (Gmail.SendBody (Secondary.address_headers to subject cc bcc message) None)
    = Return sent ->
  Gmail.msg_id sent = Some id ->
  Secondary.send_email h (Some svc) to subject body cc bcc html attachments
  = (Return (Secondary.success
       [("messageId", PStr id); ("threadId", opt_str (Gmail.threadId sent))]),
     [Call (MessagesSend
        (Gmail.SendBody (Secondary.address_headers to subject cc bcc message) None))]).
Proof.
  intros Hm Hb Hs Hid.
  unfold Secondary.send_email, Secondary.tool, Secondary.send_email_body,
    users_messages_send.
  rewrite Hm. cbn. rewrite Hb. cbn. rewrite Hs. cbn. rewrite Hid. reflexivity.
Qed.

Lemma primary_send_result fs as_bytes svc a m sent :
  result (Primary.compose_outgoing fs svc a) = Return m ->
  as_bytes m = Return tt ->
  messages_send svc (Gmail.SendBody m None) = Return sent ->
  result (Primary.tool_send_email fs as_bytes svc a)
  = Return ("Email sent successfully. Message ID: " +:+ Primary.fmt_opt (Gmail.msg_id sent)).
Proof.
  intros Hm Hb Hs. unfold Primary.tool_send_email.
  rewrite wrapper_result, result_bind. unfold Primary.send_email.
  rewrite result_bind, Hm, result_bind, result_pure, Hb, result_bind.
  unfold users_messages_send. rewrite result_perform, Hs. reflexivity.
Qed.

(** What stops a send before the provider is asked: a message object
    that does not serialise. *)
Lemma secondary_send_needs_bytes
    h svc to subject body cc bcc html attachments message e :
  Secondary.send_email_message h body html attachments = Return message ->
  Secondary.as_bytes h (Secondary.address_headers to subject cc bcc message) = Raise e ->
  Secondary.send_email h svc to subject body cc bcc html attachments
  = (Return (Secondary.failure e), []).
Proof.
  intros Hm Hb.
  unfold Secondary.send_email, Secondary.tool, Secondary.send_email_body.
  rewrite Hm. cbn. rewrite Hb. reflexivity.
Qed.

(** C3, as the code has it.  A [send_email] of the secondary server
    whose message serialises and whose request the provider answers
    with a message id issues one send request without a thread id and
    returns the message id of the provider's response together with the
    thread id of that response ([None] when the response has none); the
    two are equal when the provider's response has them equal.  When
    the message does not serialise, nothing is sent and the caller gets
    the failure dictionary.  A successful [send_email] of the primary
    server returns a text that holds the message id of the response and
    nothing else of it. *)
Theorem send_returns_what_the_provider_assigned :
  (forall h svc to subject body cc bcc html attachments message sent id,
     Secondary.send_email_message h body html attachments = Return message ->
     Secondary.as_bytes h (Secondary.address_headers to subject cc bcc message)
       = Return tt ->
     messages_send svc
       (Gmail.SendBody (Secondary.address_headers to subject cc bcc message) None)
       = Return sent ->
     Gmail.msg_id sent = Some id ->
     Secondary.send_email h (Some svc) to subject body cc bcc html attachments
     = (Return (Secondary.success
          [("messageId", PStr id); ("threadId", opt_str (Gmail.threadId sent))]),
        [Call (MessagesSend
           (Gmail.SendBody (Secondary.address_headers to subject cc bcc message) None))])
     /\ (Gmail.threadId sent = Some id ->
         result (Secondary.send_email h (Some svc) to subject body cc bcc html attachments)
         = Return (Secondary.success [("messageId", PStr id); ("threadId", PStr id)])))
  /\ (forall h svc to subject body cc bcc html attachments message e,
        Secondary.send_email_message h body html attachments = Return message ->
        Secondary.as_bytes h (Secondary.address_headers to subject cc bcc message)
          = Raise e ->
        Secondary.send_email h svc to subject body cc bcc html attachments
        = (Return (Secondary.failure e), []))
  /\ (forall fs as_bytes svc a m sent,
        result (Primary.compose_outgoing fs svc a) = Return m ->
        as_bytes m = Return tt ->
        messages_send svc (Gmail.SendBody m None) = Return sent ->
        result (Primary.tool_send_email fs as_bytes svc a)
        = Return ("Email sent successfully. Message ID: "
                  +:+ Primary.fmt_opt (Gmail.msg_id sent))).
Proof.
  split; [|split].
  - intros h svc to subject body cc bcc html attachments message sent id Hm Hb Hs Hid.
    pose proof (secondary_send_result h svc to subject body cc bcc html attachments
                  message sent id Hm Hb Hs Hid) as E.
    split; [exact E|]. intros Ht. rewrite E, Ht. reflexivity.
  - apply secondary_send_needs_bytes.
  - apply primary_send_result.
Qed.

Lemma send_returns_what_the_provider_assigned_witness :
  (Secondary.send_email Sample.plain_host (Some (Sample.accepting "m1" "m1"))
     "a@example.com" "Hi" "Hello" None None false None
   = (Return (Secondary.success [("messageId", PStr "m1"); ("threadId", PStr "m1")]),
      [Call (MessagesSend (Gmail.SendBody
         (Mime.MIMEText "Hello" "plain" [("to", "a@example.com"); ("subject", "Hi")])
         None))]))
  /\ result (Secondary.send_email Sample.plain_host (Some (Sample.accepting "m1" "m1"))
       "a@example.com" "Hi" "Hello" None None false None)
     = Return (Secondary.success [("messageId", PStr "m1"); ("threadId", PStr "m1")])
  /\ Secondary.send_email Sample.plain_host (Some (Sample.accepting "m1" "m1"))
       "a@example.com" ("Hi" +:+ nl +:+ "Bcc: eve@example.com") "Hello" None None false None
     = (Return (Secondary.failure (HeaderParseError
          ("header value appears to contain an embedded header: "
           +:+ "Hi" +:+ nl +:+ "Bcc: eve@example.com"))), [])
  /\ result (Primary.tool_send_email Sample.no_files Sample.header_check
               (Sample.accepting "m1" "t9") Sample.hello)
     = Return "Email sent successfully. Message ID: m1".
Proof.
  destruct send_returns_what_the_provider_assigned as (Hsecondary & Hstopped & Hprimary).
  destruct (Hsecondary Sample.plain_host (Sample.accepting "m1" "m1")
              "a@example.com" "Hi" "Hello" None None false None
              (Mime.MIMEText "Hello" "plain" []) (Sample.stub "m1" "m1") "m1"
              eq_refl eq_refl eq_refl eq_refl) as [Hcall Hsame].
  split; [exact Hcall|]. split; [exact (Hsame eq_refl)|]. split.
  - exact (Hstopped Sample.plain_host (Some (Sample.accepting "m1" "m1"))
             "a@example.com" ("Hi" +:+ nl +:+ "Bcc: eve@example.com") "Hello"
             None None false None (Mime.MIMEText "Hello" "plain" []) _ eq_refl eq_refl).
  - exact (Hprimary Sample.no_files Sample.header_check (Sample.accepting "m1" "t9")
             Sample.hello
             (Mime.MIMEText "Hello" "plain"
                [("From", "alice@example.com"); ("To", "a@example.com"); ("Subject", "Hi")])
             (Sample.stub "m1" "t9") eq_refl eq_refl eq_refl).
Defined.

(** *** Authentication *)

Lemma authenticate_depth_enough (d : nat) h manual_auth :
  Secondary.authenticate_depth (2 + d) h manual_auth = Secondary.authenticate h manual_auth.
Proof.
  unfold Secondary.authenticate.
  assert (forall again again',
            Secondary.authenticate_body again h true
            = Secondary.authenticate_body again' h true) as Hmanual.
  { intros again again'. reflexivity. }
  cbn [Nat.add Secondary.authenticate_depth].
  destruct d; [reflexivity|].
  cbn [Secondary.authenticate_depth].
  by rewrite (Hmanual _ (raise (RuntimeError "maximum recursion depth exceeded"))).
Qed.

Lemma expired_is_not_valid (c : Credentials) : expired c = true -> valid c = false.
Proof. intros H. unfold valid. rewrite H. by destruct (token c). Qed.

(** In the primary server a failed refresh is logged and the browser
    flow is started. *)
Lemma primary_refresh_failure_starts_browser_flow h c e :
  token_file h = Some (Return c) ->
  expired c = true ->
  truthy_opt_str (refresh_token c) = true ->
  refresh h c = Raise e ->
  exists rest,
    trace (Primary._get_service h)
    = [LoadToken; Refresh; LogWarning ("Token refresh failed: " +:+ str e);
       LoadClientSecrets] ++ rest.
Proof.
  intros Hf He Hr Hfail.
  unfold Primary._get_service, Primary.load_token. rewrite Hf. cbn.
  rewrite (expired_is_not_valid c He).
  unfold Primary.sign_in, Primary.try_refresh. rewrite He, Hr. cbn.
  rewrite Hfail. cbn. unfold Primary.interactive_grant.
  destruct (from_client_secrets_file h) as [[]|e1]; cbn.
  - destruct (run_local_server h) as [c'|e2]; cbn.
    + destruct (write_token h c') as [[]|e3]; cbn.
      * eexists; reflexivity.
      * destruct (is_OSError e3); cbn; eexists; reflexivity.
    + eexists; reflexivity.
  - eexists; reflexivity.
Qed.

(** C4, on the secondary server.  For a stored credential that is
    expired and holds a refresh token, a refresh that raises [e] ends
    [authenticate] with [e]: the trace stops at the refresh, and neither
    the client-secret file nor the browser or manual flow is touched. *)
Theorem secondary_refresh_failure_aborts h manual_auth c e :
  token_file h = Some (Return c) ->
  expired c = true ->
  truthy_opt_str (refresh_token c) = true ->
  refresh h c = Raise e ->
  Secondary.authenticate h manual_auth
  = (Raise e, [LoadToken; Stderr "Refreshing expired credentials..."; Refresh]).
Proof.
  intros Hf He Hr Hfail.
  unfold Secondary.authenticate. cbn [Secondary.authenticate_depth].
  unfold Secondary.authenticate_body. rewrite Hf. cbn.
  rewrite (expired_is_not_valid c He). unfold Secondary.refreshable.
  rewrite He, Hr. cbn. rewrite Hfail. reflexivity.
Qed.

Lemma secondary_refresh_failure_aborts_witness :
  Secondary.authenticate Sample.revoked_host false
  = (Raise (RefreshError "invalid_grant: Token has been expired or revoked."),
     [LoadToken; Stderr "Refreshing expired credentials..."; Refresh]).
Proof.
  exact (secondary_refresh_failure_aborts Sample.revoked_host false Sample.stale
           (RefreshError "invalid_grant: Token has been expired or revoked.")
           eq_refl eq_refl eq_refl eq_refl).
Defined.

(** The same host under the primary server: the refresh failure is
    logged, the browser flow runs and the new credential is stored. *)
Example primary_recovers_on_revoked_host :
  Primary._get_service Sample.revoked_host
  = (Return Sample.fresh,
     [LoadToken; Refresh;
      LogWarning "Token refresh failed: invalid_grant: Token has been expired or revoked.";
      LoadClientSecrets; RunLocalServer; WriteToken]).
Proof. reflexivity. Qed.

(** *** Decoding *)

Lemma scan_parts_settles (l : list Gmail.part) :
  Forall readable_entry l ->
  forall body,
    Secondary.scan_parts body l
    = Return (match settled l with Some p => Spec.text_of p | None => body end).
Proof.
  unfold settled.
  induction 1 as [|p l [Hty Htxt] _ IH]; intros body; [reflexivity|].
  cbn [Secondary.scan_parts List.find List.filter].
  unfold Spec.is_type in *.
  destruct (Gmail.mimeType p) as [mt|]; [|congruence]. cbn.
  destruct (String.eqb mt "text/plain") eqn:Hplain.
  - exact (Htxt eq_refl).
  - destruct (String.eqb mt "text/html") eqn:Hhtml.
    + specialize (Htxt eq_refl). unfold part_text in Htxt.
      destruct (Secondary.body_data p) as [data|e]; cbn in Htxt |- *; [|discriminate].
      destruct (Secondary.decode_data data) as [html|e]; cbn in Htxt |- *; [|discriminate].
      injection Htxt as ->. rewrite IH, last_cons.
      destruct (List.find _ l); [reflexivity|].
      destruct (last _); reflexivity.
    + rewrite IH. reflexivity.
Qed.

Lemma scan_parts_ignores_children (l : list Gmail.part) :
  forall body,
    Secondary.scan_parts body (childless <$> l) = Secondary.scan_parts body l.
Proof.
  induction l as [|p l IH]; intros body; [reflexivity|].
  cbn [fmap list_fmap Secondary.scan_parts].
  change (Gmail.mimeType (childless p)) with (Gmail.mimeType p).
  change (Secondary.body_data (childless p)) with (Secondary.body_data p).
  destruct (Gmail.mimeType p) as [mt|]; [|reflexivity]. cbn.
  destruct (String.eqb mt "text/plain"); [reflexivity|].
  destruct (String.eqb mt "text/html").
  - destruct (Secondary.body_data p) as [data|e]; [|reflexivity]. cbn.
    destruct (Secondary.decode_data data) as [html|e]; [|reflexivity]. cbn.
    apply IH.
  - apply IH.
Qed.

(** Induction over a payload tree: a property holds of every part if
    it holds of a part whenever it holds of all its children. *)
Fixpoint part_tree_ind (P : Gmail.part -> Prop)
    (step : forall mt hs b ps,
        match ps with Some l => Forall P l | None => True end ->
        P (Gmail.Part mt hs b ps))
    (p : Gmail.part) : P p :=
  match p with
  | Gmail.Part mt hs b ps =>
      step mt hs b ps
        match ps return match ps with Some l => Forall P l | None => True end with
        | Some l =>
            (fix all (l : list Gmail.part) : Forall P l :=
               match l return Forall P l with
               | [] => List.Forall_nil P
               | q :: l' =>
                   @List.Forall_cons _ P q l' (part_tree_ind P step q) (all l')
               end) l
        | None => I
        end
  end.

Lemma collect_app (l1 l2 : list Gmail.part) :
  collect (l1 ++ l2)
  = (xs ← collect l1; ys ← collect l2; Return (xs ++ ys)).
Proof.
  induction l1 as [|q l1 IH]; cbn [app collect].
  - cbn. destruct (collect l2); reflexivity.
  - rewrite IH. destruct (leaf_text q) as [xs|e]; [|reflexivity]. cbn.
    destruct (collect l1) as [ys|e]; [|reflexivity]. cbn.
    destruct (collect l2) as [zs|e]; [|reflexivity]. cbn.
    by rewrite app_assoc.
Qed.

Lemma walk_leaf mt hs b ps :
  match ps with Some (_ :: _) => False | _ => True end ->
  Primary.walk (Gmail.Part mt hs b ps) = collect (Spec.leaves (Gmail.Part mt hs b ps)).
Proof.
  intros Hleaf.
  assert (Spec.leaves (Gmail.Part mt hs b ps) = [Gmail.Part mt hs b ps]) as ->
    by (destruct ps as [[|q l]|]; [reflexivity | destruct Hleaf | reflexivity]).
  assert (Primary.walk (Gmail.Part mt hs b ps) = leaf_text (Gmail.Part mt hs b ps)) as ->.
  { destruct ps as [[|q l]|]; [|destruct Hleaf|];
      destruct b as [[[data|] att]|]; reflexivity. }
  cbn [collect]. destruct (leaf_text _); cbn; [by rewrite app_nil_r | reflexivity].
Qed.

Lemma walk_all_collects (l : list Gmail.part) :
  Forall (fun p => Primary.walk p = collect (Spec.leaves p)) l ->
  (fix walk_all (l : list Gmail.part) : outcome (list string) :=
     match l with
     | [] => Return []
     | q :: l' => xs ← Primary.walk q; ys ← walk_all l'; Return (xs ++ ys)
     end) l
  = collect
      ((fix leaves_all (l : list Gmail.part) : list Gmail.part :=
          match l with
          | [] => []
          | q :: l' => Spec.leaves q ++ leaves_all l'
          end) l).
Proof.
  induction 1 as [|q l Hq _ IHl]; [reflexivity|].
  rewrite collect_app, <- Hq, <- IHl. reflexivity.
Qed.

(** [walk] of the primary server visits the leaves in document order
    and keeps the text of each one that has data. *)
Lemma walk_collects_leaves (p : Gmail.part) :
  Primary.walk p = collect (Spec.leaves p).
Proof.
  induction p as [mt hs b ps IH] using part_tree_ind.
  destruct ps as [[|q l]|]; [by apply walk_leaf | | by apply walk_leaf].
  exact (walk_all_collects (q :: l) IH).
Qed.

(** C5, counterexample.  In a payload whose text variants sit inside an
    alternative container below the top level, the specification's
    decoder finds the plain text "Hello"; [_extract_body] of the
    secondary server returns the empty string, and [walk] of the primary
    server collects the plain and the HTML variant both. *)
Lemma nested_plain_part_is_missed :
  Spec.preferred_body "Hello there" Sample.nested = "Hello"
  /\ Secondary._extract_body Sample.nested = Return EmptyString
  /\ Primary.walk Sample.nested = Return ["Hello"; "<b>Hello</b>"].
Proof. repeat split; reflexivity. Qed.

(** C5, as the code has it.  [_extract_body] of the secondary server
    reads the payload's own parts list and nothing below it.  When every
    entry of that list has a type and the text entries have data that
    decodes, the result is the text of the first [text/plain] entry if
    there is one, otherwise the text of the last [text/html] entry,
    otherwise the empty string (the snippet is never used); and the
    result is the same when the children of the entries are cut off.
    [walk] of the primary server does descend, but prefers nothing: it
    collects the text of every leaf that has data, in document order. *)
Theorem extract_body_reads_top_level_only payload l :
  Gmail.parts payload = Some l ->
  Forall readable_entry l ->
  Secondary._extract_body payload
  = Return (match settled l with Some p => Spec.text_of p | None => EmptyString end)
  /\ Secondary._extract_body
       (Gmail.Part (Gmail.mimeType payload) (Gmail.headers payload) (Gmail.body payload)
          (Some (childless <$> l)))
     = Secondary._extract_body payload
  /\ Primary.walk payload = collect (Spec.leaves payload).
Proof.
  intros Hl Hok. unfold Secondary._extract_body. rewrite Hl. cbn [Gmail.parts].
  split; [by apply scan_parts_settles|].
  split; [apply scan_parts_ignores_children | apply walk_collects_leaves].
Qed.

Lemma extract_body_reads_top_level_only_witness :
  Secondary._extract_body Sample.flat = Return "Hello"
  /\ Secondary._extract_body
       (Gmail.Part (Gmail.mimeType Sample.flat) (Gmail.headers Sample.flat)
          (Gmail.body Sample.flat)
          (Some (childless <$> [Sample.leaf "text/html" "PGI-SGVsbG88L2I-";
                                Sample.leaf "text/plain" "SGVsbG8="])))
     = Secondary._extract_body Sample.flat
  /\ Primary.walk Sample.flat = Return ["<b>Hello</b>"; "Hello"].
Proof.
  apply (extract_body_reads_top_level_only Sample.flat
           [Sample.leaf "text/html" "PGI-SGVsbG88L2I-"; Sample.leaf "text/plain" "SGVsbG8="]).
  - reflexivity.
  - repeat constructor; try discriminate; intros _; reflexivity.
Defined.

(** C6, at the failing input.  The message's only part is a text file
    sent as an attachment, so its body has an attachment id and no
    data.  [read_email] of the secondary server answers with the
    failure dictionary for [KeyError('data')]: the whole read fails. *)
Theorem read_fails_on_part_without_data :
  Secondary.read_email (Some (Sample.serving Sample.text_attachment)) "m7" "full"
  = (Return (PDict {[ "success" := PBool false; "error" := PStr "'data'" ]}),
     [Call (MessagesGet "m7" "full" None)]).
Proof. reflexivity. Qed.

(** The primary server forgives missing data and bytes that are not
    text, but not data that is not base64: the decoding error is not an
    [HttpError], so the wrapper lets it through. *)
Example primary_read_raises_on_garbled_data :
  result (Primary.tool_read_email (Sample.serving Sample.garbled) "m8")
  = Raise (BinasciiError
      "Invalid base64-encoded string: number of data characters (1) cannot be 1 more than a multiple of 4").
Proof. reflexivity. Qed.

(** The message of C6 under the primary server: the part without data
    is passed over and the snippet stands in for the body. *)
Example primary_read_tolerates_part_without_data :
  Primary.tool_read_email (Sample.serving Sample.text_attachment) "m7"
  = (Return ("Subject: " +:+ nl +:+ "From: " +:+ nl +:+ nl +:+ "see attached notes"),
     [Call (MessagesGet "m7" "full" None)]).
Proof. reflexivity. Qed.

(** *** Composing *)

Lemma attach_keeps_headers (p m : Mime.mime) :
  Mime.headers_of (Mime.attach p m) = Mime.headers_of m.
Proof. by destruct m. Qed.


Lemma get_all_setitem (k k' v : string) (m : Mime.mime) :
  Mime.get_all k (Mime.setitem k' v m)
  = Mime.get_all k m
    ++ (if String.eqb (Mime.lower k') (Mime.lower k) then [v] else []).
Proof.
  unfold Mime.get_all.
  destruct m; cbn [Mime.setitem Mime.headers_of];
    rewrite List.filter_app, fmap_app; cbn [List.filter fst snd];
    by destruct (String.eqb _ _).
Qed.


Lemma set_all_multipart items subtype h l :
  Mime.set_all items (Mime.MIMEMultipart subtype h l)
  = Mime.MIMEMultipart subtype (h ++ items) l.
Proof.
  unfold Mime.set_all. revert h.
  induction items as [|[k v] items IH]; intros h; cbn.
  - by rewrite app_nil_r.
  - rewrite IH. by rewrite <- app_assoc.
Qed.

Lemma set_all_text items text subtype h :
  Mime.set_all items (Mime.MIMEText text subtype h)
  = Mime.MIMEText text subtype (h ++ items).
Proof.
  unfold Mime.set_all. revert h.
  induction items as [|[k v] items IH]; intros h; cbn.
  - by rewrite app_nil_r.
  - rewrite IH. by rewrite <- app_assoc.
Qed.

(** C7, counterexample.  A plain body and an HTML body are both given,
    there is no attachment, and [mime_type] keeps its default
    "text/plain": [_compose] builds a single plain-text part and the
    HTML body is not in the payload. *)
Lemma html_body_dropped_under_default_type :
  Primary._compose Sample.no_files "alice@example.com" ["a@example.com"] "Hi" "Hello"
    "text/plain" None None (Some "<b>Hello</b>") None
  = (Return (Mime.MIMEText "Hello" "plain"
       [("From", "alice@example.com"); ("To", "a@example.com"); ("Subject", "Hi")]),
     []).
Proof. reflexivity. Qed.

(** C7, as the code has it.  Without attachments, [_compose] builds one
    [multipart/alternative] container exactly when [mime_type] is
    "multipart/alternative" and the HTML body is not empty: it carries
    the headers and two parts, the plain body first and the HTML body
    second.  In every other case the payload is a single text part
    made of [body], and the HTML body is not in it. *)
Theorem alternative_places_plain_before_html
    fs sender to subject body cc bcc attachments :
  truthy_opt_list attachments = false ->
  (forall html,
     truthy_str html = true ->
     Primary._compose fs sender to subject body "multipart/alternative" cc bcc
       (Some html) attachments
     = (Return (Mime.MIMEMultipart "alternative"
          (Primary.compose_headers sender to subject cc bcc)
          [Mime.MIMEText body "plain" []; Mime.MIMEText html "html" []]),
        []))
  /\ (forall mime_type html_body,
        Primary.wants_alternative mime_type html_body = false ->
        Primary._compose fs sender to subject body mime_type cc bcc html_body attachments
        = (Return (Mime.MIMEText body (Primary.single_subtype mime_type)
             (Primary.compose_headers sender to subject cc bcc)),
           [])).
Proof.
  intros Hatt. split.
  - intros html Hhtml. unfold Primary._compose. rewrite Hatt.
    unfold Primary.wants_alternative. cbn [truthy_opt_str].
    replace ("multipart/alternative" =? "multipart/alternative")%string with true
      by reflexivity.
    rewrite Hhtml. cbn [andb]. rewrite set_all_multipart. reflexivity.
  - intros mime_type html_body Hgate. unfold Primary._compose.
    rewrite Hatt, Hgate, set_all_text. reflexivity.
Qed.

Lemma alternative_places_plain_before_html_witness :
  Primary._compose Sample.no_files "alice@example.com" ["a@example.com"] "Hi" "Hello"
    "multipart/alternative" None None (Some "<b>Hello</b>") None
  = (Return (Mime.MIMEMultipart "alternative"
       [("From", "alice@example.com"); ("To", "a@example.com"); ("Subject", "Hi")]
       [Mime.MIMEText "Hello" "plain" []; Mime.MIMEText "<b>Hello</b>" "html" []]),
     [])
  /\ Primary._compose Sample.no_files "alice@example.com" ["a@example.com"] "Hi"
       "<p>Hello</p>" "text/html" None None (Some "<b>Hello</b>") None
     = (Return (Mime.MIMEText "<p>Hello</p>" "html"
          [("From", "alice@example.com"); ("To", "a@example.com"); ("Subject", "Hi")]),
        []).
Proof.
  destruct (alternative_places_plain_before_html Sample.no_files "alice@example.com"
              ["a@example.com"] "Hi" "Hello" None None None eq_refl) as [Halt _].
  destruct (alternative_places_plain_before_html Sample.no_files "alice@example.com"
              ["a@example.com"] "Hi" "<p>Hello</p>" None None None eq_refl) as [_ Hone].
  split.
  - exact (Halt "<b>Hello</b>" eq_refl).
  - exact (Hone "text/html" (Some "<b>Hello</b>") eq_refl).
Defined.

(** *** Attachments *)

Lemma read_bytes_raises_OSError fs p e :
  has_nul p = false -> read_bytes fs p = Raise e -> is_OSError e = true.
Proof.
  unfold read_bytes. intros ->.
  destruct (fs p) as [| |[] c]; intros [= <-] || intros [=]; reflexivity.
Qed.

Lemma primary_attach_files fs subtype h (paths : list string) :
  nul_free paths ->
  forall l,
    Primary.attach_files fs (Mime.MIMEMultipart subtype h l) paths
    = (Return (Mime.MIMEMultipart subtype h (l ++ flat_map (kept fs) paths)),
       flat_map (warned fs) paths).
Proof.
  induction 1 as [|p paths Hp _ IH]; intros l; cbn [Primary.attach_files flat_map].
  - by rewrite app_nil_r.
  - unfold Primary.attach_file, kept, warned.
    destruct (read_bytes fs p) as [content|e] eqn:Hread; cbn.
    + rewrite IH. cbn. by rewrite <- app_assoc.
    + rewrite (read_bytes_raises_OSError _ _ _ Hp Hread). cbn.
      rewrite IH. reflexivity.
Qed.

Lemma compose_with_attachments
    fs sender to subject body mime_type cc bcc html_body p paths :
  nul_free (p :: paths) ->
  Primary._compose fs sender to subject body mime_type cc bcc html_body (Some (p :: paths))
  = (Return (Mime.MIMEMultipart "mixed"
       (Primary.compose_headers sender to subject cc bcc)
       (body_part body mime_type html_body :: flat_map (kept fs) (p :: paths))),
     flat_map (warned fs) (p :: paths)).
Proof.
  intros Hfree. unfold Primary._compose, body_part. cbn [truthy_opt_list default].
  rewrite set_all_multipart.
  destruct (Primary.wants_alternative mime_type html_body);
    cbn [Mime.attach app]; by apply primary_attach_files.
Qed.







(** In the secondary server a regular file that may not be read ends
    the send: nothing is sent and the caller gets the failure
    dictionary. *)
Example secondary_send_stops_at_unreadable_file :
  Secondary.send_email Sample.office_host (Some (Sample.accepting "m1" "m1"))
    "a@example.com" "Hi" "Hello" None None false
    (Some ["/home/alice/report.pdf"; "/root/secret.key"])
  = (Return (PDict {[ "success" := PBool false;
                      "error" := PStr "[Errno 13] Permission denied: '/root/secret.key'" ]}),
     []).
Proof. reflexivity. Qed.

(** In the primary server a path with a NUL character is refused with
    [ValueError], which the handler of the attachment loop does not
    catch: composing ends there, after the warnings of the paths before
    it. *)
Example primary_compose_raises_on_nul_path :
  Primary._compose Sample.some_files "alice@example.com" ["a@example.com"] "Hi" "Hello"
    "text/plain" None None None (Some ["/tmp/missing.pdf"; Sample.nul_path])
  = (Raise (ValueError "embedded null byte"),
     [LogWarning
        "Attachment error /tmp/missing.pdf: [Errno 2] No such file or directory: '/tmp/missing.pdf'"]).
Proof. reflexivity. Qed.

(** *** Searching *)

Lemma secondary_search_list_length svc query N spam emails :
  result (Secondary.search_email_list (Some svc) query N spam) = Return emails ->
  exists resp,
    messages_list svc query N (Some spam) = Return resp
    /\ List.length emails = List.length (default [] (Gmail.messages resp)).
Proof.
  unfold Secondary.search_email_list, users_messages_list. step. step.
  destruct (messages_list svc query N (Some spam)) as [resp|e]; [|discriminate].
  intros Hloop. exists resp. split; [reflexivity|]. by eapply for_each_length.
Qed.

Lemma primary_search_length svc query N hits :
  result (Primary.search_emails svc query N) = Return hits ->
  exists resp,
    messages_list svc query N None = Return resp
    /\ List.length hits = List.length (default [] (Gmail.messages resp)).
Proof.
  unfold Primary.search_emails, users_messages_list. step.
  destruct (messages_list svc query N None) as [resp|e]; [|discriminate].
  intros Hloop. exists resp. split; [reflexivity|]. by eapply for_each_length.
Qed.

Lemma nothing_listed (resp : Gmail.list_response) :
  (Z.of_nat (List.length (default [] (Gmail.messages resp))) <= 0)%Z ->
  default [] (Gmail.messages resp) = [].
Proof. destruct (default [] (Gmail.messages resp)); [reflexivity | cbn; lia]. Qed.

(** C9.  Against a provider that honours the maximum it is asked for,
    [search_emails] stays within [max_results] on both servers, for
    every query and every non-negative maximum: the secondary server
    answers with the failure dictionary or with a success whose list
    has at most that many items (and whose count is its length), the
    primary server with a list of at most that many items.  For a
    maximum of 0 an answered list request gives the empty list as a
    success, after that one request. *)
Theorem search_stays_within_max_results svc query N spam :
  (0 <= N)%Z ->
  honours_maxResults svc ->
  (forall v,
     result (Secondary.search_emails (Some svc) query N spam) = Return v ->
     (exists e, v = Secondary.failure e)
     \/ exists emails,
          v = Secondary.success
                [("count", PInt (Z.of_nat (List.length emails))); ("emails", PList emails)]
          /\ (Z.of_nat (List.length emails) <= N)%Z)
  /\ (forall hits,
        result (Primary.tool_search_emails svc query N) = Return hits ->
        (Z.of_nat (List.length hits) <= N)%Z)
  /\ (forall resp,
        N = 0%Z ->
        messages_list svc query N (Some spam) = Return resp ->
        Secondary.search_emails (Some svc) query N spam
        = (Return (Secondary.success [("count", PInt 0); ("emails", PList [])]),
           [Call (MessagesList query N (Some spam))]))
  /\ (forall resp,
        N = 0%Z ->
        messages_list svc query N None = Return resp ->
        Primary.tool_search_emails svc query N
        = (Return [], [Call (MessagesList query N None)])).
Proof.
  intros HN Hsvc. split; [|split; [|split]].
  - intros v. unfold Secondary.search_emails, Secondary.tool, Secondary.search_emails_body.
    rewrite result_try_all, result_bind.
    destruct (result (Secondary.search_email_list (Some svc) query N spam))
      as [emails|e] eqn:Hres; cbn; intros [= <-]; [right | left; by eexists].
    exists emails. split; [reflexivity|].
    destruct (secondary_search_list_length _ _ _ _ _ Hres) as (resp & Hlist & ->).
    by eapply Hsvc.
  - intros hits. unfold Primary.tool_search_emails. rewrite wrapper_result.
    intros Hres. destruct (primary_search_length _ _ _ _ Hres) as (resp & Hlist & ->).
    by eapply Hsvc.
  - intros resp -> Hlist.
    pose proof (nothing_listed resp (Hsvc _ _ _ _ HN Hlist)) as Hnone.
    unfold Secondary.search_emails, Secondary.tool, Secondary.search_emails_body,
      Secondary.search_email_list, users_messages_list.
    cbn. rewrite Hlist. cbn. rewrite Hnone. reflexivity.
  - intros resp -> Hlist.
    pose proof (nothing_listed resp (Hsvc _ _ _ _ HN Hlist)) as Hnone.
    unfold Primary.tool_search_emails, Primary.wrapper, Primary.search_emails,
      users_messages_list.
    cbn. rewrite Hlist. cbn. rewrite Hnone. reflexivity.
Qed.

Lemma search_stays_within_max_results_witness :
  (exists hits,
     result (Primary.tool_search_emails Sample.capped "is:unread" 1) = Return hits
     /\ (Z.of_nat (List.length hits) <= 1)%Z)
  /\ Secondary.search_emails (Some Sample.capped) "is:unread" 0 false
     = (Return (Secondary.success [("count", PInt 0); ("emails", PList [])]),
        [Call (MessagesList "is:unread" 0 (Some false))])
  /\ Primary.tool_search_emails Sample.capped "is:unread" 0
     = (Return [], [Call (MessagesList "is:unread" 0 None)]).
Proof.
  assert (honours_maxResults Sample.capped) as Hcapped.
  { intros q n spam resp Hn [= <-]. cbn [Gmail.messages default id].
    rewrite length_take. cbn [List.length]. lia. }
  destruct (search_stays_within_max_results Sample.capped "is:unread" 1 false
              ltac:(lia) Hcapped) as (_ & Hone & _).
  destruct (search_stays_within_max_results Sample.capped "is:unread" 0 false
              ltac:(lia) Hcapped) as (_ & _ & Hsecondary & Hprimary).
  split; [|split].
  - eexists. split; [reflexivity|]. apply Hone. reflexivity.
  - exact (Hsecondary _ eq_refl eq_refl).
  - exact (Hprimary _ eq_refl eq_refl).
Defined.

(** Against the same provider and a maximum of 1, the secondary server
    returns the one message listed. *)
Example secondary_search_returns_the_listed_message :
  exists item,
    result (Secondary.search_emails (Some Sample.capped) "is:unread" 1 false)
    = Return (Secondary.success [("count", PInt 1); ("emails", PList [item])]).
Proof. eexists. reflexivity. Qed.

(** *** The sender *)

Lemma from_of_compose_headers sender to subject cc bcc :
  snd <$> List.filter
            (fun kv => String.eqb (Mime.lower (fst kv)) (Mime.lower "From"))
            (Primary.compose_headers sender to subject cc bcc)
  = [sender].
Proof.
  unfold Primary.compose_headers.
  destruct (truthy_opt_str (Primary.join_opt cc)),
           (truthy_opt_str (Primary.join_opt bcc)); reflexivity.
Qed.

Lemma primary_attach_files_keep_headers fs (paths : list string) :
  forall message m,
    result (Primary.attach_files fs message paths) = Return m ->
    Mime.headers_of m = Mime.headers_of message.
Proof.
  induction paths as [|p paths IH]; intros message m; cbn [Primary.attach_files].
  - intros [= <-]. reflexivity.
  - rewrite result_bind.
    destruct (result (Primary.attach_file fs message p)) as [m'|e] eqn:Hone; [|discriminate].
    intros Hrest. rewrite (IH _ _ Hrest).
    revert Hone. unfold Primary.attach_file.
    destruct (read_bytes fs p) as [content|e]; cbn.
    + intros [= <-]. apply attach_keeps_headers.
    + destruct (is_OSError e); cbn; [intros [= <-]; reflexivity | discriminate].
Qed.

(** Whenever [_compose] returns, the message carries the headers of
    the [headers] dictionary and no others. *)
Lemma compose_keeps_headers
    fs sender to subject body mime_type cc bcc html_body attachments m :
  result (Primary._compose fs sender to subject body mime_type cc bcc html_body
            attachments) = Return m ->
  Mime.headers_of m = Primary.compose_headers sender to subject cc bcc.
Proof.
  unfold Primary._compose. destruct (truthy_opt_list attachments).
  - intros H. apply primary_attach_files_keep_headers in H. rewrite H.
    rewrite set_all_multipart.
    by destruct (Primary.wants_alternative mime_type html_body).
  - destruct (Primary.wants_alternative mime_type html_body);
      [rewrite set_all_multipart | rewrite set_all_text]; by intros [= <-].
Qed.

(** [_compose] returns for every argument whose attachment paths hold
    no NUL character. *)
Lemma compose_returns
    fs sender to subject body mime_type cc bcc html_body attachments :
  nul_free (default [] attachments) ->
  exists m,
    result (Primary._compose fs sender to subject body mime_type cc bcc html_body
              attachments) = Return m.
Proof.
  intros Hfree. destruct attachments as [[|p paths]|].
  - unfold Primary._compose. cbn [truthy_opt_list].
    destruct (Primary.wants_alternative mime_type html_body); by eexists.
  - rewrite compose_with_attachments by exact Hfree. by eexists.
  - unfold Primary._compose. cbn [truthy_opt_list].
    destruct (Primary.wants_alternative mime_type html_body); by eexists.
Qed.

Lemma compose_outgoing_result fs svc profile a :
  getProfile svc = Return profile ->
  result (Primary.compose_outgoing fs svc a)
  = result (Primary._compose fs (default "me" (Gmail.emailAddress profile))
              (Primary.to a) (Primary.subject a) (Primary.body a) (Primary.mime_type a)
              (Primary.cc a) (Primary.bcc a) (Primary.html_body a)
              (Primary.attachments a)).
Proof.
  intros Hp. unfold Primary.compose_outgoing, Primary.get_user_email, users_getProfile.
  rewrite !result_bind, result_perform, Hp. reflexivity.
Qed.

Lemma compose_outgoing_from fs svc profile addr a m :
  getProfile svc = Return profile ->
  Gmail.emailAddress profile = Some addr ->
  result (Primary.compose_outgoing fs svc a) = Return m ->
  Mime.get_all "From" m = [addr].
Proof.
  intros Hp Ha. rewrite (compose_outgoing_result _ _ _ _ Hp), Ha. intros Hm.
  unfold Mime.get_all. rewrite (compose_keeps_headers _ _ _ _ _ _ _ _ _ _ _ Hm).
  apply from_of_compose_headers.
Qed.

Lemma primary_attach_files_traces (P : event -> Prop) fs (paths : list string) :
  (forall msg, P (LogWarning msg)) ->
  forall message, traces P (Primary.attach_files fs message paths).
Proof.
  intros Hwarn. induction paths as [|p paths IH]; intros message;
    cbn [Primary.attach_files]; [apply traces_ret|].
  apply traces_bind; [|intros; apply IH].
  unfold Primary.attach_file. walk_trace ltac:(apply Hwarn).
Qed.

Lemma compose_outgoing_traces (P : event -> Prop) fs svc a :
  P (Call GetProfile) -> (forall msg, P (LogWarning msg)) ->
  traces P (Primary.compose_outgoing fs svc a).
Proof.
  intros Hcall Hwarn.
  unfold Primary.compose_outgoing, Primary.get_user_email, users_getProfile.
  apply traces_bind; [walk_trace ltac:(exact Hcall)|]. intros sender.
  unfold Primary._compose. destruct (truthy_opt_list _).
  - by apply primary_attach_files_traces.
  - destruct (Primary.wants_alternative _ _); apply traces_ret.
Qed.

Lemma send_email_sends_composed fs as_bytes svc a m :
  result (Primary.compose_outgoing fs svc a) = Return m ->
  as_bytes m = Return tt ->
  In (Call (MessagesSend (Gmail.SendBody m None)))
     (trace (Primary.send_email fs as_bytes svc a))
  /\ In (Call (DraftsCreate m)) (trace (Primary.create_draft fs as_bytes svc a)).
Proof.
  intros Hm Hb. unfold Primary.send_email, Primary.create_draft.
  rewrite !trace_bind, Hm, !trace_bind, result_pure, Hb.
  split; apply in_or_app; right; cbn [pure trace snd app].
  - unfold users_messages_send.
    destruct (messages_send svc _) as [r|e]; cbn; by left.
  - unfold users_drafts_create.
    destruct (drafts_create svc m) as [r|e]; cbn; by left.
Qed.

(** C10.  When the profile query answers with the account's address,
    every send request and every draft request that [send_email] and
    [create_draft] issue carries a payload with exactly one [From]
    header, that address, whatever the caller's arguments, the files
    and the serialiser are; two calls that differ in their arguments
    only compose payloads with the same [From] header.  And the request
    is issued with the composed payload whenever no attachment path
    holds a NUL character and the payload serialises. *)
Theorem from_header_is_account_address fs as_bytes svc profile addr a1 a2 :
  getProfile svc = Return profile ->
  Gmail.emailAddress profile = Some addr ->
  (traces (stamped addr) (Primary.tool_send_email fs as_bytes svc a1)
   /\ traces (stamped addr) (Primary.tool_create_draft fs as_bytes svc a1))
  /\ (forall m1 m2,
        result (Primary.compose_outgoing fs svc a1) = Return m1 ->
        result (Primary.compose_outgoing fs svc a2) = Return m2 ->
        Mime.get_all "From" m1 = [addr]
        /\ Mime.get_all "From" m2 = Mime.get_all "From" m1)
  /\ (nul_free (default [] (Primary.attachments a1)) ->
      exists m1,
        result (Primary.compose_outgoing fs svc a1) = Return m1
        /\ (as_bytes m1 = Return tt ->
            In (Call (MessagesSend (Gmail.SendBody m1 None)))
               (trace (Primary.send_email fs as_bytes svc a1))
            /\ In (Call (DraftsCreate m1))
                 (trace (Primary.create_draft fs as_bytes svc a1)))).
Proof.
  intros Hp Ha. split; [|split].
  - split;
      unfold Primary.tool_send_email, Primary.tool_create_draft, Primary.wrapper,
        Primary.send_email, Primary.create_draft, users_messages_send,
        users_drafts_create;
      (apply traces_try; [|intros; walk_trace ltac:(exact I)]);
      (apply traces_bind; [|intros; apply traces_ret]);
      (apply traces_bind_result; [by apply compose_outgoing_traces|]);
      intros m Hm;
      (apply traces_bind; [apply traces_pure|intros _]);
      (apply traces_bind; [|intros; apply traces_ret]);
      apply traces_perform; cbn; by eapply compose_outgoing_from.
  - intros m1 m2 Hm1 Hm2.
    rewrite (compose_outgoing_from _ _ _ _ _ _ Hp Ha Hm1).
    by rewrite (compose_outgoing_from _ _ _ _ _ _ Hp Ha Hm2).
  - intros Hfree.
    destruct (compose_returns fs (default "me" (Gmail.emailAddress profile))
                (Primary.to a1) (Primary.subject a1) (Primary.body a1)
                (Primary.mime_type a1) (Primary.cc a1) (Primary.bcc a1)
                (Primary.html_body a1) (Primary.attachments a1) Hfree) as [m1 Hm1].
    rewrite <- (compose_outgoing_result fs svc profile a1 Hp) in Hm1.
    exists m1. split; [exact Hm1|]. intros Hb. by apply send_email_sends_composed.
Qed.

Lemma from_header_is_account_address_witness :
  (traces (stamped "alice@example.com")
     (Primary.tool_send_email Sample.some_files Sample.header_check
        (Sample.accepting "m1" "m1") Sample.hello)
   /\ traces (stamped "alice@example.com")
        (Primary.tool_create_draft Sample.some_files Sample.header_check
           (Sample.accepting "m1" "m1") Sample.hello))
  /\ (exists m2,
        result (Primary.compose_outgoing Sample.some_files (Sample.accepting "m1" "m1")
                  (Primary.Outgoing ["mallory@example.com"] "From: eve@example.com"
                     "x" (Some ["c@example.com"]) None "multipart/alternative"
                     (Some ["/home/alice/report.pdf"]) (Some "<i>x</i>")))
          = Return m2
        /\ Mime.get_all "From" m2 = ["alice@example.com"])
  /\ In (Call (MessagesSend (Gmail.SendBody
           (Mime.MIMEText "Hello" "plain"
              [("From", "alice@example.com"); ("To", "a@example.com"); ("Subject", "Hi")])
           None)))
        (trace (Primary.send_email Sample.some_files Sample.header_check
                  (Sample.accepting "m1" "m1") Sample.hello))
  /\ In (Call (DraftsCreate
           (Mime.MIMEText "Hello" "plain"
              [("From", "alice@example.com"); ("To", "a@example.com"); ("Subject", "Hi")])))
        (trace (Primary.create_draft Sample.some_files Sample.header_check
                  (Sample.accepting "m1" "m1") Sample.hello)).
Proof.
  destruct (from_header_is_account_address Sample.some_files Sample.header_check
              (Sample.accepting "m1" "m1") Sample.alice "alice@example.com" Sample.hello
              (Primary.Outgoing ["mallory@example.com"] "From: eve@example.com"
                 "x" (Some ["c@example.com"]) None "multipart/alternative"
                 (Some ["/home/alice/report.pdf"]) (Some "<i>x</i>"))
              eq_refl eq_refl) as (Hstamped & Hsame & Hsent).
  split; [exact Hstamped|]. split.
  - eexists. split; [reflexivity|].
    etransitivity; [apply (Hsame _ _ eq_refl eq_refl) | apply (Hsame _ _ eq_refl eq_refl)].
  - destruct Hsent as (m1 & Hm1 & Hsent); [constructor|].
    vm_compute in Hm1. injection Hm1 as <-. exact (Hsent eq_refl).
Defined.

(** On the sample provider the sent payload is stamped with the
    account's address, also when the subject asks for another one. *)
Example primary_send_is_stamped :
  trace (Primary.send_email Sample.some_files Sample.header_check
           (Sample.accepting "m1" "m1")
           (Primary.Outgoing ["mallory@example.com"] "From: eve@example.com"
              "x" None None "text/plain" None None))
  = [Call GetProfile;
     Call (MessagesSend (Gmail.SendBody
       (Mime.MIMEText "x" "plain"
          [("From", "alice@example.com"); ("To", "mallory@example.com");
           ("Subject", "From: eve@example.com")])
       None))].
Proof. reflexivity. Qed.

(** *** The model on ordinary inputs *)

Example decode_hello : Secondary.decode_data "SGVsbG8=" = Return "Hello".
Proof. reflexivity. Qed.

Example decode_urlsafe_alphabet :
  Secondary.decode_data "PGI-SGVsbG88L2I-" = Return "<b>Hello</b>".
Proof. reflexivity. Qed.

Example basename_of_path : basename "/home/alice/report.pdf" = "report.pdf".
Proof. reflexivity. Qed.

Example strip_takes_all_white_space :
  strip (String (ascii_of_N 9) (String (ascii_of_N 194) (String (ascii_of_N 160)
           ("4/0AbCd e" +:+ String (ascii_of_N 226) (String (ascii_of_N 128)
              (String (ascii_of_N 168) (String (ascii_of_N 31) EmptyString)))))))
  = "4/0AbCd e".
Proof. reflexivity. Qed.

Example code_from_redirect_url :
  Secondary.extract_code "http://localhost/?state=xyz&code=4/0AbCd&scope=gmail"
  = "4/0AbCd".
Proof. reflexivity. Qed.

Example secondary_attaches_readable_file :
  Secondary.send_email_message Sample.office_host "Hello" false
    (Some ["/home/alice/report.pdf"])
  = Return (Mime.MIMEMultipart "mixed" []
      [Mime.MIMEText "Hello" "plain" [];
       Mime.MIMEBase "application" "pdf" "%PDF-1.7"
         [("Content-Transfer-Encoding", "base64");
          ("Content-Disposition",
           "attachment; filename=" +:+ dquote +:+ "report.pdf" +:+ dquote)]]).
Proof. reflexivity. Qed.

Example secondary_authenticates_with_valid_token :
  Secondary.authenticate
    {| token_path := "/srv/mcp/token_secondary.json";
       token_file := Some (Return Sample.fresh);
       refresh := fun _ => Sample.unavailable;
       credentials_path := "/srv/mcp/credentials.json";
       credentials_file_exists := false;
       from_client_secrets_file := Sample.unavailable;
       run_local_server := Sample.unavailable;
       authorization_url := EmptyString;
       input := Sample.unavailable;
       fetch_token := fun _ => Sample.unavailable;
       write_token := fun _ => Sample.unavailable |} false
  = (Return Sample.fresh, [LoadToken]).
Proof. reflexivity. Qed.

Example secondary_falls_back_to_manual_flow :
  Secondary.authenticate
    {| token_path := "/srv/mcp/token_secondary.json";
       token_file := None;
       refresh := fun _ => Sample.unavailable;
       credentials_path := "/srv/mcp/credentials.json";
     credentials_file_exists := true;
       from_client_secrets_file := Return tt;
       run_local_server := Raise (RuntimeError "could not locate runnable browser");
       authorization_url := "https://accounts.google.com/o/oauth2/auth";
       input := Return " http://localhost/?code=4/0AbCd&scope=gmail ";
       fetch_token := fun _ => Return Sample.fresh;
       write_token := fun _ => Return tt |} false
  = (Return Sample.fresh,
     [LoadClientSecrets; RunLocalServer;
      Stderr "Automatic authentication failed: could not locate runnable browser";
      Stderr "Falling back to manual authentication...";
      LoadClientSecrets]
     ++ Secondary.manual_instructions "https://accounts.google.com/o/oauth2/auth"
     ++ [Prompt (nl +:+ "Paste the entire redirect URL here: ");
         FetchToken "4/0AbCd";
         Stderr "[OK] Authentication successful!";
         WriteToken;
         Stderr "[OK] Credentials saved to /srv/mcp/token_secondary.json"]).
Proof. reflexivity. Qed.

(** ** Further properties of the two servers *)

(** *** Header lookup *)

Lemma header_dict_from_entries (hs : list (string * string)) :
  forall d,
    Secondary.header_dict_from d (entries hs)
    = Return (fold_left (fun d nv => <[fst nv := snd nv]> d) hs d).
Proof.
  induction hs as [|[n v] hs IH]; intros d; [reflexivity|].
  cbn [entries fmap list_fmap Secondary.header_dict_from]. cbn. apply IH.
Qed.

Lemma header_dict_entries (hs : list (string * string)) :
  Secondary.header_dict (entries hs) = Return (dict_of hs).
Proof. apply header_dict_from_entries. Qed.

Lemma dict_of_lookup (hs : list (string * string)) k :
  dict_of hs !! k = snd <$> last (named k hs).
Proof.
  unfold dict_of, named. induction hs as [|[n v] hs IH] using rev_ind; [reflexivity|].
  rewrite fold_left_app, List.filter_app. cbn [fold_left List.filter fst snd].
  destruct (String.eqb n k) eqn:E.
  - apply String.eqb_eq in E as <-. by rewrite lookup_insert_eq, last_snoc.
  - apply String.eqb_neq in E. by rewrite lookup_insert_ne, app_nil_r.
Qed.

Lemma first_header_cons k n v (hs : list Gmail.header) :
  Primary.first_header k (Gmail.Header (Some n) (Some v) :: hs)
  = if String.eqb n k then Return v else Primary.first_header k hs.
Proof. reflexivity. Qed.

Lemma first_header_entries (hs : list (string * string)) k :
  Primary.first_header k (entries hs)
  = Return (default EmptyString (snd <$> head (named k hs))).
Proof.
  unfold named. induction hs as [|[n v] hs IH]; [reflexivity|].
  cbn [entries fmap list_fmap List.filter fst snd]. rewrite first_header_cons.
  destruct (String.eqb n k); [reflexivity | exact IH].
Qed.

(** X1.  For header entries that have their name and their value, the
    secondary server builds a dictionary, so of several headers with
    one name the last is the one looked up; the primary server searches
    the list and takes the first.  The two agree for every name that
    occurs at most once. *)
Theorem header_lookup_last_against_first (hs : list (string * string)) k :
  Secondary.header_dict (entries hs) = Return (dict_of hs)
  /\ dict_of hs !! k = snd <$> last (named k hs)
  /\ Primary.first_header k (entries hs)
     = Return (default EmptyString (snd <$> head (named k hs)))
  /\ (List.length (named k hs) <= 1 ->
      Primary.first_header k (entries hs)
      = Return (Secondary.get_or_empty (dict_of hs) k)).
Proof.
  split; [apply header_dict_entries|].
  split; [apply dict_of_lookup|].
  split; [apply first_header_entries|]. intros Hone.
  unfold Secondary.get_or_empty. rewrite dict_of_lookup, first_header_entries.
  destruct (named k hs) as [|h [|h' l]]; [reflexivity..|]. cbn in Hone. lia.
Qed.

Lemma header_lookup_last_against_first_witness :
  Primary.first_header "Subject"
    (entries [("Received", "by mx2"); ("Subject", "hi"); ("Received", "by mx1")])
  = Return (Secondary.get_or_empty
              (dict_of [("Received", "by mx2"); ("Subject", "hi"); ("Received", "by mx1")])
              "Subject").
Proof.
  refine (proj2 (proj2 (proj2 (header_lookup_last_against_first
    [("Received", "by mx2"); ("Subject", "hi"); ("Received", "by mx1")] "Subject"))) _).
  vm_compute. lia.
Defined.

(** An entry without a value ends both lookups with [KeyError]; the
    primary server only when it reaches that entry. *)
Example header_without_value :
  Secondary.header_dict [Sample.hdr "Subject" "hi"; Gmail.Header (Some "X-Odd") None]
  = Raise (KeyError "value")
  /\ Primary.first_header "X-Odd"
       [Sample.hdr "Subject" "hi"; Gmail.Header (Some "X-Odd") None]
     = Raise (KeyError "value")
  /\ Primary.first_header "Subject"
       [Sample.hdr "Subject" "hi"; Gmail.Header (Some "X-Odd") None]
     = Return "hi".
Proof. repeat split; reflexivity. Qed.

(** *** Replies *)

(** X2.  When the provider serves the original with a thread id and
    with header entries that have their name and value, and the reply
    serialises, [reply_to_email] issues the metadata request and then
    one send request into that thread.  The reply is addressed to the
    original's [From] header, and its [In-Reply-To] and [References]
    headers both hold the original's [Message-ID]; a header the
    original lacks is written as an empty one. *)
Theorem reply_is_addressed_to_the_sender h svc message_id body html original p hs T :
  messages_get svc message_id "metadata" (Some ["From"; "To"; "Subject"; "Message-ID"])
    = Return original ->
  Gmail.payload original = Some p ->
  default [] (Gmail.headers p) = entries hs ->
  Gmail.threadId original = Some T ->
  Secondary.as_bytes h (Secondary.reply_message (dict_of hs) body html) = Return tt ->
  let m := Secondary.reply_message (dict_of hs) body html in
  trace (Secondary.reply_to_email h (Some svc) message_id body html)
  = [Call (MessagesGet message_id "metadata"
             (Some ["From"; "To"; "Subject"; "Message-ID"]));
     Call (MessagesSend (Gmail.SendBody m (Some T)))]
  /\ Mime.get_all "To" m
     = [default EmptyString (snd <$> last (named "From" hs))]
  /\ Mime.get_all "In-Reply-To" m
     = [default EmptyString (snd <$> last (named "Message-ID" hs))]
  /\ Mime.get_all "References" m = Mime.get_all "In-Reply-To" m
  /\ Mime.get_all "From" m = [].
Proof.
  intros Hget Hp Hhs HT Hb m.
  pose proof (header_dict_entries hs) as Hd. rewrite <- Hhs in Hd.
  split.
  - exact (reply_goes_to_original_thread h svc message_id body html original p _ T
             Hget Hp Hd Hb HT).
  - unfold m, Secondary.reply_message, Secondary.get_or_empty.
    rewrite !dict_of_lookup. repeat split; reflexivity.
Qed.

Lemma reply_is_addressed_to_the_sender_witness :
  trace (Secondary.reply_to_email Sample.plain_host (Some Sample.forwarded)
           "m1" "ok" false)
  = [Call (MessagesGet "m1" "metadata" (Some ["From"; "To"; "Subject"; "Message-ID"]));
     Call (MessagesSend (Gmail.SendBody
        (Secondary.reply_message
           (dict_of [("From", "bob@example.com"); ("Subject", "Fwd: Re: hi");
                     ("Message-ID", "<1@example.com>")]) "ok" false)
        (Some "t1")))]
  /\ Mime.get_all "To"
       (Secondary.reply_message
          (dict_of [("From", "bob@example.com"); ("Subject", "Fwd: Re: hi");
                    ("Message-ID", "<1@example.com>")]) "ok" false)
     = ["bob@example.com"].
Proof.
  destruct (reply_is_addressed_to_the_sender Sample.plain_host Sample.forwarded
              "m1" "ok" false Sample.forwarded_original
              (Gmail.Part None
                 (Some [Sample.hdr "From" "bob@example.com";
                        Sample.hdr "Subject" "Fwd: Re: hi";
                        Sample.hdr "Message-ID" "<1@example.com>"])
                 None None)
              [("From", "bob@example.com"); ("Subject", "Fwd: Re: hi");
               ("Message-ID", "<1@example.com>")]
              "t1" eq_refl eq_refl eq_refl eq_refl eq_refl) as (Htrace & Hto & _).
  exact (conj Htrace Hto).
Defined.

(** A reply to a message whose sender wrote a header line into the
    [From] header is refused by the serialiser of the sample host, and
    nothing is sent. *)
Example reply_stops_at_smuggled_header :
  Secondary.reply_to_email Sample.plain_host
    (Some (Sample.serving
       (Gmail.Message (Some "m1") (Some "t1") None None
          (Some (Gmail.Part None
             (Some [Sample.hdr "From" ("bob@example.com" +:+ nl +:+ "Bcc: eve@example.com")])
             None None))
          None None)))
    "m1" "ok" false
  = (Return (Secondary.failure (HeaderParseError
       ("header value appears to contain an embedded header: "
        +:+ "bob@example.com" +:+ nl +:+ "Bcc: eve@example.com"))),
     [Call (MessagesGet "m1" "metadata" (Some ["From"; "To"; "Subject"; "Message-ID"]))]).
Proof. reflexivity. Qed.

(** X3.  For a subject that holds the marker "Re: " nowhere, replying
    prefixes it once, and replying to that reply leaves the subject as
    it is: the prefix does not pile up along a thread. *)
Theorem reply_prefix_does_not_pile_up (S : string) :
  occurs "Re: " S = false ->
  Secondary.reply_subject S = "Re: " +:+ S
  /\ Secondary.reply_subject (Secondary.reply_subject S) = Secondary.reply_subject S.
Proof.
  intros H. rewrite (reply_subject_fresh S H).
  split; [reflexivity | by apply reply_subject_marked].
Qed.

Lemma reply_prefix_does_not_pile_up_witness :
  Secondary.reply_subject "Quarterly report" = "Re: Quarterly report"
  /\ Secondary.reply_subject (Secondary.reply_subject "Quarterly report")
     = Secondary.reply_subject "Quarterly report".
Proof. exact (reply_prefix_does_not_pile_up "Quarterly report" eq_refl). Defined.

(** X4.  [send_email] of the secondary server never puts a thread id
    into a send request, so every message it sends starts a thread;
    [reply_to_email] never sends without a thread id: when the original
    has none, nothing is sent. *)
Theorem sends_start_or_join_a_thread :
  (forall h svc to subject body cc bcc html attachments,
     traces starts_thread
       (Secondary.send_email h svc to subject body cc bcc html attachments))
  /\ (forall h svc message_id body html,
        traces joins_thread (Secondary.reply_to_email h svc message_id body html)).
Proof.
  split; intros; unfold_tools; walk_trace ltac:(by cbn).
Qed.

Lemma reads_no_mutation (t : list event) : Forall reads t -> mutations t = [].
Proof.
  unfold mutations, calls. induction 1 as [|ev t Hev _ IH]; [reflexivity|].
  destruct ev as [| | |r| | | | | | | |]; cbn; try exact IH.
  cbn in Hev. rewrite Hev. exact IH.
Qed.

Lemma lookup_reads_only h svc i :
  is_lookup i = true -> traces reads (Secondary.call_tool h svc i).
Proof.
  intros Hi. destruct i; try discriminate Hi; unfold_tools; walk_trace ltac:(by cbn).
Qed.

(** X5.  The tools that look something up (search, read, thread, label
    list, attachment download, profile) issue no request that changes
    the mailbox, whatever the provider answers. *)
Theorem lookups_change_nothing h svc i :
  is_lookup i = true ->
  mutations (trace (Secondary.call_tool h svc i)) = [].
Proof. intros Hi. apply reads_no_mutation. by apply lookup_reads_only. Qed.

Lemma lookups_change_nothing_witness :
  mutations (trace (Secondary.call_tool Sample.plain_host (Some Sample.generous)
                      (Secondary.SearchEmails "is:unread" 1 false))) = [].
Proof.
  exact (lookups_change_nothing Sample.plain_host (Some Sample.generous)
           (Secondary.SearchEmails "is:unread" 1 false) eq_refl).
Defined.

Lemma mutations_app (t1 t2 : list event) :
  mutations (t1 ++ t2) = mutations t1 ++ mutations t2.
Proof. unfold mutations, calls. by rewrite omap_app, List.filter_app. Qed.

Lemma quiet_of_reads {A} (m : M A) : traces reads m -> changes_at_most 0 m.
Proof. unfold changes_at_most. intros H. by rewrite (reads_no_mutation _ H). Qed.

Lemma changes_perform {A} (ev : event) (o : outcome A) :
  changes_at_most 1 (perform ev o).
Proof.
  unfold changes_at_most, mutations, calls.
  destruct ev as [| | |r| | | | | | | |]; cbn; try lia.
  destruct (is_read_request r); cbn; lia.
Qed.

Lemma changes_bind_left {A B} n (m : M A) (k : A -> M B) :
  changes_at_most 0 m -> (forall a, changes_at_most n (k a)) ->
  changes_at_most n (m ≫= k).
Proof.
  unfold changes_at_most. intros Hm Hk. rewrite trace_bind.
  destruct (result m) as [a|e]; [|lia].
  rewrite mutations_app, length_app. specialize (Hk a). lia.
Qed.

Lemma changes_bind_right {A B} n (m : M A) (k : A -> M B) :
  changes_at_most n m -> (forall a, changes_at_most 0 (k a)) ->
  changes_at_most n (m ≫= k).
Proof.
  unfold changes_at_most. intros Hm Hk. rewrite trace_bind.
  destruct (result m) as [a|e]; [|lia].
  rewrite mutations_app, length_app. specialize (Hk a). lia.
Qed.

Lemma changes_try {A} n (m : M A) (catches : exn -> bool) (h : exn -> M A) :
  changes_at_most n m -> (forall e, changes_at_most 0 (h e)) ->
  changes_at_most n (try_except m catches h).
Proof.
  unfold changes_at_most. intros Hm Hh.
  destruct m as [[a|e] t]; cbn [try_except trace snd] in *; [exact Hm|].
  destruct (catches e); [|exact Hm].
  specialize (Hh e). destruct (h e) as [r t']. cbn [trace snd] in *.
  rewrite mutations_app, length_app. lia.
Qed.

Ltac quiet := solve [apply quiet_of_reads; walk_trace ltac:(by cbn)].

Ltac one_change :=
  apply changes_try; [|intros; quiet];
  repeat (apply changes_bind_left; [quiet|intros]);
  apply changes_bind_right; [apply changes_perform | intros; quiet].

(** X6.  No tool of the secondary server issues more than one request
    that changes the mailbox in one call, whatever the provider
    answers: nothing is sent, drafted, modified, deleted or created
    twice. *)
Theorem tools_change_the_mailbox_at_most_once h svc i :
  List.length (mutations (trace (Secondary.call_tool h svc i))) <= 1.
Proof.
  change (changes_at_most 1 (Secondary.call_tool h svc i)).
  destruct (is_lookup i) eqn:Hi.
  - pose proof (quiet_of_reads _ (lookup_reads_only h svc i Hi)) as H0.
    unfold changes_at_most in *. lia.
  - destruct i; try discriminate Hi; unfold_tools; one_change.
Qed.

(** X7.  As long as [self.service] is [None], that is before
    [authenticate] has run, every tool fails with the failure
    dictionary and sends nothing to the provider; and [list_labels] and
    [get_profile], which read the service from their own [self]
    parameter, fail in the same way for every plain value passed as
    [self], also after authentication. *)
Theorem no_request_without_a_service :
  (forall h i,
     brings_service i = false ->
     trace (Secondary.call_tool h None i) = []
     /\ exists e, result (Secondary.call_tool h None i) = Return (Secondary.failure e))
  /\ (forall h svc v,
        Secondary.call_tool h svc (Secondary.GetProfile (Secondary.Plain v))
        = (Return (Secondary.failure (AttributeError
             ("'" +:+ type_name v +:+ "' object has no attribute 'service'"))), [])
        /\ Secondary.call_tool h svc (Secondary.ListLabels (Secondary.Plain v))
           = (Return (Secondary.failure (AttributeError
                ("'" +:+ type_name v +:+ "' object has no attribute 'service'"))), [])).
Proof.
  split.
  - intros h i Hi.
    destruct i as [to subject body cc bcc html attachments| | | | | |[[s|]|v]| | | | | | | |
                   [[s|]|v]];
      try discriminate Hi; unfold_tools; cbn;
      repeat match goal with
        | |- context [match ?o with Return _ => _ | Raise _ => _ end] => destruct o; cbn
        end;
      eauto.
  - intros h svc v. split; reflexivity.
Qed.

Lemma no_request_without_a_service_witness :
  trace (Secondary.call_tool Sample.office_host None
           (Secondary.DeleteMessage "m1")) = []
  /\ exists e,
       result (Secondary.call_tool Sample.office_host None (Secondary.DeleteMessage "m1"))
       = Return (Secondary.failure e).
Proof.
  exact (proj1 no_request_without_a_service Sample.office_host
           (Secondary.DeleteMessage "m1") eq_refl).
Defined.

(** *** Loops over the provider's answer *)

Lemma search_item_success svc msg item :
  result (Secondary.search_item svc msg) = Return item ->
  exists id,
    Gmail.msg_id msg = Some id
    /\ trace (Secondary.search_item svc msg) = [metadata_request id]
    /\ has_id id item
    /\ exists msg_data,
         messages_get svc id "metadata" (Some ["From"; "To"; "Subject"; "Date"])
         = Return msg_data.
Proof.
  unfold Secondary.search_item, users_messages_get, Secondary.payload_headers.
  destruct (Gmail.msg_id msg) as [id|]; cbn; [|discriminate].
  destruct (messages_get svc id _ _) as [msg_data|e] eqn:Hget; cbn; [|discriminate].
  destruct (Gmail.payload msg_data) as [p|]; cbn; [|discriminate].
  destruct (Secondary.header_dict (default [] (Gmail.headers p))); cbn; [|discriminate].
  destruct (Gmail.threadId msg_data); cbn; [|discriminate].
  intros [= <-]. exists id. repeat split; [|by eexists].
  eexists. split; [reflexivity|]. reflexivity.
Qed.

Lemma search_items_success svc (l : list Gmail.message) (items : list pyval) :
  Forall2 (fun x y => result (Secondary.search_item svc x) = Return y) l items ->
  exists ids,
    Gmail.msg_id <$> l = Some <$> ids
    /\ flat_map (fun x => trace (Secondary.search_item svc x)) l = metadata_request <$> ids
    /\ Forall2 has_id ids items.
Proof.
  induction 1 as [|msg item l items Hitem _ (ids & Hids & Htr & Hhas)].
  - exists []. by repeat split.
  - destruct (search_item_success svc msg item Hitem) as (id & Hid & Hone & Hitem_id & _).
    exists (id :: ids). cbn [fmap list_fmap flat_map]. rewrite Hid, Hone.
    repeat split.
    + f_equal. exact Hids.
    + cbn. f_equal. exact Htr.
    + by constructor.
Qed.

(** X8.  When [search_emails] of the secondary server succeeds, it has
    issued the list request and then exactly one metadata request for
    each listed message, in the order of the list, and the items it
    returns carry the ids of the listed messages in that order. *)
Theorem search_fetches_each_listed_message svc query max_results spam emails :
  result (Secondary.search_email_list (Some svc) query max_results spam) = Return emails ->
  exists resp ids,
    messages_list svc query max_results (Some spam) = Return resp
    /\ Gmail.msg_id <$> default [] (Gmail.messages resp) = Some <$> ids
    /\ trace (Secondary.search_email_list (Some svc) query max_results spam)
       = Call (MessagesList query max_results (Some spam)) :: (metadata_request <$> ids)
    /\ Forall2 has_id ids emails.
Proof.
  unfold Secondary.search_email_list, users_messages_list.
  rewrite result_bind, trace_bind. cbn [Secondary.the_service result trace ret fst snd app].
  rewrite result_bind, trace_bind, result_perform.
  destruct (messages_list svc query max_results (Some spam)) as [resp|e]; [|discriminate].
  intros Hloop. exists resp.
  destruct (for_each_success _ _ _ Hloop) as [Hall Htrace].
  destruct (search_items_success svc _ _ Hall) as (ids & Hids & Htr & Hhas).
  exists ids. cbn [trace perform snd app]. rewrite Htrace, Htr. by repeat split.
Qed.

Lemma search_fetches_each_listed_message_witness :
  exists resp ids,
    messages_list Sample.generous "is:unread" 1 (Some false) = Return resp
    /\ Gmail.msg_id <$> default [] (Gmail.messages resp) = Some <$> ids
    /\ trace (Secondary.search_email_list (Some Sample.generous) "is:unread" 1 false)
       = Call (MessagesList "is:unread" 1 (Some false)) :: (metadata_request <$> ids)
    /\ Forall2 has_id ids
         [PDict (list_to_map [
            ("id", PStr "m1"); ("threadId", PStr "m1");
            ("from", PStr "bob@example.com"); ("to", PStr EmptyString);
            ("subject", PStr "hi"); ("date", PStr EmptyString);
            ("snippet", PStr "hi"); ("labelIds", PList [PStr "INBOX"])]);
          PDict (list_to_map [
            ("id", PStr "m2"); ("threadId", PStr "m2");
            ("from", PStr "bob@example.com"); ("to", PStr EmptyString);
            ("subject", PStr "hi"); ("date", PStr EmptyString);
            ("snippet", PStr "hi"); ("labelIds", PList [PStr "INBOX"])])].
Proof.
  exact (search_fetches_each_listed_message Sample.generous "is:unread" 1 false _ eq_refl).
Defined.

(** X9.  The search is all or nothing: when the metadata request of
    any listed message fails, [search_emails] returns the failure
    dictionary and none of the items it had already built. *)
Theorem search_fails_as_a_whole svc query max_results spam resp msg id e :
  messages_list svc query max_results (Some spam) = Return resp ->
  In msg (default [] (Gmail.messages resp)) ->
  Gmail.msg_id msg = Some id ->
  messages_get svc id "metadata" (Some ["From"; "To"; "Subject"; "Date"]) = Raise e ->
  exists e',
    result (Secondary.search_emails (Some svc) query max_results spam)
    = Return (Secondary.failure e').
Proof.
  intros Hlist Hin Hid Hget.
  unfold Secondary.search_emails, Secondary.tool, Secondary.search_emails_body.
  rewrite result_try_all, result_bind.
  destruct (result (Secondary.search_email_list (Some svc) query max_results spam))
    as [emails|e'] eqn:Hres; [|by eexists].
  exfalso. revert Hres. unfold Secondary.search_email_list, users_messages_list.
  rewrite result_bind. cbn [Secondary.the_service result ret fst].
  rewrite result_bind, result_perform, Hlist. intros Hloop.
  destruct (for_each_success _ _ _ Hloop) as [Hall _].
  apply Forall2_Forall_l with (Q := fun x => exists y,
    result (Secondary.search_item svc x) = Return y) in Hall.
  2: { apply Forall_forall. intros y _ x Hx. eauto. }
  rewrite Forall_forall in Hall. apply list_elem_of_In in Hin.
  destruct (Hall msg Hin) as [item Hitem].
  destruct (search_item_success svc msg item Hitem) as (id' & Hid' & _ & _ & msg_data & Hok).
  congruence.
Qed.

Lemma search_fails_as_a_whole_witness :
  exists e',
    result (Secondary.search_emails (Some Sample.flaky) "is:unread" 5 false)
    = Return (Secondary.failure e').
Proof.
  exact (search_fails_as_a_whole Sample.flaky "is:unread" 5 false
           (Gmail.ListResponse (Some [Sample.stub "m1" "m1"; Sample.stub "m2" "m2"]))
           (Sample.stub "m2" "m2") "m2"
           (HttpError 404 "Requested entity was not found.")
           eq_refl (or_intror (or_introl eq_refl)) eq_refl eq_refl).
Defined.

(** X10.  [get_thread] issues exactly one request, whatever the size of
    the thread and whatever becomes of its messages; and when it
    succeeds it has built one item for each message of the thread. *)
Theorem get_thread_is_one_request h svc thread_id :
  trace (Secondary.call_tool h (Some svc) (Secondary.GetThread thread_id))
    = [Call (ThreadsGet thread_id)]
  /\ forall v,
       result (Secondary.get_thread_body (Some svc) thread_id) = Return v ->
       exists thread items,
         threads_get svc thread_id = Return thread
         /\ List.length items = List.length (default [] (Gmail.thread_messages thread))
         /\ v = Secondary.success
                  [("threadId", PStr thread_id);
                   ("messageCount", PInt (Z.of_nat (List.length items)));
                   ("messages", PList items)].
Proof.
  split.
  - unfold Secondary.call_tool. rewrite trace_tool. cbn [Secondary.tool_body].
    unfold Secondary.get_thread_body, users_threads_get.
    rewrite trace_bind. cbn [Secondary.the_service result trace ret fst snd app].
    rewrite trace_bind, result_perform. cbn [perform trace snd].
    destruct (threads_get svc thread_id) as [thread|e]; [|reflexivity].
    rewrite trace_bind, for_each_pure_quiet. by destruct (result _).
  - intros v. unfold Secondary.get_thread_body, users_threads_get.
    rewrite result_bind. cbn [Secondary.the_service result ret fst].
    rewrite result_bind, result_perform.
    destruct (threads_get svc thread_id) as [thread|e]; [|discriminate].
    rewrite result_bind.
    destruct (result (for_each _ _)) as [items|e] eqn:Hloop; [|discriminate].
    intros [= <-]. exists thread, items. split; [reflexivity|].
    split; [|reflexivity]. eapply for_each_length. exact Hloop.
Qed.

Lemma get_thread_is_one_request_witness :
  exists thread items,
    threads_get Sample.with_thread "t1" = Return thread
    /\ List.length items = List.length (default [] (Gmail.thread_messages thread))
    /\ Secondary.success
         [("threadId", PStr "t1");
          ("messageCount", PInt 2);
          ("messages", PList
             [PDict (list_to_map [
                ("id", PStr "m1"); ("from", PStr EmptyString);
                ("to", PStr EmptyString); ("subject", PStr EmptyString);
                ("date", PStr EmptyString); ("body", PStr "Hello");
                ("snippet", PStr "Hello")]);
              PDict (list_to_map [
                ("id", PStr "m2"); ("from", PStr EmptyString);
                ("to", PStr EmptyString); ("subject", PStr EmptyString);
                ("date", PStr EmptyString); ("body", PStr "Hello");
                ("snippet", PStr "Hello")])])]
       = Secondary.success
           [("threadId", PStr "t1");
            ("messageCount", PInt (Z.of_nat (List.length items)));
            ("messages", PList items)].
Proof.
  apply (proj2 (get_thread_is_one_request Sample.plain_host Sample.with_thread "t1")).
  reflexivity.
Defined.

(** X11.  [download_attachment] writes at most one file, at the path it
    was given, and what it writes is the complete decoding of the data
    the provider returned: when the provider fails, the data is missing
    or is not base64, nothing is written.  When the write goes
    through, the reported size is the number of bytes written. *)
Theorem download_writes_decoded_data_only h svc message_id attachment_id save_path :
  (forall p c,
     In (WriteFile p c)
        (trace (Secondary.call_tool h (Some svc)
                  (Secondary.DownloadAttachment message_id attachment_id save_path))) ->
     p = save_path
     /\ exists att d,
          attachments_get svc message_id attachment_id = Return att
          /\ Gmail.attachment_data att = Some d
          /\ urlsafe_b64decode d = Return c)
  /\ (forall att d c,
        attachments_get svc message_id attachment_id = Return att ->
        Gmail.attachment_data att = Some d ->
        urlsafe_b64decode d = Return c ->
        Secondary.write_file h save_path c = Return tt ->
        Secondary.call_tool h (Some svc)
          (Secondary.DownloadAttachment message_id attachment_id save_path)
        = (Return (Secondary.success
             [("message", PStr ("Attachment saved to " +:+ save_path));
              ("size", PInt (Z.of_nat (String.length c)))]),
           [Call (AttachmentsGet message_id attachment_id); WriteFile save_path c])).
Proof.
  split.
  - intros p c. unfold Secondary.call_tool. rewrite trace_tool.
    cbn [Secondary.tool_body].
    unfold Secondary.download_attachment_body, users_attachments_get.
    step. step.
    destruct (attachments_get svc message_id attachment_id) as [att|e];
      [|by intros [[=]|[]]].
    step. destruct (Gmail.attachment_data att) as [d|] eqn:Hdata; cbn [Gmail.subscript];
      [|by intros [[=]|[]]].
    step. destruct (urlsafe_b64decode d) as [bytes|e] eqn:Hdec; [|by intros [[=]|[]]].
    step. destruct (Secondary.write_file h save_path bytes) as [[]|e];
      intros [[=]|[[= <- <-]|[]]]; (split; [reflexivity|]); by exists att, d.
  - intros att d c Hget Hdata Hdec Hwrite.
    unfold Secondary.call_tool, Secondary.tool. cbn [Secondary.tool_body].
    unfold Secondary.download_attachment_body, users_attachments_get.
    cbn. rewrite Hget. cbn. rewrite Hdata. cbn. rewrite Hdec. cbn.
    rewrite Hwrite. reflexivity.
Qed.

Lemma download_writes_decoded_data_only_witness :
  Secondary.call_tool Sample.plain_host (Some Sample.with_thread)
    (Secondary.DownloadAttachment "m1" "a1" "/tmp/notes.txt")
  = (Return (Secondary.success
       [("message", PStr "Attachment saved to /tmp/notes.txt"); ("size", PInt 5)]),
     [Call (AttachmentsGet "m1" "a1"); WriteFile "/tmp/notes.txt" "Hello"])
  /\ ("/tmp/notes.txt" = "/tmp/notes.txt"
      /\ exists att d,
           attachments_get Sample.with_thread "m1" "a1" = Return att
           /\ Gmail.attachment_data att = Some d
           /\ urlsafe_b64decode d = Return "Hello").
Proof.
  destruct (download_writes_decoded_data_only Sample.plain_host Sample.with_thread
              "m1" "a1" "/tmp/notes.txt") as [Honly Hdone].
  split.
  - exact (Hdone (Gmail.Attachment (Some "SGVsbG8=")) "SGVsbG8=" "Hello"
             eq_refl eq_refl eq_refl eq_refl).
  - apply (Honly "/tmp/notes.txt" "Hello"). right. left. reflexivity.
Defined.



(** A header entry without a value fails the read under every
    format. *)
Example read_fails_on_header_without_value :
  Secondary.read_email
    (Some (Sample.serving
       (Gmail.Message (Some "m1") (Some "t1") None None
          (Some (Gmail.Part None (Some [Gmail.Header (Some "X-Odd") None]) None None))
          None None)))
    "m1" "metadata"
  = (Return (PDict {[ "success" := PBool false; "error" := PStr "'value'" ]}),
     [Call (MessagesGet "m1" "metadata" None)]).
Proof. reflexivity. Qed.

(** *** Reading under the primary server *)

Lemma collect_total (l : list Gmail.part) :
  Forall base64_leaf l -> exists texts, collect l = Return texts.
Proof.
  induction 1 as [|q l Hq _ [texts IH]]; [by eexists|].
  cbn [collect]. rewrite IH. unfold leaf_text.
  destruct (Gmail.body q) as [b|] eqn:Hb; [|by eexists].
  destruct (Gmail.data b) as [d|] eqn:Hd; [|by eexists].
  destruct (truthy_str d); [|by eexists].
  destruct (Hq b d Hb Hd) as [bytes ->]. by eexists.
Qed.

(** X13.  [read_email] of the primary server cannot fail on the content
    of a message whose header entries have their name and value and
    whose leaves carry base64 data or none: a missing body, missing or
    empty data and bytes that are not text are all passed over.  The
    text it returns holds the first [Subject] and [From] header and
    then the texts of the leaves joined by newlines, or the snippet
    when no leaf gave a text. *)
Theorem primary_read_tolerates_odd_parts svc message_id message hs :
  messages_get svc message_id "full" None = Return message ->
  Primary.headers_of message = entries hs ->
  (forall p, Gmail.payload message = Some p -> Forall base64_leaf (Spec.leaves p)) ->
  exists texts,
    leaf_texts message = Return texts
    /\ Primary.tool_read_email svc message_id
       = (Return ("Subject: " +:+ default EmptyString (snd <$> head (named "Subject" hs))
                  +:+ nl +:+ "From: "
                  +:+ default EmptyString (snd <$> head (named "From" hs))
                  +:+ nl +:+ nl
                  +:+ match texts with
                      | [] => default EmptyString (Gmail.snippet message)
                      | _ => join nl texts
                      end),
          [Call (MessagesGet message_id "full" None)]).
Proof.
  intros Hget Hhs Hleaves.
  assert (exists texts, leaf_texts message = Return texts) as [texts Htexts].
  { unfold leaf_texts. destruct (Gmail.payload message) as [p|]; [|by eexists].
    apply collect_total. by apply Hleaves. }
  exists texts. split; [exact Htexts|].
  assert (match Gmail.payload message with
          | Some p => Primary.walk p
          | None => Return []
          end = Return texts) as Hwalk.
  { unfold leaf_texts in Htexts. destruct (Gmail.payload message); [|exact Htexts].
    by rewrite walk_collects_leaves. }
  unfold Primary.tool_read_email, Primary.wrapper, Primary.read_email, users_messages_get.
  rewrite Hget. unfold mbind, M_bind, bind, perform, pure. cbv zeta.
  rewrite Hhs, !first_header_entries, Hwalk.
  reflexivity.
Qed.

Lemma primary_read_tolerates_odd_parts_witness :
  exists texts,
    leaf_texts Sample.text_attachment = Return texts
    /\ Primary.tool_read_email (Sample.serving Sample.text_attachment) "m7"
       = (Return ("Subject: " +:+ EmptyString +:+ nl +:+ "From: " +:+ EmptyString
                  +:+ nl +:+ nl
                  +:+ match texts with
                      | [] => default EmptyString (Gmail.snippet Sample.text_attachment)
                      | _ => join nl texts
                      end),
          [Call (MessagesGet "m7" "full" None)]).
Proof.
  apply (primary_read_tolerates_odd_parts (Sample.serving Sample.text_attachment) "m7"
           Sample.text_attachment []); [reflexivity..|].
  intros p [= <-]. repeat constructor. intros b d [= <-] [=].
Defined.

(** A header entry without a name fails the read of the primary
    server, with an exception that its wrapper lets through. *)
Example primary_read_fails_on_header_without_name :
  Primary.tool_read_email
    (Sample.serving
       (Gmail.Message (Some "m1") (Some "t1") None None
          (Some (Gmail.Part None (Some [Gmail.Header None (Some "x")]) None None))
          None None))
    "m1"
  = (Raise (KeyError "name"), [Call (MessagesGet "m1" "full" None)]).
Proof. reflexivity. Qed.

(** *** The two decoders *)

Lemma append_snoc (a : string) (c : ascii) (b : string) :
  (a +:+ String c EmptyString) +:+ b = a +:+ String c b.
Proof.
  induction a as [|x a IH]; [reflexivity|].
  change (String x ((a +:+ String c EmptyString) +:+ b) = String x (a +:+ String c b)).
  by f_equal.
Qed.

Lemma push_Return c r s : push c r = Return s -> exists s', r = Return s' /\ s = String c s'.
Proof. destruct r as [s'|e]; cbn; [intros [= <-]; eauto | discriminate]. Qed.

Lemma utf8_strict_and_lenient_agree (b : string) :
  forall pending first start pos buf s,
    utf8_decode_from pending first start pos b = Return s ->
    s = b
    /\ utf8_ignore_from pending buf b
       = match pending with [] => b | _ => buf +:+ b end.
Proof.
  induction b as [|c b IH]; intros pending first start pos buf s;
    cbn [utf8_decode_from utf8_ignore_from].
  - destruct pending; [intros [= <-]; by split | discriminate].
  - destruct pending as [|[lo hi] p].
    + destruct (utf8_lead c) as [p|]; [|discriminate].
      intros (s' & Hs' & ->)%push_Return.
      destruct (IH p c pos (S pos) (String c EmptyString) s' Hs') as [-> Hig].
      split; [reflexivity|].
      destruct p; [|exact Hig].
      f_equal. exact (proj2 (IH [] c pos (S pos) EmptyString b Hs')).
    + destruct (byte_in lo hi c); [|discriminate].
      intros (s' & Hs' & ->)%push_Return.
      destruct (IH p first start (S pos) (buf +:+ String c EmptyString) s' Hs')
        as [-> Hig].
      split; [reflexivity|].
      destruct p.
      * f_equal. f_equal. exact (proj2 (IH [] first start (S pos) EmptyString b Hs')).
      * rewrite Hig. apply append_snoc.
Qed.

(** X14.  For a part without children whose data the secondary server
    can decode (base64, then strict UTF-8), [walk] of the primary
    server, with its lenient decoding, collects the same text, and
    nothing when the data is the empty string.  When such a part is the
    whole payload and lists no parts at all, [_extract_body] of the
    secondary server returns that text as the body. *)
Theorem decoders_agree_on_text (p : Gmail.part) (d t : string) :
  truthy_opt_list (Gmail.parts p) = false ->
  Secondary.body_data p = Return d ->
  Secondary.decode_data d = Return t ->
  Primary.walk p = Return (if truthy_str d then [t] else [])
  /\ (Gmail.parts p = None ->
      Secondary._extract_body p = Return (if truthy_str d then t else EmptyString)).
Proof.
  intros Hleaf Hdata Hdec.
  destruct p as [mt hs [[[d'|] att]|] ps]; try discriminate Hdata.
  injection Hdata as ->. split.
  - assert (Primary.walk (Gmail.Part mt hs (Some (Gmail.PartBody (Some d) att)) ps)
            = if truthy_str d
              then decoded ← urlsafe_b64decode d; Return [decode_utf8_ignore decoded]
              else Return []) as ->
      by (destruct ps as [[|q l]|]; [reflexivity | discriminate Hleaf | reflexivity]).
    destruct (truthy_str d); [|reflexivity].
    unfold Secondary.decode_data in Hdec.
    destruct (urlsafe_b64decode d) as [bytes|e]; cbn in Hdec |- *; [|discriminate].
    destruct (utf8_strict_and_lenient_agree bytes [] _ _ _ EmptyString t Hdec) as [-> Hig].
    unfold decode_utf8_ignore. by rewrite Hig.
  - cbn [Gmail.parts]. intros ->. unfold Secondary._extract_body.
    cbn [Gmail.parts Gmail.body Gmail.data Gmail.subscript mbind outcome_bind
         truthy_opt_str].
    destruct (truthy_str d); [exact Hdec | reflexivity].
Qed.

Lemma decoders_agree_on_text_witness :
  Primary.walk (Sample.leaf "text/plain" "SGVsbG8=") = Return ["Hello"]
  /\ (Gmail.parts (Sample.leaf "text/plain" "SGVsbG8=") = None ->
      Secondary._extract_body (Sample.leaf "text/plain" "SGVsbG8=") = Return "Hello").
Proof.
  exact (decoders_agree_on_text (Sample.leaf "text/plain" "SGVsbG8=") "SGVsbG8=" "Hello"
           eq_refl eq_refl eq_refl).
Defined.

(** Where the strict decoder gives up, the lenient one drops the bytes
    that are not text: the secondary server fails the read, the primary
    server returns what is left. *)
Example decoders_part_on_bytes_that_are_no_text :
  Secondary.decode_data "SGn_" = Raise (UnicodeDecodeError
    "'utf-8' codec can't decode byte 0xff in position 2: invalid start byte")
  /\ Primary.walk (Sample.leaf "text/plain" "SGn_") = Return ["Hi"].
Proof. split; reflexivity. Qed.

(** *** Authentication of the primary server *)

Ltac case_on x := let E := fresh "E" in destruct x eqn:E; cbn.

Ltac auth_cases :=
  repeat match goal with
    | |- context [match token_file ?h with _ => _ end] => case_on (token_file h)
    | |- context [match refresh ?h ?c with _ => _ end] => case_on (refresh h c)
    | |- context [match from_client_secrets_file ?h with _ => _ end] =>
        case_on (from_client_secrets_file h)
    | |- context [match run_local_server ?h with _ => _ end] => case_on (run_local_server h)
    | |- context [match write_token ?h ?c with _ => _ end] => case_on (write_token h c)
    | |- context [match input ?h with _ => _ end] => case_on (input h)
    | |- context [match fetch_token ?h ?c with _ => _ end] => case_on (fetch_token h c)
    | |- context [if valid ?c then _ else _] => case_on (valid c)
    | |- context [if expired ?c && _ then _ else _] => case_on (expired c)
    | |- context [if truthy_opt_str ?o then _ else _] => case_on (truthy_opt_str o)
    | |- context [if is_OSError ?e then _ else _] => case_on (is_OSError e)
    | |- context [if negb (credentials_file_exists ?h) then _ else _] =>
        case_on (credentials_file_exists h)
    | |- context [if Secondary.refreshable ?c then _ else _] =>
        case_on (Secondary.refreshable c)
    | |- context [match ?o with Return _ => _ | Raise _ => _ end] => case_on o
    | x : unit |- _ => destruct x
    end.

(** X15.  Whatever happens on the way, the credential that
    [_get_service] builds the service with is the stored one and valid,
    or the refreshed one and valid, or the one the browser flow
    returned. *)
Theorem primary_session_is_valid_or_fresh h c :
  result (Primary._get_service h) = Return c ->
  (token_file h = Some (Return c) /\ valid c = true)
  \/ (exists c0, token_file h = Some (Return c0) /\ refresh h c0 = Return c
                 /\ valid c = true)
  \/ run_local_server h = Return c.
Proof.
  unfold Primary._get_service, Primary.load_token, Primary.sign_in,
    Primary.try_refresh, Primary.interactive_grant.
  cbn. auth_cases; intros [= <-]; eauto 10.
Qed.

Lemma primary_session_is_valid_or_fresh_witness :
  (token_file Sample.revoked_host = Some (Return Sample.fresh)
   /\ valid Sample.fresh = true)
  \/ (exists c0, token_file Sample.revoked_host = Some (Return c0)
                 /\ refresh Sample.revoked_host c0 = Return Sample.fresh
                 /\ valid Sample.fresh = true)
  \/ run_local_server Sample.revoked_host = Return Sample.fresh.
Proof.
  exact (primary_session_is_valid_or_fresh Sample.revoked_host Sample.fresh eq_refl).
Defined.

(** X16.  In the primary server a token file that cannot be written
    does not cost the session: as long as writing fails with [OSError]
    only, [_get_service] ends exactly as it would on a host where the
    write goes through. *)
Theorem primary_forgives_unwritable_token_file h :
  fails_with_OSError_only h ->
  result (Primary._get_service h) = result (Primary._get_service (writable h)).
Proof.
  intros Hf.
  unfold Primary._get_service, Primary.load_token, Primary.sign_in,
    Primary.try_refresh, Primary.interactive_grant.
  cbn. auth_cases; try reflexivity;
    match goal with
    | Hw : write_token _ _ = Raise ?e, Hos : is_OSError ?e = false |- _ =>
        rewrite (Hf _ _ Hw) in Hos; discriminate
    end.
Qed.

Lemma primary_forgives_unwritable_token_file_witness :
  result (Primary._get_service Sample.read_only_host) = Return Sample.fresh.
Proof.
  refine (primary_forgives_unwritable_token_file Sample.read_only_host _).
  intros c e [= <-]. reflexivity.
Defined.

(** X17.  In the primary server a token file that cannot be loaded
    counts as no token file: the failure is logged as a warning and
    [_get_service] goes on exactly as on a host without the file. *)
Theorem primary_treats_broken_token_as_none h e :
  token_file h = Some (Raise e) ->
  Primary._get_service h
  = (result (Primary._get_service (without_token h)),
     [LoadToken; LogWarning ("Failed to load token: " +:+ str e)]
     ++ trace (Primary._get_service (without_token h))).
Proof.
  intros Hf.
  unfold Primary._get_service, Primary.load_token, Primary.sign_in,
    Primary.try_refresh, Primary.interactive_grant.
  cbn. rewrite Hf. cbn. auth_cases; reflexivity.
Qed.

Lemma primary_treats_broken_token_as_none_witness :
  Primary._get_service Sample.corrupt_host
  = (Return Sample.fresh,
     [LoadToken;
      LogWarning "Failed to load token: Expecting value: line 1 column 1 (char 0)";
      LoadClientSecrets; RunLocalServer; WriteToken]).
Proof.
  exact (primary_treats_broken_token_as_none Sample.corrupt_host
           (ValueError "Expecting value: line 1 column 1 (char 0)") eq_refl).
Defined.

(** *** Authentication and start-up of the secondary server *)

Ltac not_among :=
  let Hin := fresh "Hin" in
  intros Hin; cbn in Hin;
  repeat (destruct Hin as [Hin|Hin]; [discriminate Hin|]); exact Hin.

(** X18.  With [manual_auth=True], [authenticate] never starts the
    local callback server: whatever the host answers, the browser flow
    is not among the things it does. *)
Theorem manual_auth_never_runs_local_server h :
  ~ In RunLocalServer (trace (Secondary.authenticate h true)).
Proof.
  unfold Secondary.authenticate. cbn [Secondary.authenticate_depth].
  unfold Secondary.authenticate_body, Secondary.save_credentials.
  cbn. auth_cases; not_among.
Qed.

(** X19.  When the browser flow fails, for whatever reason,
    [authenticate(manual_auth=False)] ends exactly as
    [authenticate(manual_auth=True)] does on the same host: the
    failure of the automatic flow is never what the caller gets. *)
Theorem failed_browser_flow_falls_back_to_manual h e :
  run_local_server h = Raise e ->
  result (Secondary.authenticate h false) = result (Secondary.authenticate h true).
Proof.
  intros Hr.
  unfold Secondary.authenticate. cbn [Secondary.authenticate_depth].
  unfold Secondary.authenticate_body, Secondary.save_credentials.
  cbn. rewrite Hr. cbn. auth_cases; reflexivity.
Qed.

Lemma failed_browser_flow_falls_back_to_manual_witness :
  result (Secondary.authenticate Sample.headless false)
  = result (Secondary.authenticate Sample.headless true).
Proof.
  exact (failed_browser_flow_falls_back_to_manual Sample.headless
           (RuntimeError "could not locate runnable browser") eq_refl).
Defined.

(** X20.  Every credential that [authenticate] of the secondary server
    returns is either the stored one, found valid, or one that has just
    been written to the token file successfully: a credential that
    could not be stored is never used. *)
Theorem secondary_session_is_stored h manual_auth c :
  result (Secondary.authenticate h manual_auth) = Return c ->
  (token_file h = Some (Return c) /\ valid c = true)
  \/ write_token h c = Return tt.
Proof.
  unfold Secondary.authenticate. cbn [Secondary.authenticate_depth].
  unfold Secondary.authenticate_body, Secondary.save_credentials.
  destruct manual_auth; cbn; auth_cases; intros [= <-]; eauto.
Qed.

Lemma secondary_session_is_stored_witness :
  (token_file Sample.headless = Some (Return Sample.fresh) /\ valid Sample.fresh = true)
  \/ write_token Sample.headless Sample.fresh = Return tt.
Proof.
  exact (secondary_session_is_stored Sample.headless false Sample.fresh eq_refl).
Defined.

(** X21.  [run] ends with the error of [authenticate] when that fails
    and otherwise with whatever serving ends with; the profile query it
    makes in between only reports: its failure changes nothing. *)
Theorem run_survives_a_failed_profile_query h build manual_auth mcp_run :
  result (Secondary.run h build manual_auth mcp_run)
  = match result (Secondary.authenticate h manual_auth) with
    | Return _ => mcp_run
    | Raise e => Raise e
    end.
Proof.
  unfold Secondary.run, Secondary.report_profile, users_getProfile.
  destruct (Secondary.authenticate h manual_auth) as [[creds|e] t]; cbn; [|reflexivity].
  destruct (getProfile (build creds)); cbn; destruct mcp_run; reflexivity.
Qed.

(** *** Text helpers *)

Lemma append_empty_r (s : string) : s +:+ EmptyString = s.
Proof.
  induction s as [|c s IH]; [reflexivity|].
  change (String c (s +:+ EmptyString) = String c s). by rewrite IH.
Qed.

Lemma split_absent (sep s : string) :
  forall acc, occurs sep s = false -> split_from 0 sep acc s = [acc +:+ s].
Proof.
  induction s as [|c s IH]; intros acc H; cbn [split_from].
  - by rewrite append_empty_r.
  - cbn [occurs] in H. apply orb_false_iff in H as [Hp Ho].
    rewrite Hp, (IH _ Ho). by rewrite append_snoc.
Qed.

Lemma occurs_char_app (c : ascii) (x y : string) :
  occurs (String c EmptyString) (x +:+ y)
  = occurs (String c EmptyString) x || occurs (String c EmptyString) y.
Proof.
  induction x as [|a x IH]; [reflexivity|].
  change (occurs (String c EmptyString) (String a (x +:+ y))
          = occurs (String c EmptyString) (String a x)
            || occurs (String c EmptyString) y).
  cbn [occurs startswith]. rewrite IH.
  destruct (Ascii.eqb c a); cbn; [reflexivity|].
  by destruct x.
Qed.

Lemma first_piece_is_free (c : ascii) (s : string) :
  forall acc,
    occurs (String c EmptyString) acc = false ->
    occurs (String c EmptyString)
      (List.hd EmptyString (split_from 0 (String c EmptyString) acc s)) = false.
Proof.
  induction s as [|a s IH]; intros acc Hacc; cbn [split_from]; [exact Hacc|].
  cbn [startswith String.length Nat.pred].
  destruct (Ascii.eqb c a) eqn:E; cbn [andb List.hd]; [exact Hacc|].
  apply IH. rewrite occurs_char_app, Hacc. cbn. rewrite E. reflexivity.
Qed.

(** X22.  From what the user pastes, the manual flow takes the whole
    text as the authorization code when it holds no "code=", and
    otherwise a piece of it that stops before the next "&": a code
    taken out of a redirect URL never drags further URL parameters
    along. *)
Theorem pasted_code_is_cut_at_the_ampersand (auth_response : string) :
  (occurs "code=" auth_response = false ->
   Secondary.extract_code auth_response = auth_response)
  /\ (Secondary.extract_code auth_response <> auth_response ->
      occurs "&" (Secondary.extract_code auth_response) = false).
Proof.
  split.
  - intros H. unfold Secondary.extract_code, split.
    by rewrite (split_absent _ _ EmptyString H).
  - unfold Secondary.extract_code.
    destruct (split "code=" auth_response) as [|first [|after rest]]; try congruence.
    intros _. by apply first_piece_is_free.
Qed.

Lemma pasted_code_is_cut_at_the_ampersand_witness :
  Secondary.extract_code "4/0AbCd" = "4/0AbCd"
  /\ occurs "&"
       (Secondary.extract_code "http://localhost/?state=xyz&code=4/0AbCd&scope=gmail")
     = false.
Proof.
  split.
  - exact (proj1 (pasted_code_is_cut_at_the_ampersand "4/0AbCd") eq_refl).
  - apply (proj2 (pasted_code_is_cut_at_the_ampersand
                    "http://localhost/?state=xyz&code=4/0AbCd&scope=gmail")).
    discriminate.
Defined.

Lemma rstrip_snoc (c : ascii) (s : string) :
  rstrip_char c (s +:+ String c EmptyString) = rstrip_char c s.
Proof.
  induction s as [|a s IH].
  - change (rstrip_char c (String c EmptyString) = EmptyString).
    cbn [rstrip_char]. by rewrite Ascii.eqb_refl.
  - change (rstrip_char c (String a (s +:+ String c EmptyString))
            = rstrip_char c (String a s)).
    cbn [rstrip_char]. by rewrite IH.
Qed.

Lemma webhook_url_slashes (base_url path : string) :
  Primary.webhook_url (base_url +:+ "/") path = Primary.webhook_url base_url path
  /\ Primary.webhook_url base_url ("/" +:+ path) = Primary.webhook_url base_url path.
Proof.
  unfold Primary.webhook_url. split; [by rewrite rstrip_snoc | reflexivity].
Qed.

(** X23.  With a base URL that is set and not empty,
    [trigger_n8n_workflow] posts to the same address, and so ends the
    same way, when a slash is added at the end of the base URL or at
    the start of the path.  Without a base URL, or with an empty one,
    it raises before anything is posted. *)
Theorem webhook_url_ignores_extra_slashes (base_url path : string) post payload :
  truthy_str base_url = true ->
  Primary.trigger_n8n_workflow (Some (base_url +:+ "/")) post path payload
  = Primary.trigger_n8n_workflow (Some base_url) post path payload
  /\ Primary.trigger_n8n_workflow (Some base_url) post ("/" +:+ path) payload
     = Primary.trigger_n8n_workflow (Some base_url) post path payload
  /\ Primary.trigger_n8n_workflow (Some base_url) post path payload
     = (status_code ← post (Primary.webhook_url base_url path) payload;
        Return ("n8n workflow triggered successfully (HTTP " +:+ pretty status_code
                +:+ ")."))
  /\ Primary.trigger_n8n_workflow None post path payload
     = Raise (RuntimeError "N8N_WEBHOOK_BASE_URL is not set")
  /\ Primary.trigger_n8n_workflow (Some EmptyString) post path payload
     = Raise (RuntimeError "N8N_WEBHOOK_BASE_URL is not set").
Proof.
  intros Hset. destruct (webhook_url_slashes base_url path) as [Hbase Hpath].
  assert (truthy_str (base_url +:+ "/") = true) as Hset' by (by destruct base_url).
  unfold Primary.trigger_n8n_workflow. cbn [truthy_opt_str from_option id]. cbv zeta.
  rewrite Hset, Hset', Hbase, Hpath. by repeat split.
Qed.

Lemma webhook_url_ignores_extra_slashes_witness :
  Primary.trigger_n8n_workflow (Some "https://n8n.example.com/webhook/")
    Sample.webhook "hook" PNone
  = Primary.trigger_n8n_workflow (Some "https://n8n.example.com/webhook")
      Sample.webhook "hook" PNone
  /\ Primary.trigger_n8n_workflow (Some "https://n8n.example.com/webhook")
       Sample.webhook "/hook" PNone
     = Primary.trigger_n8n_workflow (Some "https://n8n.example.com/webhook")
         Sample.webhook "hook" PNone.
Proof.
  destruct (webhook_url_ignores_extra_slashes "https://n8n.example.com/webhook" "hook"
              Sample.webhook PNone eq_refl) as (Hbase & Hpath & _).
  exact (conj Hbase Hpath).
Defined.

(** On the sample endpoint: the workflow is reached with or without
    the extra slashes, and a base URL that is one slash only posts to
    the bare path. *)
Example webhook_on_sample_endpoint :
  Primary.trigger_n8n_workflow (Some "https://n8n.example.com/webhook/")
    Sample.webhook "/hook" PNone
  = Return "n8n workflow triggered successfully (HTTP 200)."
  /\ Primary.trigger_n8n_workflow (Some "/") Sample.webhook "hook" PNone
     = Raise (TransportError "Request URL is missing an 'http://' or 'https://' protocol.").
Proof. split; reflexivity. Qed.

(** *** Attachment names *)

Lemma slash_first (c : ascii) (s : string) :
  occurs "/" (String c s) = Ascii.eqb c "/"%char || occurs "/" s.
Proof.
  cbn [occurs startswith]. rewrite andb_true_r.
  by destruct (Ascii.eqb_spec "/"%char c), (Ascii.eqb_spec c "/"%char); try congruence.
Qed.

Lemma basename_from_free (s : string) :
  forall acc, occurs "/" s = false -> basename_from acc s = acc +:+ s.
Proof.
  induction s as [|c s IH]; intros acc H; cbn [basename_from].
  - by rewrite append_empty_r.
  - rewrite slash_first in H. apply orb_false_iff in H as [Hc Hs].
    rewrite Hc, (IH _ Hs). apply append_snoc.
Qed.

Lemma basename_from_last (dir : string) :
  forall acc name,
    occurs "/" name = false ->
    basename_from acc (dir +:+ String "/" name) = name.
Proof.
  induction dir as [|c dir IH]; intros acc name H.
  - change (basename_from acc (String "/" name) = name).
    cbn [basename_from]. rewrite Ascii.eqb_refl. by rewrite basename_from_free.
  - change (basename_from acc (String c (dir +:+ String "/" name)) = name).
    cbn [basename_from]. destruct (Ascii.eqb c "/"); by apply IH.
Qed.

Lemma split_once (a : string) :
  forall acc b,
    occurs "/" a = false -> occurs "/" b = false ->
    split_from 0 "/" acc (a +:+ String "/" b) = [acc +:+ a; b].
Proof.
  induction a as [|c a IH]; intros acc b Ha Hb.
  - change (split_from 0 "/" acc (String "/" b) = [acc +:+ EmptyString; b]).
    cbn [split_from startswith String.length Nat.pred].
    rewrite Ascii.eqb_refl. cbn [andb].
    by rewrite (split_absent _ _ EmptyString Hb), append_empty_r.
  - change (split_from 0 "/" acc (String c (a +:+ String "/" b))
            = [acc +:+ String c a; b]).
    rewrite slash_first in Ha. apply orb_false_iff in Ha as [Hc Ha].
    cbn [split_from startswith]. rewrite andb_true_r.
    destruct (Ascii.eqb_spec "/"%char c) as [<-|_]; [discriminate Hc|].
    rewrite (IH _ _ Ha Hb). by rewrite append_snoc.
Qed.

Lemma truthy_typed (a b : string) : truthy_str (a +:+ String "/" b) = true.
Proof. by destruct a. Qed.

(** X24.  An attached file is named after the last component of its
    path on both servers: the directories never reach the recipient.
    The primary server always labels the part application/octet-stream;
    the secondary server labels it with the two halves of the type
    guessed from the path. *)
Theorem attachment_is_named_after_the_file
    fs h dir name content main_type sub_type subtype hdrs l :
  occurs "/" name = false ->
  (read_bytes fs (dir +:+ "/" +:+ name) = Return content ->
   Primary.attach_file fs (Mime.MIMEMultipart subtype hdrs l) (dir +:+ "/" +:+ name)
   = (Return (Mime.MIMEMultipart subtype hdrs
        (l ++ [Mime.MIMEBase "application" "octet-stream" content
                 [("Content-Transfer-Encoding", "base64");
                  ("Content-Disposition", disposition name)]])), []))
  /\ (isfile (Secondary.fs h) (dir +:+ "/" +:+ name) = true ->
      read_bytes (Secondary.fs h) (dir +:+ "/" +:+ name) = Return content ->
      Secondary.guess_type h (dir +:+ "/" +:+ name) = Some (main_type +:+ "/" +:+ sub_type) ->
      occurs "/" main_type = false -> occurs "/" sub_type = false ->
      Secondary.attach_file h (Mime.MIMEMultipart subtype hdrs l) (dir +:+ "/" +:+ name)
      = Return (Mime.MIMEMultipart subtype hdrs
          (l ++ [Mime.MIMEBase main_type sub_type content
                   [("Content-Transfer-Encoding", "base64");
                    ("Content-Disposition", disposition name)]]))).
Proof.
  intros Hname.
  assert (Hbase : basename (dir +:+ "/" +:+ name) = name)
    by (unfold basename; by apply basename_from_last).
  split.
  - intros Hread. unfold Primary.attach_file. rewrite Hread, Hbase. reflexivity.
  - intros Hfile Hread Hguess Hmain Hsub.
    unfold Secondary.attach_file. rewrite Hfile, Hread, Hguess, Hbase.
    change (main_type +:+ "/" +:+ sub_type) with (main_type +:+ String "/" sub_type).
    rewrite truthy_typed. unfold Secondary.unpack_type, split.
    rewrite (split_once _ EmptyString _ Hmain Hsub). reflexivity.
Qed.

Lemma attachment_is_named_after_the_file_witness :
  Primary.attach_file Sample.some_files (Mime.MIMEMultipart "mixed" [] [])
    "/home/alice/report.pdf"
  = (Return (Mime.MIMEMultipart "mixed" []
       [Mime.MIMEBase "application" "octet-stream" "%PDF-1.7"
          [("Content-Transfer-Encoding", "base64");
           ("Content-Disposition", disposition "report.pdf")]]), [])
  /\ Secondary.attach_file Sample.office_host (Mime.MIMEMultipart "mixed" [] [])
       "/home/alice/report.pdf"
     = Return (Mime.MIMEMultipart "mixed" []
         [Mime.MIMEBase "application" "pdf" "%PDF-1.7"
            [("Content-Transfer-Encoding", "base64");
             ("Content-Disposition", disposition "report.pdf")]]).
Proof.
  destruct (attachment_is_named_after_the_file Sample.some_files Sample.office_host
              "/home/alice" "report.pdf" "%PDF-1.7" "application" "pdf"
              "mixed" [] [] eq_refl) as [Hp Hs].
  split; [exact (Hp eq_refl) | exact (Hs eq_refl eq_refl eq_refl eq_refl eq_refl)].
Defined.

(** *** Address headers *)





Lemma secondary_attach_file_keeps_headers h message file_path m :
  Secondary.attach_file h message file_path = Return m ->
  Mime.headers_of m = Mime.headers_of message.
Proof.
  unfold Secondary.attach_file.
  destruct (isfile _ _); [|by intros [= <-]].
  destruct (read_bytes _ _) as [content|e]; [|discriminate].
  cbn. destruct (match Secondary.guess_type h file_path with
                 | Some mime_type =>
                     if truthy_str mime_type then Secondary.unpack_type mime_type
                     else Return ("application", "octet-stream")
                 | None => Return ("application", "octet-stream")
                 end) as [ty|e]; [|discriminate].
  cbn. intros [= <-]. apply attach_keeps_headers.
Qed.

Lemma secondary_attach_files_keep_headers h (paths : list string) :
  forall message m,
    Secondary.attach_files h message paths = Return m ->
    Mime.headers_of m = Mime.headers_of message.
Proof.
  induction paths as [|p paths IH]; intros message m; cbn [Secondary.attach_files].
  - by intros [= <-].
  - destruct (Secondary.attach_file h message p) as [m'|e] eqn:Hone; [|discriminate].
    cbn. intros Hrest. rewrite (IH _ _ Hrest).
    by apply secondary_attach_file_keeps_headers in Hone.
Qed.

Lemma send_email_message_bare h body html attachments m :
  Secondary.send_email_message h body html attachments = Return m ->
  Mime.headers_of m = [].
Proof.
  unfold Secondary.send_email_message.
  destruct (truthy_opt_list attachments); [|by intros [= <-]].
  intros H. by apply secondary_attach_files_keep_headers in H.
Qed.

Lemma address_headers_leave_sender_out to subject cc bcc message :
  Mime.headers_of message = [] ->
  Mime.get_all "From" (Secondary.address_headers to subject cc bcc message) = [].
Proof.
  intros H. unfold Secondary.address_headers.
  destruct (truthy_opt_str cc), (truthy_opt_str bcc);
    rewrite !get_all_setitem; unfold Mime.get_all; rewrite H; reflexivity.
Qed.

(** X26.  No tool of the secondary server ever hands the provider a
    message with a [From] header, whatever the arguments, the files and
    the provider's answers: the sender of what it sends, drafts and
    replies is left to the provider. *)
Theorem secondary_never_writes_the_sender h svc i :
  traces leaves_sender_out (Secondary.call_tool h svc i).
Proof.
  destruct i; unfold_tools.
  2-15: walk_trace ltac:(first
          [ by cbn
          | cbn; by apply address_headers_leave_sender_out
          | cbn; reflexivity ]).
  apply traces_try; [|intros; apply traces_ret].
  apply traces_bind_pure. intros message Hmessage.
  apply send_email_message_bare in Hmessage.
  walk_trace ltac:(cbn; by apply address_headers_leave_sender_out).
Qed.

(** X27.  When the profile query fails, the primary [send_email] and
    [create_draft] tools stop there: the error reaches the caller and
    the profile query is the only request made, so nothing is sent or
    stored without a sender. *)
Theorem failed_profile_query_stops_the_send fs as_bytes svc a e :
  getProfile svc = Raise e ->
  (result (Primary.tool_send_email fs as_bytes svc a) = Raise e
   /\ calls (trace (Primary.tool_send_email fs as_bytes svc a)) = [GetProfile])
  /\ (result (Primary.tool_create_draft fs as_bytes svc a) = Raise e
      /\ calls (trace (Primary.tool_create_draft fs as_bytes svc a)) = [GetProfile]).
Proof.
  intros H.
  unfold Primary.tool_send_email, Primary.tool_create_draft, Primary.wrapper,
    Primary.send_email, Primary.create_draft, Primary.compose_outgoing,
    Primary.get_user_email, users_getProfile.
  rewrite H. cbn. destruct (is_HttpError e); cbn; auto.
Qed.

Lemma failed_profile_query_stops_the_send_witness :
  result (Primary.tool_send_email Sample.no_files Sample.header_check Sample.signed_out
            Sample.hello)
  = Raise (HttpError 401 "Invalid Credentials")
  /\ calls (trace (Primary.tool_send_email Sample.no_files Sample.header_check
                     Sample.signed_out Sample.hello))
     = [GetProfile].
Proof.
  exact (proj1 (failed_profile_query_stops_the_send Sample.no_files Sample.header_check
                  Sample.signed_out Sample.hello _ eq_refl)).
Defined.
